(** * opx-control-plane: the orchestration kernel, embedded and verified

    A shallow embedding of the pure parts of the LangGraph orchestration
    kernel:

    - [src/langgraph/state.py]             (module [State])
    - [src/langgraph/agent_node.py]        (module [AgentNode])
    - [src/langgraph/consensus_node.py]    (module [ConsensusNode])
    - [infra/phase6/lambda/cost_guardian_node.py] (module [CostGuardian])
    - [src/tracing/redaction.py]           (module [Redaction])

    Python values are modelled as the code has them: [float] is IEEE-754
    binary64 (Rocq's primitive floats), [int] is [Z], [str] is [string]
    (a sequence of 8-bit code points), a [dict] is an association list in
    insertion order, [Optional[T]] is [option T].  Wall-clock reads and the
    remote Bedrock call are inputs of the node functions. *)

From Stdlib Require Import Floats ZArith List String Ascii Bool Lia.
From Stdlib Require Import Decimal DecimalString.
From Stdlib Require Import Sorted Permutation.
Import ListNotations.

Set Warnings "-inexact-float,-register-all".

(* ################################################################# *)
(** * Python built-ins used by the sources *)

Module Py.

(** ** dict: association lists in insertion order *)

Section Dict.
Context {V : Type}.

(** [d.get(k)] *)
Fixpoint dict_get (k : string) (d : list (string * V)) : option V :=
  match d with
  | [] => None
  | (k', v) :: d' => if String.eqb k k' then Some v else dict_get k d'
  end.

(** [k in d] *)
Definition dict_mem (k : string) (d : list (string * V)) : bool :=
  match dict_get k d with Some _ => true | None => false end.

(** [{**d, k: v}]: an existing key keeps its position, a new key goes
    last. *)
Fixpoint dict_set (k : string) (v : V) (d : list (string * V))
  : list (string * V) :=
  match d with
  | [] => [(k, v)]
  | (k', v') :: d' =>
      if String.eqb k k' then (k', v) :: d' else (k', v') :: dict_set k v d'
  end.

(** [d.values()] *)
Definition dict_values (d : list (string * V)) : list V := map snd d.

(** [d.keys()] *)
Definition dict_keys (d : list (string * V)) : list string := map fst d.
End Dict.

(** ** float *)

(** [x > y] *)
Definition gtb (x y : float) : bool := PrimFloat.ltb y x.

(** [float(z)] for a Python int: the nearest binary64, ties to even. *)
Definition Z2float (z : Z) : float :=
  SF2Prim (binary_normalize prec emax z 0 false).

Definition nat2float (n : nat) : float := Z2float (Z.of_nat n).

(** [sum(xs)] for floats: the int 0, then left-to-right additions
    (CPython up to 3.11; 3.12 adds a compensation term). *)
Definition fsum (xs : list float) : float :=
  fold_left PrimFloat.add xs 0%float.

(** [max(a, b)] and [min(a, b)]: the first argument unless the second
    is strictly greater (smaller). *)
Definition max2 (a b : float) : float := if gtb b a then b else a.
Definition min2 (a b : float) : float := if PrimFloat.ltb b a then b else a.

(** [max(xs)] / [min(xs)] on a non-empty list; [max(xs, default=d)]. *)
Definition max_list (d : float) (xs : list float) : float :=
  match xs with
  | [] => d
  | x :: xs' => fold_left max2 xs' x
  end.

Definition min_list (d : float) (xs : list float) : float :=
  match xs with
  | [] => d
  | x :: xs' => fold_left min2 xs' x
  end.

(** Quotient of two non-negative integers rounded to the nearest integer,
    ties to even. *)
Definition round_half_even_div (n d : Z) : Z :=
  let q := (n / d)%Z in
  let r := (n mod d)%Z in
  match (2 * r ?= d)%Z with
  | Lt => q
  | Gt => (q + 1)%Z
  | Eq => if Z.even q then q else (q + 1)%Z
  end.

(** The integer nearest to [m * 2^e * 10^nd] (ties to even): the decimal
    digits that correctly rounded float-to-decimal conversion yields for
    [nd] places. *)
Definition scaled_round (m : positive) (e nd : Z) : Z :=
  if (0 <=? e)%Z then (Zpos m * 2 ^ e * 10 ^ nd)%Z
  else round_half_even_div (Zpos m * 10 ^ nd) (2 ^ (- e)).

Definition Z2SF (s : bool) (k : Z) : spec_float :=
  match k with
  | Zpos p => S754_finite s p 0
  | _ => S754_zero s
  end.

(** [round(x, nd)] for a float [x] and [nd >= 0]: the exact value is
    rounded to [nd] decimals (ties to even) and the decimal result is
    converted back to the nearest binary64; non-finite values and zeros
    are returned as they are. *)
Definition round (x : float) (nd : Z) : float :=
  match Prim2SF x with
  | S754_finite s m e =>
      SF2Prim (SFdiv prec emax (Z2SF s (scaled_round m e nd))
                               (Z2SF false (10 ^ nd)))
  | _ => x
  end.

(** ** str *)

(** [len(s)] is [String.length]; [s[:n]]: *)
Fixpoint str_take (n : nat) (s : string) : string :=
  match n, s with
  | S n', String c s' => String c (str_take n' s')
  | _, _ => EmptyString
  end.

(** [sep.join(parts)] *)
Fixpoint str_join (sep : string) (parts : list string) : string :=
  match parts with
  | [] => EmptyString
  | [p] => p
  | p :: ps => (p ++ sep ++ str_join sep ps)%string
  end.

(** [a in s] for strings: [a] occurs in [s]. *)
Fixpoint str_contains (a s : string) : bool :=
  if String.prefix a s then true
  else match s with
       | EmptyString => false
       | String _ s' => str_contains a s'
       end.

(** [str(z)] for an int. *)
Definition str_of_Z (z : Z) : string := NilZero.string_of_int (Z.to_int z).

Definition str_of_nat (n : nat) : string := str_of_Z (Z.of_nat n).

Definition two_digits (z : Z) : string :=
  if (z <? 10)%Z then ("0" ++ str_of_Z z)%string else str_of_Z z.

(** [f"{x:.2f}"]: two decimals, correctly rounded. *)
Definition format_2f (x : float) : string :=
  match Prim2SF x with
  | S754_nan => "nan"
  | S754_infinity s => if s then "-inf" else "inf"
  | S754_zero s => if s then "-0.00" else "0.00"
  | S754_finite s m e =>
      let k := scaled_round m e 2 in
      ((if s then "-" else "") ++ str_of_Z (k / 100) ++ "."
         ++ two_digits (k mod 100))%string
  end.

End Py.

(* ################################################################# *)
(** * src/langgraph/state.py *)

Module State.

(** [JSONValue = JSONScalar | List[JSONValue] | Dict[str, JSONValue]] *)
Inductive JSONValue : Type :=
| JNull
| JBool (b : bool)
| JInt (z : Z)
| JFloat (f : float)
| JStr (s : string)
| JList (l : list JSONValue)
| JDict (d : list (string * JSONValue)).

Definition JSONDict : Type := list (string * JSONValue).

(** Truth value of a JSON value ([not v] is its negation). *)
Definition truthy (v : JSONValue) : bool :=
  match v with
  | JNull => false
  | JBool b => b
  | JInt z => negb (z =? 0)%Z
  | JFloat f => negb (PrimFloat.eqb f 0%float)
  | JStr s => negb (String.eqb s "")
  | JList l => match l with [] => false | _ => true end
  | JDict d => match d with [] => false | _ => true end
  end.

Record AgentInput : Type := mkAgentInput {
  incident_id : string;
  evidence_bundle : JSONDict;
  ai_timestamp : string;
  ai_execution_id : string;
  ai_session_id : string;
  context : option JSONDict;
  ai_replay_metadata : option JSONDict
}.

(** The cost dict of an output: the four keys the sources read with
    [.get(key, default)]. *)
Record CostMetadata : Type := mkCost {
  inputTokens : option Z;
  outputTokens : option Z;
  estimatedCost : option float;
  model : option string
}.

Record AgentOutput : Type := mkAgentOutput {
  agent_id : string;
  agent_version : string;
  execution_id : string;
  timestamp : string;
  duration : Z;
  status : string;
  confidence : float;
  reasoning : string;
  disclaimer : string;
  findings : JSONDict;
  citations : option (list JSONValue);
  cost : CostMetadata;
  error : option JSONDict;
  replay_metadata : JSONDict
}.

Record ConsensusResult : Type := mkConsensusResult {
  aggregated_confidence : float;
  agreement_level : float;
  conflicts_detected : list JSONDict;
  unified_recommendation : string;
  minority_opinions : list string;
  quality_metrics : list (string * float);
  cr_timestamp : string
}.

Record AgentCost : Type := mkAgentCost {
  ac_inputTokens : Z;
  ac_outputTokens : Z;
  ac_cost : float;
  ac_model : string
}.

Record CostGuardianResult : Type := mkCostGuardianResult {
  total_cost : float;
  cg_budget_remaining : float;
  budget_exceeded : bool;
  per_agent_cost : list (string * AgentCost);
  monthlyBurn : float;
  incidentsRemaining : Z;
  cg_timestamp : string
}.

Record StructuredError : Type := mkStructuredError {
  se_agent_id : string;
  error_code : string;
  message : string;
  retryable : bool;
  se_timestamp : string;
  retry_attempt : Z;
  details : option JSONDict
}.

Record ExecutionTraceEntry : Type := mkTraceEntry {
  node_id : string;
  te_timestamp : string;
  duration_ms : Z;
  te_status : string;
  metadata : option JSONDict
}.

Record GraphState : Type := mkGraphState {
  agent_input : AgentInput;
  hypotheses : list (string * AgentOutput);
  consensus : option ConsensusResult;
  cost_guardian : option CostGuardianResult;
  budget_remaining : float;
  retry_count : list (string * Z);
  execution_trace : list ExecutionTraceEntry;
  errors : list StructuredError;
  session_id : string;
  start_timestamp : string
}.

(** Functional updates: [new_state = state.copy(); new_state[field] = v]. *)
Definition set_hypotheses (h : list (string * AgentOutput)) (s : GraphState)
  : GraphState :=
  mkGraphState (agent_input s) h (consensus s) (cost_guardian s)
    (budget_remaining s) (retry_count s) (execution_trace s) (errors s)
    (session_id s) (start_timestamp s).

Definition set_consensus (c : ConsensusResult) (s : GraphState) : GraphState :=
  mkGraphState (agent_input s) (hypotheses s) (Some c) (cost_guardian s)
    (budget_remaining s) (retry_count s) (execution_trace s) (errors s)
    (session_id s) (start_timestamp s).

Definition set_cost_guardian (c : CostGuardianResult) (s : GraphState)
  : GraphState :=
  mkGraphState (agent_input s) (hypotheses s) (consensus s) (Some c)
    (budget_remaining s) (retry_count s) (execution_trace s) (errors s)
    (session_id s) (start_timestamp s).

Definition set_budget_remaining (b : float) (s : GraphState) : GraphState :=
  mkGraphState (agent_input s) (hypotheses s) (consensus s) (cost_guardian s)
    b (retry_count s) (execution_trace s) (errors s)
    (session_id s) (start_timestamp s).

Definition set_retry_count (r : list (string * Z)) (s : GraphState)
  : GraphState :=
  mkGraphState (agent_input s) (hypotheses s) (consensus s) (cost_guardian s)
    (budget_remaining s) r (execution_trace s) (errors s)
    (session_id s) (start_timestamp s).

Definition set_execution_trace (t : list ExecutionTraceEntry) (s : GraphState)
  : GraphState :=
  mkGraphState (agent_input s) (hypotheses s) (consensus s) (cost_guardian s)
    (budget_remaining s) (retry_count s) t (errors s)
    (session_id s) (start_timestamp s).

Definition set_errors (e : list StructuredError) (s : GraphState)
  : GraphState :=
  mkGraphState (agent_input s) (hypotheses s) (consensus s) (cost_guardian s)
    (budget_remaining s) (retry_count s) (execution_trace s) e
    (session_id s) (start_timestamp s).

Definition create_initial_state
    (incident : string) (bundle : JSONDict) (budget : float)
    (session execution ts : string)
    (ctx replay : option JSONDict) : GraphState :=
  mkGraphState
    (mkAgentInput incident bundle ts execution session ctx replay)
    [] None None budget [] [] [] session ts.

End State.

(* ################################################################# *)
(** * src/langgraph/agent_node.py *)

Module AgentNode.
Import State.
Local Open Scope string_scope.

(** ** Constants *)

Definition MAX_RETRIES : Z := 2.
Definition BACKOFF_BASE : Z := 2.
Definition BACKOFF_MAX : Z := 4.

Definition RETRYABLE_ERROR_CODES : list string :=
  [ "ThrottlingException"; "TooManyRequestsException";
    "ServiceUnavailableException"; "InternalServerException";
    "TimeoutException";
    "RATE_LIMIT_EXCEEDED"; "BEDROCK_THROTTLING" ].

Definition NON_RETRYABLE_ERROR_CODES : list string :=
  [ "ValidationException"; "INVALID_INPUT"; "MISSING_REQUIRED_FIELD";
    "SCHEMA_VALIDATION_FAILED";
    "AccessDeniedException"; "UnauthorizedException";
    "ResourceNotFoundException";
    "BUDGET_EXCEEDED";
    "OUTPUT_VALIDATION_FAILED"; "LOW_CONFIDENCE" ].

Definition ERROR_CODE_MAPPING : list (string * string) :=
  [ ("ThrottlingException", "BEDROCK_THROTTLING");
    ("ServiceUnavailableException", "DATA_SOURCE_UNAVAILABLE");
    ("ValidationException", "INVALID_INPUT");
    ("AccessDeniedException", "INTERNAL_ERROR");
    ("ResourceNotFoundException", "INTERNAL_ERROR");
    ("InternalServerException", "INTERNAL_ERROR");
    ("TooManyRequestsException", "RATE_LIMIT_EXCEEDED");
    ("TimeoutError", "TIMEOUT");
    ("ValidationError", "SCHEMA_VALIDATION_FAILED");
    ("OutputValidationError", "OUTPUT_VALIDATION_FAILED");
    ("Exception", "UNKNOWN_ERROR") ].

(** USD per 1K tokens: (input, output). *)
Definition MODEL_PRICING : list (string * (float * float)) :=
  [ ("anthropic.claude-3-5-sonnet-20241022-v2:0", (0.003, 0.015)%float);
    ("default", (0.003, 0.015)%float) ].

Definition DEFAULT_PRICING : float * float := (0.003, 0.015)%float.

(** ** Exceptions

    What the handler reads of an exception [e]: whether it is a botocore
    [ClientError] (then [e.response["Error"]["Code"]], when present),
    otherwise [type(e).__name__]; and [str(e)]. *)
Inductive PyException : Type :=
| ClientError (code : option string) (msg : string)
| OtherError (type_name : string) (msg : string).

Definition exc_str (e : PyException) : string :=
  match e with
  | ClientError _ msg => msg
  | OtherError _ msg => msg
  end.

Definition ValueError (msg : string) : PyException :=
  OtherError "ValueError" msg.

(** ** Helper functions *)

Definition is_retryable_error (error_code : string) : bool :=
  existsb (String.eqb error_code) RETRYABLE_ERROR_CODES.

Definition mapping_get (name : string) : string :=
  match Py.dict_get name ERROR_CODE_MAPPING with
  | Some c => c
  | None => "UNKNOWN_ERROR"
  end.

Definition map_exception_to_error_code (exception : PyException) : string :=
  match exception with
  | ClientError code _ =>
      mapping_get (match code with Some c => c | None => "Exception" end)
  | OtherError exception_name _ => mapping_get exception_name
  end.

(** The parts of a Bedrock response the node reads. *)
Inductive StreamEvent : Type :=
| ChunkBytes (text : string)   (* an event with ["chunk"]["bytes"] *)
| OtherEvent.

Record BedrockResponse : Type := mkResponse {
  guardrailAction : option string;
  completion : option (list StreamEvent);
  output_text : option string;      (* response["output"]["text"] *)
  usage_inputTokens : option Z;
  usage_outputTokens : option Z;
  modelId : option string;
  keys_repr : string                (* str(list(response.keys())) *)
}.

Record BedrockRequest : Type := mkRequest {
  agentId : string;
  agentAliasId : string;
  sessionId : string;
  inputText : string;
  guardrailIdentifier : option string;
  guardrailVersion : option string;
  enableTrace : bool
}.

Definition or_default {A : Type} (o : option A) (d : A) : A :=
  match o with Some a => a | None => d end.

Definition extract_cost_metadata (bedrock_response : option BedrockResponse)
  : CostMetadata :=
  match bedrock_response with
  | None => mkCost (Some 0%Z) (Some 0%Z) (Some 0%float) (Some "N/A")
  | Some r =>
      let input_tokens := or_default (usage_inputTokens r) 0%Z in
      let output_tokens := or_default (usage_outputTokens r) 0%Z in
      let model_id := or_default (modelId r) "unknown" in
      let pricing :=
        or_default (Py.dict_get model_id MODEL_PRICING) DEFAULT_PRICING in
      let input_cost :=
        (Py.Z2float input_tokens / 1000 * fst pricing)%float in
      let output_cost :=
        (Py.Z2float output_tokens / 1000 * snd pricing)%float in
      let estimated_cost := (input_cost + output_cost)%float in
      mkCost (Some input_tokens) (Some output_tokens)
             (Some (Py.round estimated_cost 6)) (Some model_id)
  end.

(** [round(confidence, 4)] on the number the agent returned: an int (or
    bool) rounds to an int, a float to a float. *)
Definition round_confidence (c : JSONValue) : JSONValue :=
  match c with
  | JFloat f => JFloat (Py.round f 4)
  | JBool b => JInt (if b then 1 else 0)
  | other => other
  end.

Definition validate_agent_input (agent_input : AgentInput)
  : option PyException :=
  if String.eqb (incident_id agent_input) "" then
    Some (ValueError "incident_id is required")
  else match evidence_bundle agent_input with
  | [] => Some (ValueError "evidence_bundle is required")
  | _ =>
  if String.eqb (ai_timestamp agent_input) "" then
    Some (ValueError "timestamp is required")
  else if String.eqb (ai_execution_id agent_input) "" then
    Some (ValueError "execution_id is required")
  else if String.eqb (ai_session_id agent_input) "" then
    Some (ValueError "session_id is required")
  else None
  end.

Definition add_execution_trace
    (state : GraphState) (node : string) (dur : Z) (st : string)
    (meta : option JSONDict) (now : string) : GraphState :=
  let trace_entry := mkTraceEntry node now dur st meta in
  set_execution_trace (execution_trace state ++ [trace_entry]) state.

Definition increment_retry_count (state : GraphState) (agent : string)
  : GraphState :=
  let current_count := or_default (Py.dict_get agent (retry_count state)) 0%Z in
  set_retry_count
    (Py.dict_set agent (current_count + 1)%Z (retry_count state)) state.

Definition create_failure_hypothesis
    (agent version execution code msg : string)
    (is_retryable : bool) (attempt : Z) (c : CostMetadata) (now : string)
  : AgentOutput :=
  mkAgentOutput agent version execution now 0 "FAILURE" 0%float
    ("Agent failed: " ++ msg)
    "HYPOTHESIS_ONLY_NOT_AUTHORITATIVE"
    [("error", JStr code)]
    None
    c
    (Some [ ("code", JStr code); ("message", JStr msg);
            ("retryable", JBool is_retryable);
            ("details", JDict [("retry_attempt", JInt attempt)]) ])
    [ ("deterministicHash", JStr "FAILURE");
      ("schemaVersion", JStr "1.0.0") ].

(** ** Library functions and the remote endpoint *)

Section Node.

(** [json.dumps(v)], [json.dumps(v, sort_keys=True)], [json.loads(s)]
    (the decode error's text on failure), [hashlib.sha256(s.encode())
    .hexdigest()] and [str(v)]. *)
Variable json_dumps : JSONValue -> string.
Variable json_dumps_sorted : JSONValue -> string.
Variable json_loads : string -> JSONValue + string.
Variable sha256_hexdigest : string -> string.
Variable py_str : JSONValue -> string.

Definition compute_deterministic_hash
    (agent_input : AgentInput) (fnd : JSONDict) (conf : JSONValue)
  : string :=
  let canonical :=
    JDict [ ("agent_input",
             JDict [ ("incident_id", JStr (incident_id agent_input));
                     ("evidence_bundle",
                      JDict (evidence_bundle agent_input));
                     ("execution_id",
                      JStr (ai_execution_id agent_input)) ]);
            ("findings", JDict fnd);
            ("confidence", round_confidence conf) ] in
  let canonical_json := json_dumps_sorted canonical in
  sha256_hexdigest canonical_json.

Definition type_name (v : JSONValue) : string :=
  match v with
  | JNull => "NoneType"
  | JBool _ => "bool"
  | JInt _ => "int"
  | JFloat _ => "float"
  | JStr _ => "str"
  | JList _ => "list"
  | JDict _ => "dict"
  end.

Definition is_jstr (t : string) (v : JSONValue) : bool :=
  match v with JStr s => String.eqb s t | _ => false end.

Definition confidence_in_range (v : JSONValue) : bool :=
  match v with
  | JBool _ => true
  | JInt z => (0 <=? z)%Z && (z <=? 1)%Z
  | JFloat f => PrimFloat.leb 0 f && PrimFloat.leb f 1
  | _ => false
  end.

Definition valid_statuses : list string :=
  ["SUCCESS"; "PARTIAL"; "TIMEOUT"; "FAILURE"].

Definition DISCLAIMER : string := "HYPOTHESIS_ONLY_NOT_AUTHORITATIVE".

Fixpoint first_missing (fields : list string) (raw_output : JSONDict)
  : option string :=
  match fields with
  | [] => None
  | f :: fs =>
      if Py.dict_mem f raw_output then first_missing fs raw_output
      else Some f
  end.

Definition validate_agent_output (raw_output : JSONDict)
  : option PyException :=
  match first_missing ["confidence"; "findings"; "disclaimer"; "status"]
                      raw_output with
  | Some field => Some (ValueError ("Missing required field: " ++ field))
  | None =>
      let conf := or_default (Py.dict_get "confidence" raw_output) JNull in
      let stat := or_default (Py.dict_get "status" raw_output) JNull in
      let disc := or_default (Py.dict_get "disclaimer" raw_output) JNull in
      let fnd := or_default (Py.dict_get "findings" raw_output) JNull in
      if negb (confidence_in_range conf) then
        Some (ValueError ("confidence must be in range [0.0, 1.0], got "
                            ++ py_str conf))
      else if negb (existsb (fun s => is_jstr s stat) valid_statuses) then
        Some (ValueError ("Invalid status: " ++ py_str stat))
      else
        match
          match disc with
          | JStr s => inl (Py.str_contains DISCLAIMER s)
          | JList l => inl (existsb (is_jstr DISCLAIMER) l)
          | JDict d => inl (Py.dict_mem DISCLAIMER d)
          | other =>
              inr (OtherError "TypeError"
                     ("argument of type '" ++ type_name other
                        ++ "' is not iterable"))
          end
        with
        | inr e => Some e
        | inl false =>
            Some (ValueError
              "disclaimer must contain 'HYPOTHESIS_ONLY_NOT_AUTHORITATIVE'")
        | inl true =>
            if negb (truthy fnd) then
              Some (ValueError "findings cannot be empty")
            else None
        end
  end.

(** ** The node *)

(** Arguments of [create_agent_node] and the module-level guardrail
    settings read from the process environment. *)
Record AgentConfig : Type := mkConfig {
  cfg_agent_id : string;
  cfg_agent_version : string;
  bedrock_agent_id : string;
  bedrock_agent_alias_id : string;
  max_retries : Z;
  timeout_seconds : Z;
  GUARDRAIL_ID : option string;
  GUARDRAIL_VERSION : string
}.

(** The wall-clock reads of one call: the timestamps given to the
    STARTED entry, to the output, to the structured error and to the
    closing entry, and the measured duration. *)
Record Clock : Type := mkClock {
  now_started : string;
  now_output : string;
  now_error : string;
  now_final : string;
  elapsed_ms : Z
}.

(** The call [bedrock_agent_runtime.invoke_agent] on a request: raises or
    returns. *)
Definition Remote : Type := BedrockRequest -> PyException + BedrockResponse.

(** Outcome of the [try] block: the output built in step 6; or the
    exception raised, together with [bedrock_response] when that local
    is already bound; or an answer outside the typed model: a JSON
    document that is not an object, or one that passes validation with a
    field of another type than the [AgentOutput] dataclass declares. *)
Inductive try_result : Type :=
| TryOutput (out : AgentOutput) (resp : BedrockResponse)
| TryRaised (e : PyException) (resp : option BedrockResponse)
| TryIllTyped.

Definition build_request (cfg : AgentConfig) (state : GraphState)
  : BedrockRequest :=
  let ai := agent_input state in
  let guarded :=
    match GUARDRAIL_ID cfg with
    | Some g => negb (String.eqb g "")
    | None => false
    end in
  mkRequest (bedrock_agent_id cfg) (bedrock_agent_alias_id cfg)
    (ai_session_id ai)
    (json_dumps
       (JDict [ ("incidentId", JStr (incident_id ai));
                ("evidenceBundle", JDict (evidence_bundle ai));
                ("timestamp", JStr (ai_timestamp ai));
                ("executionId", JStr (ai_execution_id ai));
                ("budgetRemaining", JFloat (budget_remaining state)) ]))
    (if guarded then GUARDRAIL_ID cfg else None)
    (if guarded then Some (GUARDRAIL_VERSION cfg) else None)
    true.

Fixpoint completion_text (events : list StreamEvent) : string :=
  match events with
  | [] => ""
  | ChunkBytes t :: rest => t ++ completion_text rest
  | OtherEvent :: rest => completion_text rest
  end.

Definition parse_response (cfg : AgentConfig) (r : BedrockResponse)
  : JSONValue + PyException :=
  match completion r with
  | Some events =>
      let text := completion_text events in
      if negb (String.eqb text "") then
        match json_loads text with
        | inl v => inl v
        | inr _ =>
            inr (ValueError
              ("Agent " ++ cfg_agent_id cfg
               ++ " returned non-JSON response. "
               ++ "This usually means the agent has no action groups and is not configured "
               ++ "to produce final output. Response: "
               ++ Py.str_take 200 text))
        end
      else
        inr (ValueError
               ("Agent " ++ cfg_agent_id cfg ++ " returned empty response"))
  | None =>
      match output_text r with
      | Some t =>
          match json_loads t with
          | inl v => inl v
          | inr msg => inr (OtherError "JSONDecodeError" msg)
          end
      | None =>
          inr (ValueError
            ("Agent " ++ cfg_agent_id cfg ++ " returned empty response. "
             ++ "This usually means the agent has no action groups and is not configured "
             ++ "to produce final output. Response keys: " ++ keys_repr r))
      end
  end.

Definition confidence_float (v : JSONValue) : float :=
  match v with
  | JFloat f => f
  | JInt z => Py.Z2float z
  | JBool b => if b then 1%float else 0%float
  | _ => 0%float
  end.

(** Step 6 on a validated [raw_output]. *)
Definition build_output
    (cfg : AgentConfig) (clock : Clock) (ai : AgentInput)
    (raw_output : JSONDict) (c : CostMetadata) : option AgentOutput :=
  match Py.dict_get "status" raw_output,
        Py.dict_get "confidence" raw_output,
        Py.dict_get "disclaimer" raw_output,
        Py.dict_get "findings" raw_output with
  | Some (JStr st), Some conf, Some (JStr disc), Some (JDict fnd) =>
      match
        match Py.dict_get "reasoning" raw_output with
        | None => Some ""
        | Some (JStr r) => Some r
        | Some _ => None
        end,
        match Py.dict_get "citations" raw_output with
        | None | Some JNull => Some None
        | Some (JList l) => Some (Some l)
        | Some _ => None
        end,
        match Py.dict_get "error" raw_output with
        | None | Some JNull => Some None
        | Some (JDict d) => Some (Some d)
        | Some _ => None
        end
      with
      | Some reason, Some cits, Some err =>
          Some (mkAgentOutput
                  (cfg_agent_id cfg) (cfg_agent_version cfg)
                  (ai_execution_id ai) (now_output clock)
                  (elapsed_ms clock) st (confidence_float conf)
                  reason disc fnd cits c err
                  [ ("deterministicHash",
                     JStr (compute_deterministic_hash ai fnd conf));
                    ("schemaVersion", JStr "1.0.0") ])
      | _, _, _ => None
      end
  | _, _, _, _ => None
  end.

(** Steps 1 to 6.  Guardrail logging and trace emission only notify the
    observability plane inside their own [try]/[except]; they do not
    touch the state and are left out. *)
Definition try_block
    (cfg : AgentConfig) (remote : Remote) (clock : Clock)
    (state : GraphState) : try_result :=
  let ai := agent_input state in
  match validate_agent_input ai with
  | Some e => TryRaised e None
  | None =>
      match remote (build_request cfg state) with
      | inl e => TryRaised e None
      | inr bedrock_response =>
          if match guardrailAction bedrock_response with
             | Some a => String.eqb a "BLOCKED"
             | None => false
             end
          then TryRaised (ValueError "Request blocked by guardrails")
                         (Some bedrock_response)
          else
            match parse_response cfg bedrock_response with
            | inr e => TryRaised e (Some bedrock_response)
            | inl (JDict raw_output) =>
                match validate_agent_output raw_output with
                | Some e => TryRaised e (Some bedrock_response)
                | None =>
                    let c := extract_cost_metadata (Some bedrock_response) in
                    match build_output cfg clock ai raw_output c with
                    | Some out => TryOutput out bedrock_response
                    | None => TryIllTyped
                    end
                end
            | inl _ => TryIllTyped
            end
      end
  end.

(** STEP 7: the success path. *)
Definition on_success
    (cfg : AgentConfig) (clock : Clock) (state : GraphState)
    (agent_output : AgentOutput) : GraphState :=
  let new_state :=
    set_hypotheses
      (Py.dict_set (cfg_agent_id cfg) agent_output (hypotheses state))
      state in
  add_execution_trace new_state (cfg_agent_id cfg) (elapsed_ms clock)
    "COMPLETED"
    (Some [ ("confidence", JFloat (confidence agent_output));
            ("status", JStr (status agent_output)) ])
    (now_final clock).

(** The [except Exception as e] handler. *)
Definition on_exception
    (cfg : AgentConfig) (clock : Clock) (state : GraphState)
    (attempt : Z) (e : PyException)
    (bedrock_response : option BedrockResponse) : GraphState :=
  let code := map_exception_to_error_code e in
  let msg := exc_str e in
  let is_retryable := is_retryable_error code in
  if is_retryable && (attempt <? max_retries cfg)%Z then
    let new_state :=
      add_execution_trace state (cfg_agent_id cfg) (elapsed_ms clock)
        "RETRYING"
        (Some [ ("error_code", JStr code);
                ("retry_attempt", JInt attempt) ])
        (now_final clock) in
    increment_retry_count new_state (cfg_agent_id cfg)
  else
    let c := extract_cost_metadata bedrock_response in
    let structured_error :=
      mkStructuredError (cfg_agent_id cfg) code msg is_retryable
        (now_error clock) attempt None in
    let failure_output :=
      create_failure_hypothesis
        (cfg_agent_id cfg) (cfg_agent_version cfg)
        (ai_execution_id (agent_input state))
        code msg is_retryable attempt c (now_output clock) in
    let new_state :=
      set_errors (errors state ++ [structured_error])
        (set_hypotheses
           (Py.dict_set (cfg_agent_id cfg) failure_output
              (hypotheses state))
           state) in
    add_execution_trace new_state (cfg_agent_id cfg) (elapsed_ms clock)
      "FAILED"
      (Some [ ("error_code", JStr code);
              ("retry_attempt", JInt attempt) ])
      (now_final clock).

Inductive node_result : Type :=
| NodeReturns (new_state : GraphState)
| NodeRaises (e : PyException)
| NodeIllTyped.

Definition agent_node
    (cfg : AgentConfig) (remote : Remote) (clock : Clock)
    (state : GraphState) : node_result :=
  let attempt :=
    or_default (Py.dict_get (cfg_agent_id cfg) (retry_count state)) 0%Z in
  if String.eqb (bedrock_agent_id cfg) ""
     || String.eqb (bedrock_agent_alias_id cfg) "" then
    NodeRaises
      (OtherError "RuntimeError"
         ("Agent " ++ cfg_agent_id cfg
          ++ " misconfigured: missing Bedrock agent ID or alias. "
          ++ "agent_id='" ++ bedrock_agent_id cfg
          ++ "', alias_id='" ++ bedrock_agent_alias_id cfg ++ "'"))
  else
    let started :=
      add_execution_trace state (cfg_agent_id cfg) 0 "STARTED"
        (Some [("retry_attempt", JInt attempt)]) (now_started clock) in
    match try_block cfg remote clock started with
    | TryOutput agent_output _ =>
        NodeReturns (on_success cfg clock started agent_output)
    | TryRaised e resp =>
        NodeReturns (on_exception cfg clock started attempt e resp)
    | TryIllTyped => NodeIllTyped
    end.

(** Both Bedrock identifiers are set: the configuration check passes. *)
Definition configured (cfg : AgentConfig) : Prop :=
  bedrock_agent_id cfg <> "" /\ bedrock_agent_alias_id cfg <> "".

(** [state["retry_count"].get(agent_id, 0)] *)
Definition attempt_of (cfg : AgentConfig) (state : GraphState) : Z :=
  or_default (Py.dict_get (cfg_agent_id cfg) (retry_count state)) 0%Z.

(** The entry the node appends before the [try] block. *)
Definition started_entry (cfg : AgentConfig) (clock : Clock)
    (state : GraphState) : ExecutionTraceEntry :=
  mkTraceEntry (cfg_agent_id cfg) (now_started clock) 0 "STARTED"
    (Some [("retry_attempt", JInt (attempt_of cfg state))]).

End Node.

End AgentNode.

(* ################################################################# *)
(** * src/langgraph/consensus_node.py *)

Module ConsensusNode.
Import State.
Local Open Scope string_scope.

Definition AGENT_WEIGHTS : list (string * float) :=
  [ ("signal-intelligence", 1.0%float);
    ("historical-pattern", 0.9%float);
    ("change-intelligence", 0.9%float);
    ("risk-blast-radius", 0.8%float);
    ("knowledge-rag", 0.7%float);
    ("response-strategy", 0.6%float) ].

Definition CONFIDENCE_DIVERGENCE_THRESHOLD : float := 0.3%float.

Definition Hypotheses : Type := list (string * AgentOutput).

(** The two running totals of the loop in [aggregate_confidence]. *)
Definition weighted_totals
    (hyps : Hypotheses) (agent_weights : list (string * float))
  : float * float :=
  fold_left
    (fun (acc : float * float) (item : string * AgentOutput) =>
       let weight :=
         match Py.dict_get (fst item) agent_weights with
         | Some w => w
         | None => 0.5%float
         end in
       ((fst acc + confidence (snd item) * weight)%float,
        (snd acc + weight)%float))
    hyps (0%float, 0%float).

Definition aggregate_confidence
    (hyps : Hypotheses) (agent_weights : list (string * float)) : float :=
  match hyps with
  | [] => 0%float
  | _ =>
      let totals := weighted_totals hyps agent_weights in
      if PrimFloat.eqb (snd totals) 0 then 0%float
      else (fst totals / snd totals)%float
  end.

(** The formula as the specification words it: the sum of [c(a) * w(a)]
    over the sum of [w(a)], with [w(a)] = 0.5 for an agent the table does
    not list, and 0.0 for a zero denominator; sums run in hypothesis
    order. *)
Definition weight_of (agent_weights : list (string * float)) (agent : string)
  : float :=
  match Py.dict_get agent agent_weights with
  | Some w => w
  | None => 0.5%float
  end.

Definition weighted_average_spec
    (hyps : Hypotheses) (agent_weights : list (string * float)) : float :=
  let numerator :=
    Py.fsum (map (fun h => (confidence (snd h)
                            * weight_of agent_weights (fst h))%float) hyps) in
  let denominator :=
    Py.fsum (map (fun h => weight_of agent_weights (fst h)) hyps) in
  if PrimFloat.eqb denominator 0 then 0%float
  else (numerator / denominator)%float.

Definition compute_max_possible_std_dev (n_agents : nat) : float :=
  if Nat.ltb n_agents 2 then 0%float else 0.5%float.

(** Population standard deviation as the source computes it:
    [x ** 2] is the product [x * x] and [x ** 0.5] the square root. *)
Definition std_dev_of (confidences : list float) : float :=
  let n := Py.nat2float (List.length confidences) in
  let mean_confidence := (Py.fsum confidences / n)%float in
  let variance :=
    (Py.fsum (map (fun c => ((c - mean_confidence)
                             * (c - mean_confidence))%float) confidences)
     / n)%float in
  PrimFloat.sqrt variance.

Definition confidences_of (hyps : Hypotheses) : list float :=
  map confidence (Py.dict_values hyps).

Definition compute_agreement_level (hyps : Hypotheses) : float :=
  let confidences := confidences_of hyps in
  if Nat.ltb (List.length confidences) 2 then 1%float
  else
    let std_dev := std_dev_of confidences in
    if PrimFloat.eqb std_dev 0 then 1%float
    else
      let max_std_dev :=
        compute_max_possible_std_dev (List.length confidences) in
      let agreement_level := (1 - std_dev / max_std_dev)%float in
      Py.max2 0 (Py.min2 1 agreement_level).

(** ** Recommendations

    [recommendations_by_type] is a [defaultdict(list)]: types in order of
    first appearance, each with its proposals in order of appearance. *)

Section Groups.
Context {A : Type}.

Fixpoint group_append (k : string) (x : A) (g : list (string * list A))
  : list (string * list A) :=
  match g with
  | [] => [(k, [x])]
  | (k', xs) :: g' =>
      if String.eqb k k' then (k', (xs ++ [x])%list) :: g'
      else (k', xs) :: group_append k x g'
  end.

(** Stable descending sort on a float key, as
    [sorted(..., key=key, reverse=True)] orders keys that [<] orders. *)
Variable key : A -> float.

Fixpoint insert_desc (x : A) (l : list A) : list A :=
  match l with
  | [] => [x]
  | y :: l' =>
      if PrimFloat.ltb (key y) (key x) then x :: y :: l'
      else y :: insert_desc x l'
  end.

Definition sort_desc (l : list A) : list A :=
  fold_left (fun acc x => insert_desc x acc) l [].
End Groups.

(** A proposal: [(agent_id, confidence, payload)]. *)
Definition Proposal (P : Type) : Type := (string * float * P)%type.

Definition prop_agent {P} (p : Proposal P) : string := fst (fst p).
Definition prop_conf {P} (p : Proposal P) : float := snd (fst p).
Definition prop_payload {P} (p : Proposal P) : P := snd p.

(** The items of [findings["recommendations"]] when that is a list. *)
Definition recommendation_items (fnd : JSONDict) : list JSONValue :=
  match Py.dict_get "recommendations" fnd with
  | Some (JList l) => l
  | _ => []
  end.

(** One item seen by [detect_conflicts]: skipped unless it is a dict with
    a ["type"]; [None] when the type is not a string (the data model has
    it a string; Python would hash whatever value it finds or raise). *)
Definition conflict_view (rec : JSONValue)
  : option (option (string * JSONValue)) :=
  match rec with
  | JDict d =>
      match Py.dict_get "type" d with
      | None => Some None
      | Some (JStr t) => Some (Some (t, rec))
      | Some _ => None
      end
  | _ => Some None
  end.

(** One item seen by [synthesize_unified_recommendation]: skipped unless
    it is a dict with ["type"] and ["description"]; [None] when either is
    not a string. *)
Definition synthesis_view (rec : JSONValue)
  : option (option (string * string)) :=
  match rec with
  | JDict d =>
      match Py.dict_get "type" d, Py.dict_get "description" d with
      | Some (JStr t), Some (JStr desc) => Some (Some (t, desc))
      | Some _, Some _ => None
      | _, _ => Some None
      end
  | _ => Some None
  end.

Section Collect.
Context {P : Type}.
Variable view : JSONValue -> option (option (string * P)).

Fixpoint collect_items
    (agent : string) (conf : float) (items : list JSONValue)
    (g : list (string * list (Proposal P)))
  : option (list (string * list (Proposal P))) :=
  match items with
  | [] => Some g
  | rec :: rest =>
      match view rec with
      | None => None
      | Some None => collect_items agent conf rest g
      | Some (Some (t, payload)) =>
          collect_items agent conf rest
            (group_append t (agent, conf, payload) g)
      end
  end.

Fixpoint collect
    (hyps : Hypotheses) (g : list (string * list (Proposal P)))
  : option (list (string * list (Proposal P))) :=
  match hyps with
  | [] => Some g
  | (agent, output) :: rest =>
      if String.eqb (status output) "FAILURE" then collect rest g
      else
        match collect_items agent (confidence output)
                (recommendation_items (findings output)) g with
        | None => None
        | Some g' => collect rest g'
        end
  end.
End Collect.

Definition confs {P} (ps : list (Proposal P)) : list float :=
  map prop_conf ps.

(** [next((aid for aid, conf, _ in agents if conf == c), "unknown")] *)
Fixpoint first_agent_with {P} (c : float) (ps : list (Proposal P)) : string :=
  match ps with
  | [] => "unknown"
  | p :: rest =>
      if PrimFloat.eqb (prop_conf p) c then prop_agent p
      else first_agent_with c rest
  end.

Definition conflict_record
    (agents : list string) (kind description resolution : string)
  : JSONDict :=
  [ ("agents", JList (map JStr agents));
    ("conflict_type", JStr kind);
    ("description", JStr description);
    ("resolution", JStr resolution) ].

Definition cross_conflict {P}
    (threshold : float)
    (g1 g2 : string * list (Proposal P)) : list JSONDict :=
  let max_conf1 := Py.max_list 0 (confs (snd g1)) in
  let max_conf2 := Py.max_list 0 (confs (snd g2)) in
  let confidence_diff := PrimFloat.abs (max_conf1 - max_conf2) in
  if Py.gtb confidence_diff threshold then
    let agent_id1 := first_agent_with max_conf1 (snd g1) in
    let agent_id2 := first_agent_with max_conf2 (snd g2) in
    [ conflict_record [agent_id1; agent_id2] "ACTION_TYPE_DIVERGENCE"
        (agent_id1 ++ " recommends " ++ fst g1 ++ " ("
           ++ Py.format_2f max_conf1 ++ "), "
           ++ agent_id2 ++ " recommends " ++ fst g2 ++ " ("
           ++ Py.format_2f max_conf2 ++ ")")
        ("Highest confidence wins: "
           ++ (if Py.gtb max_conf1 max_conf2 then agent_id1 else agent_id2)
           ++ " (" ++ Py.format_2f (Py.max2 max_conf1 max_conf2) ++ ")") ]
  else [].

Fixpoint cross_conflicts {P}
    (threshold : float) (groups : list (string * list (Proposal P)))
  : list JSONDict :=
  match groups with
  | [] => []
  | g1 :: rest =>
      (flat_map (cross_conflict threshold g1) rest
         ++ cross_conflicts threshold rest)%list
  end.

Definition within_conflict {P}
    (threshold : float) (g : string * list (Proposal P)) : list JSONDict :=
  if Nat.ltb (List.length (snd g)) 2 then []
  else
    let confidences := confs (snd g) in
    let max_conf := Py.max_list 0 confidences in
    let min_conf := Py.min_list 0 confidences in
    if Py.gtb (max_conf - min_conf) threshold then
      let max_agent := first_agent_with max_conf (snd g) in
      let min_agent := first_agent_with min_conf (snd g) in
      [ conflict_record [max_agent; min_agent] "CONFIDENCE_DIVERGENCE"
          ("Confidence difference: "
             ++ Py.format_2f (max_conf - min_conf) ++ " ("
             ++ Py.format_2f max_conf ++ " vs "
             ++ Py.format_2f min_conf ++ ")")
          ("Highest confidence wins: " ++ max_agent ++ " ("
             ++ Py.format_2f max_conf ++ ")") ]
    else [].

Definition detect_conflicts (hyps : Hypotheses) (confidence_threshold : float)
  : option (list JSONDict) :=
  match collect conflict_view hyps [] with
  | None => None
  | Some recommendations_by_type =>
      Some (cross_conflicts confidence_threshold recommendations_by_type
            ++ flat_map (within_conflict confidence_threshold)
                        recommendations_by_type)%list
  end.

(** ** Unified recommendation *)

Definition ALL_FAILED_MESSAGE : string :=
  "Insufficient data for recommendation. All agents failed.".

Definition NO_RECOMMENDATION_MESSAGE : string :=
  "No actionable recommendations.".

Definition all_failed (hyps : Hypotheses) : bool :=
  forallb (fun o => String.eqb (status o) "FAILURE") (Py.dict_values hyps).

Definition n_not_failed (hyps : Hypotheses) : nat :=
  List.length
    (filter (fun o => negb (String.eqb (status o) "FAILURE"))
            (Py.dict_values hyps)).

Definition group_key {P} (g : string * list (Proposal P)) : float :=
  Py.max_list 0 (confs (snd g)).

Definition format_part
    (n_total : nat) (label : string) (g : string * list (Proposal string))
  : string :=
  match sort_desc prop_conf (snd g) with
  | [] => ""
  | best :: _ =>
      label ++ ": " ++ Py.str_take 100 (prop_payload best)
        ++ " (confidence: " ++ Py.format_2f (prop_conf best)
        ++ ", agents: " ++ Py.str_of_nat (List.length (snd g)) ++ "/"
        ++ Py.str_of_nat n_total ++ " agree)"
  end.

(** The loop over [sorted_types[:2]]. *)
Definition format_parts
    (n_total : nat) (top : list (string * list (Proposal string)))
  : list string :=
  match top with
  | [] => []
  | g0 :: rest =>
      format_part n_total "PRIMARY" g0
        :: map (format_part n_total "ALTERNATIVE") rest
  end.

Definition conflicts_part (conflicts : list JSONDict) : string :=
  match conflicts with
  | [] => "CONFLICTS: None detected"
  | _ => "CONFLICTS: " ++ Py.str_of_nat (List.length conflicts) ++ " detected"
  end.

Definition truncate_500 (unified : string) : string :=
  if Nat.ltb 500 (String.length unified) then
    Py.str_take 497 unified ++ "..."
  else unified.

Definition synthesize_unified_recommendation
    (hyps : Hypotheses) (conflicts : list JSONDict) : option string :=
  if all_failed hyps then Some ALL_FAILED_MESSAGE
  else
    match collect synthesis_view hyps [] with
    | None => None
    | Some [] => Some NO_RECOMMENDATION_MESSAGE
    | Some recommendations_by_type =>
        let sorted_types := sort_desc group_key recommendations_by_type in
        let parts :=
          (format_parts (n_not_failed hyps) (firstn 2 sorted_types)
             ++ [conflicts_part conflicts])%list in
        Some (truncate_500 (Py.str_join ". " parts))
    end.






(** ** Minority opinions and quality metrics *)

Definition minority_view (rec : JSONValue) : option (option string) :=
  match rec with
  | JDict d =>
      match Py.dict_get "description" d with
      | None => Some None
      | Some (JStr desc) => Some (Some desc)
      | Some _ => None
      end
  | _ => Some None
  end.

Fixpoint minority_items
    (agent : string) (conf : float) (unified : string)
    (items : list JSONValue) : option (list string) :=
  match items with
  | [] => Some []
  | rec :: rest =>
      match minority_view rec, minority_items agent conf unified rest with
      | Some None, Some tl => Some tl
      | Some (Some description), Some tl =>
          if negb (Py.str_contains (Py.str_take 50 description) unified) then
            Some ((agent ++ " suggests " ++ Py.str_take 100 description
                     ++ " (confidence: " ++ Py.format_2f conf ++ ")") :: tl)
          else Some tl
      | _, _ => None
      end
  end.

Fixpoint extract_minority_opinions
    (hyps : Hypotheses) (unified_recommendation : string)
  : option (list string) :=
  match hyps with
  | [] => Some []
  | (agent, output) :: rest =>
      match extract_minority_opinions rest unified_recommendation with
      | None => None
      | Some tl =>
          if String.eqb (status output) "FAILURE"
             || PrimFloat.leb (confidence output) 0.5
          then Some tl
          else
            match minority_items agent (confidence output)
                    unified_recommendation
                    (recommendation_items (findings output)) with
            | None => None
            | Some hd => Some (hd ++ tl)%list
            end
      end
  end.

Definition count_where (p : AgentOutput -> bool) (hyps : Hypotheses) : nat :=
  List.length (filter p (Py.dict_values hyps)).

Definition has_citations (o : AgentOutput) : bool :=
  match citations o with
  | Some (_ :: _) => true
  | _ => false
  end.

Definition compute_quality_metrics (hyps : Hypotheses)
  : list (string * float) :=
  match hyps with
  | [] =>
      [ ("data_completeness", 0%float); ("citation_quality", 0%float);
        ("reasoning_coherence", 0%float) ]
  | _ =>
      let total_agents := Py.nat2float (List.length hyps) in
      let success_count :=
        count_where (fun o => String.eqb (status o) "SUCCESS") hyps in
      let citation_count := count_where has_citations hyps in
      [ ("data_completeness",
         (Py.nat2float success_count / total_agents)%float);
        ("citation_quality",
         (Py.nat2float citation_count / total_agents)%float);
        ("reasoning_coherence", compute_agreement_level hyps) ]
  end.

(** ** The node *)

Definition add_execution_trace
    (state : GraphState) (node : string) (dur : Z) (st : string)
    (meta : JSONDict) (now : string) : GraphState :=
  let trace_entry := mkTraceEntry node now dur st (Some meta) in
  set_execution_trace (execution_trace state ++ [trace_entry]) state.

(** [None]: one of the helpers met a recommendation outside the data
    model (see [conflict_view]). *)
Definition consensus_node
    (now_result now_trace : string) (dur : Z) (state : GraphState)
  : option GraphState :=
  let hyps := hypotheses state in
  let agent_weights := AGENT_WEIGHTS in
  let agg := aggregate_confidence hyps agent_weights in
  let agreement := compute_agreement_level hyps in
  match detect_conflicts hyps CONFIDENCE_DIVERGENCE_THRESHOLD with
  | None => None
  | Some conflicts =>
      match synthesize_unified_recommendation hyps conflicts with
      | None => None
      | Some unified =>
          match extract_minority_opinions hyps unified with
          | None => None
          | Some minority =>
              let quality := compute_quality_metrics hyps in
              let consensus_result :=
                mkConsensusResult agg agreement conflicts unified minority
                  quality now_result in
              let new_state := set_consensus consensus_result state in
              Some (add_execution_trace new_state "consensus" dur "COMPLETED"
                      [ ("aggregated_confidence", JFloat agg);
                        ("agreement_level", JFloat agreement);
                        ("conflicts_count",
                         JInt (Z.of_nat (List.length conflicts))) ]
                      now_trace)
          end
      end
  end.

End ConsensusNode.

(* ################################################################# *)
(** * infra/phase6/lambda/cost_guardian_node.py *)

Module CostGuardian.
Import State.
Local Open Scope string_scope.

Definition INCIDENTS_PER_DAY : Z := 10.
Definition DAYS_PER_MONTH : Z := 30.

Definition aggregate_per_agent_costs (hyps : list (string * AgentOutput))
  : list (string * AgentCost) :=
  fold_left
    (fun per_agent_costs (item : string * AgentOutput) =>
       let cost_metadata := cost (snd item) in
       Py.dict_set (fst item)
         (mkAgentCost
            (AgentNode.or_default (inputTokens cost_metadata) 0%Z)
            (AgentNode.or_default (outputTokens cost_metadata) 0%Z)
            (AgentNode.or_default (estimatedCost cost_metadata) 0%float)
            (AgentNode.or_default (model cost_metadata) "N/A"))
         per_agent_costs)
    hyps [].

Definition calculate_total_cost (per_agent_costs : list (string * AgentCost))
  : float :=
  let total := Py.fsum (map ac_cost (Py.dict_values per_agent_costs)) in
  Py.round total 6.

Definition calculate_budget_remaining
    (budget_remaining_before total : float) : float :=
  (budget_remaining_before - total)%float.

Definition check_budget_exceeded
    (total budget_remaining_before : float) : bool :=
  if PrimFloat.ltb budget_remaining_before 0 then true
  else Py.gtb total budget_remaining_before.

Definition project_monthly_burn (total : float) (incidents_per_day : Z)
  : float :=
  (total * Py.Z2float incidents_per_day * Py.Z2float DAYS_PER_MONTH)%float.

(** [int(x)]: truncation toward zero; [None] where Python raises
    (OverflowError on an infinity, ValueError on a NaN). *)
Definition int_of_float (x : float) : option Z :=
  match Prim2SF x with
  | S754_finite s m e =>
      let q := if (0 <=? e)%Z then (Zpos m * 2 ^ e)%Z
               else (Zpos m / 2 ^ (- e))%Z in
      Some (if s then (- q)%Z else q)
  | S754_zero _ => Some 0%Z
  | _ => None
  end.

Definition estimate_incidents_remaining
    (budget_remaining_after total : float) : option Z :=
  if PrimFloat.leb total 0 then Some 0%Z
  else if PrimFloat.leb budget_remaining_after 0 then Some 0%Z
  else int_of_float (budget_remaining_after / total)%float.

Definition add_execution_trace
    (state : GraphState) (node : string) (dur : Z) (st : string)
    (meta : JSONDict) (now : string) : GraphState :=
  let trace_entry := mkTraceEntry node now dur st (Some meta) in
  set_execution_trace (execution_trace state ++ [trace_entry]) state.

(** [None]: the incidents-remaining quotient is not finite and [int]
    raises. *)
Definition cost_guardian_node
    (now_result now_trace : string) (dur : Z) (state : GraphState)
  : option GraphState :=
  let hyps := hypotheses state in
  let budget_remaining_before := budget_remaining state in
  let per_agent_costs := aggregate_per_agent_costs hyps in
  let total := calculate_total_cost per_agent_costs in
  let budget_remaining_after :=
    calculate_budget_remaining budget_remaining_before total in
  let exceeded := check_budget_exceeded total budget_remaining_before in
  let monthly_burn := project_monthly_burn total INCIDENTS_PER_DAY in
  match estimate_incidents_remaining budget_remaining_after total with
  | None => None
  | Some incidents_remaining =>
  let cost_guardian_result :=
    mkCostGuardianResult total budget_remaining_after exceeded
      per_agent_costs monthly_burn incidents_remaining now_result in
  let new_state :=
    set_budget_remaining budget_remaining_after
      (set_cost_guardian cost_guardian_result state) in
  Some (add_execution_trace new_state "cost-guardian" dur "COMPLETED"
          [ ("total_cost", JFloat total);
            ("budget_remaining", JFloat budget_remaining_after);
            ("budget_exceeded", JBool exceeded) ]
          now_trace)
  end.

End CostGuardian.

(* ################################################################# *)
(** * src/tracing/redaction.py *)

Module Redaction.
Local Open Scope char_scope.

(** ** The regular expressions of [PII_PATTERNS]

    The six patterns use word boundaries, literals and greedy bounded
    repetitions of character classes; the matcher below is the
    backtracking search of [re] for that fragment.  Code points are below
    256, where [\d] is [0-9] and [\w] is the set of [is_word]. *)

Definition between (lo hi : nat) (c : ascii) : bool :=
  Nat.leb lo (nat_of_ascii c) && Nat.leb (nat_of_ascii c) hi.

Definition is_digit (c : ascii) : bool := between 48 57 c.
Definition is_upper (c : ascii) : bool := between 65 90 c.
Definition is_lower (c : ascii) : bool := between 97 122 c.
Definition is_alnum (c : ascii) : bool :=
  is_upper c || is_lower c || is_digit c.

Definition one_of (cs : list ascii) (c : ascii) : bool :=
  existsb (Ascii.eqb c) cs.

Definition is_word (c : ascii) : bool :=
  is_alnum c || Ascii.eqb c "_"
  || existsb (Nat.eqb (nat_of_ascii c)) [170; 178; 179; 181; 185; 186]%nat
  || between 188 190 c || between 192 214 c || between 216 246 c
  || between 248 255 c.

Inductive atom : Type :=
| Boundary                                         (* \b *)
| Repeat (cls : ascii -> bool) (lo : nat) (hi : option nat).
                                                   (* [cls]{lo,hi} *)

Definition lit (c : ascii) : atom := Repeat (Ascii.eqb c) 1 (Some 1%nat).
Definition exactly (cls : ascii -> bool) (n : nat) : atom :=
  Repeat cls n (Some n).

Definition word_at (c : option ascii) : bool :=
  match c with Some a => is_word a | None => false end.

(** [\b] between the previous character and the rest of the text. *)
Definition at_boundary (prev : option ascii) (s : list ascii) : bool :=
  xorb (word_at prev) (word_at (hd_error s)).

(** Greedy repetition followed by the continuation [k]: take one more
    character when allowed, and fall back to stopping here. *)
Fixpoint match_rep
    (cls : ascii -> bool)
    (k : option ascii -> list ascii -> option (list ascii))
    (lo : nat) (hi : option nat)
    (prev : option ascii) (s : list ascii) : option (list ascii) :=
  let stop := match lo with O => k prev s | S _ => None end in
  match s with
  | c :: s' =>
      if cls c && match hi with Some O => false | _ => true end then
        match match_rep cls k (Nat.pred lo) (option_map Nat.pred hi)
                (Some c) s' with
        | Some r => Some r
        | None => stop
        end
      else stop
  | [] => stop
  end.

(** A match of the pattern at the start of [s] ([prev] is the character
    before it): the text left after the match. *)
Fixpoint match_atoms
    (atoms : list atom) (prev : option ascii) (s : list ascii)
  : option (list ascii) :=
  match atoms with
  | [] => Some s
  | Boundary :: rest =>
      if at_boundary prev s then match_atoms rest prev s else None
  | Repeat cls lo hi :: rest => match_rep cls (match_atoms rest) lo hi prev s
  end.

(** [re.search(pattern, s)] as a truth value. *)
Fixpoint search_from
    (atoms : list atom) (prev : option ascii) (s : list ascii) : bool :=
  match match_atoms atoms prev s with
  | Some _ => true
  | None =>
      match s with
      | [] => false
      | c :: s' => search_from atoms (Some c) s'
      end
  end.

Definition search (atoms : list atom) (s : list ascii) : bool :=
  search_from atoms None s.

(** [re.sub(pattern, repl, s)]: leftmost matches, left to right, not
    overlapping; [skip] counts the characters of the current match still
    to drop.  (An empty match puts [repl] before the next character; none
    of the six patterns has one.) *)
Fixpoint sub_from
    (atoms : list atom) (repl : list ascii) (skip : nat)
    (prev : option ascii) (s : list ascii) : list ascii :=
  match skip with
  | S n =>
      match s with
      | [] => []
      | c :: s' => sub_from atoms repl n (Some c) s'
      end
  | O =>
      match match_atoms atoms prev s with
      | Some rest =>
          match s with
          | [] => repl
          | c :: s' =>
              match (List.length s - List.length rest)%nat with
              | O => repl ++ c :: sub_from atoms repl 0 (Some c) s'
              | S n => repl ++ sub_from atoms repl n (Some c) s'
              end
          end
      | None =>
          match s with
          | [] => []
          | c :: s' => c :: sub_from atoms repl 0 (Some c) s'
          end
      end
  end.

Definition sub (atoms : list atom) (repl : string) (s : list ascii)
  : list ascii :=
  sub_from atoms (list_ascii_of_string repl) 0 None s.

(** ** PII_PATTERNS *)

Definition email_local (c : ascii) : bool :=
  is_alnum c || one_of ["."; "_"; "%"; "+"; "-"] c.
Definition email_domain (c : ascii) : bool :=
  is_alnum c || one_of ["."; "-"] c.
Definition email_tld (c : ascii) : bool :=
  is_upper c || is_lower c || Ascii.eqb c "|".
Definition dash_or_dot (c : ascii) : bool := one_of ["-"; "."] c.
Definition key_char (c : ascii) : bool := is_digit c || is_upper c.

Definition email_pattern : list atom :=
  [ Boundary; Repeat email_local 1 None; lit "@";
    Repeat email_domain 1 None; lit "."; Repeat email_tld 2 None; Boundary ].

Definition phone_pattern : list atom :=
  [ Boundary; exactly is_digit 3; Repeat dash_or_dot 0 (Some 1%nat);
    exactly is_digit 3; Repeat dash_or_dot 0 (Some 1%nat);
    exactly is_digit 4; Boundary ].

Definition ssn_pattern : list atom :=
  [ Boundary; exactly is_digit 3; lit "-"; exactly is_digit 2; lit "-";
    exactly is_digit 4; Boundary ].

Definition aws_account_pattern : list atom :=
  [ Boundary; exactly is_digit 12; Boundary ].

Definition aws_access_key_pattern : list atom :=
  [ lit "A"; lit "K"; lit "I"; lit "A"; exactly key_char 16 ].

Definition ip_address_pattern : list atom :=
  [ Boundary; Repeat is_digit 1 (Some 3%nat); lit ".";
    Repeat is_digit 1 (Some 3%nat); lit ".";
    Repeat is_digit 1 (Some 3%nat); lit ".";
    Repeat is_digit 1 (Some 3%nat); Boundary ].

Definition PII_PATTERNS : list (string * (list atom * string)) :=
  [ ("email"%string, (email_pattern, "[EMAIL_REDACTED]"%string));
    ("phone"%string, (phone_pattern, "[PHONE_REDACTED]"%string));
    ("ssn"%string, (ssn_pattern, "[SSN_REDACTED]"%string));
    ("aws_account"%string,
     (aws_account_pattern, "[AWS_ACCOUNT_REDACTED]"%string));
    ("aws_access_key"%string,
     (aws_access_key_pattern, "[AWS_KEY_REDACTED]"%string));
    ("ip_address"%string, (ip_address_pattern, "[IP_REDACTED]"%string)) ].

(** One iteration of the loop over [PII_PATTERNS.items()]. *)
Definition redact_step
    (acc : list ascii * bool) (entry : string * (list atom * string))
  : list ascii * bool :=
  let pattern := fst (snd entry) in
  let replacement := snd (snd entry) in
  if search pattern (fst acc) then (sub pattern replacement (fst acc), true)
  else acc.

Definition redact_pii (text : string) : string * bool :=
  if String.eqb text "" then (text, false)
  else
    let result :=
      fold_left redact_step PII_PATTERNS (list_ascii_of_string text, false) in
    (string_of_list_ascii (fst result), snd result).

(** ** Texts no pattern can match

    Every pattern but the access-key one needs a digit or an [@]; the
    access-key pattern needs an [A] followed by a [K]. *)





End Redaction.

(* ################################################################# *)
(** * infra/phase6/lambda/graph.py *)

Module Graph.
Import State AgentNode.
Local Open Scope string_scope.

(** The six agent slots [validate_terminal_state] requires, in order. *)
Definition REQUIRED_AGENTS : list string :=
  [ "signal-intelligence"; "historical-pattern"; "change-intelligence";
    "risk-blast-radius"; "knowledge-rag"; "response-strategy" ].

(** [not external_input.get(key)] *)
Definition missing_or_falsy (key : string) (d : JSONDict) : bool :=
  match Py.dict_get key d with
  | Some v => negb (truthy v)
  | None => true
  end.

Definition is_str (v : option JSONValue) : bool :=
  match v with Some (JStr _) => true | _ => false end.

Definition is_dict (v : option JSONValue) : bool :=
  match v with Some (JDict _) => true | _ => false end.

(** [isinstance(budget, (int, float)) and not budget < 0.0], where
    [budget] defaults to 0.0. *)
Definition budget_ok (d : JSONDict) : bool :=
  match Py.dict_get "budget_remaining" d with
  | None => true
  | Some (JBool _) => true
  | Some (JInt z) => negb (z <? 0)%Z
  | Some (JFloat f) => negb (PrimFloat.ltb f 0)
  | Some _ => false
  end.

Definition validate_entry_input (external_input : JSONDict)
  : option PyException :=
  if missing_or_falsy "incident_id" external_input then
    Some (ValueError "incident_id is required")
  else if negb (is_str (Py.dict_get "incident_id" external_input)) then
    Some (ValueError "incident_id must be a string")
  else if missing_or_falsy "evidence_bundle" external_input then
    Some (ValueError "evidence_bundle is required")
  else if negb (is_dict (Py.dict_get "evidence_bundle" external_input)) then
    Some (ValueError "evidence_bundle must be a dict")
  else if negb (budget_ok external_input) then
    Some (ValueError "budget_remaining must be >= 0.0")
  else if missing_or_falsy "session_id" external_input then
    Some (ValueError "session_id is required")
  else if negb (is_str (Py.dict_get "session_id" external_input)) then
    Some (ValueError "session_id must be a string")
  else None.

Fixpoint first_missing_agent
    (agents : list string) (hyps : list (string * AgentOutput))
  : option string :=
  match agents with
  | [] => None
  | a :: rest =>
      if Py.dict_mem a hyps then first_missing_agent rest hyps else Some a
  end.

Definition validate_terminal_state (state : GraphState)
  : option PyException :=
  match first_missing_agent REQUIRED_AGENTS (hypotheses state) with
  | Some agent => Some (ValueError ("Missing output for agent: " ++ agent))
  | None =>
      match consensus state with
      | None => Some (ValueError "Consensus result missing")
      | Some _ =>
          match cost_guardian state with
          | None => Some (ValueError "Cost guardian result missing")
          | Some _ => None
          end
      end
  end.

(** A number of the event as the float the state stores. *)
Definition number_float (v : JSONValue) : float :=
  match v with
  | JFloat f => f
  | JInt z => Py.Z2float z
  | JBool b => if b then 1%float else 0%float
  | _ => 0%float
  end.

(** An optional string field: used when present and truthy, otherwise
    generated; [None] for a truthy value that is not a string (the state
    declares the field a string). *)
Definition str_or_generated (v : option JSONValue) (generated : string)
  : option string :=
  match v with
  | None => Some generated
  | Some (JStr s) => Some (if String.eqb s "" then generated else s)
  | Some other => if truthy other then None else Some generated
  end.

(** An optional dict field: [None] for a value that is neither absent,
    null nor an object. *)
Definition optional_dict (v : option JSONValue) : option (option JSONDict) :=
  match v with
  | None | Some JNull => Some None
  | Some (JDict d) => Some (Some d)
  | Some _ => None
  end.

(** [entry_node]; [now_epoch] is the text of
    [datetime.utcnow().timestamp()], [now_iso] and [now_trace] are the two
    [isoformat()] reads. *)
Definition entry_node
    (now_epoch now_iso now_trace : string) (external_input : JSONDict)
  : node_result :=
  match validate_entry_input external_input with
  | Some e => NodeRaises e
  | None =>
      match Py.dict_get "incident_id" external_input,
            Py.dict_get "evidence_bundle" external_input,
            Py.dict_get "session_id" external_input with
      | Some (JStr incident), Some (JDict bundle), Some (JStr session) =>
          let budget :=
            or_default (Py.dict_get "budget_remaining" external_input)
              (JFloat 0) in
          match str_or_generated (Py.dict_get "execution_id" external_input)
                  ("exec-" ++ incident ++ "-" ++ now_epoch),
                str_or_generated (Py.dict_get "timestamp" external_input)
                  now_iso,
                optional_dict (Py.dict_get "context" external_input),
                optional_dict (Py.dict_get "replay_metadata" external_input)
          with
          | Some execution, Some ts, Some ctx, Some replay =>
              let initial_state :=
                create_initial_state incident bundle (number_float budget)
                  session execution ts ctx replay in
              let entry_trace :=
                mkTraceEntry "ENTRY" now_trace 0 "COMPLETED"
                  (Some [ ("incident_id", JStr incident);
                          ("budget_remaining", budget) ]) in
              NodeReturns (set_execution_trace [entry_trace] initial_state)
          | _, _, _, _ => NodeIllTyped
          end
      | _, _, _ => NodeIllTyped
      end
  end.

(** ** The nodes that follow an agent's node

    [create_graph] wires the nodes with linear edges only, so after the
    node of agent [a] the state passes through nodes of other agents, the
    consensus node and the cost guardian: one such step, for any endpoint
    and clock. *)
Section Steps.
Variable json_dumps : JSONValue -> string.
Variable json_dumps_sorted : JSONValue -> string.
Variable json_loads : string -> JSONValue + string.
Variable sha256_hexdigest : string -> string.
Variable py_str : JSONValue -> string.

Inductive later_step (a : string) : GraphState -> GraphState -> Prop :=
| step_agent cfg remote clock s s' :
    cfg_agent_id cfg <> a ->
    agent_node json_dumps json_dumps_sorted json_loads sha256_hexdigest
      py_str cfg remote clock s = NodeReturns s' ->
    later_step a s s'
| step_consensus now_result now_trace dur s s' :
    ConsensusNode.consensus_node now_result now_trace dur s = Some s' ->
    later_step a s s'
| step_cost_guardian now_result now_trace dur s s' :
    CostGuardian.cost_guardian_node now_result now_trace dur s = Some s' ->
    later_step a s s'.

Inductive later_steps (a : string) : GraphState -> GraphState -> Prop :=
| steps_done s : later_steps a s s
| steps_more s s1 s2 :
    later_step a s s1 -> later_steps a s1 s2 -> later_steps a s s2.

(** ** [create_graph]: the wiring

    The six agent nodes are created with their canonical ids, version
    1.0.0, the Bedrock ids read from the process environment (empty when
    unset) and the default retry limit and timeout; the edges chain them
    in this order, followed by the consensus node, the cost guardian and
    the terminal node. *)
Definition GRAPH_AGENTS : list string :=
  [ "signal-intelligence"; "historical-pattern"; "change-intelligence";
    "risk-blast-radius"; "knowledge-rag"; "response-strategy" ].

(** What a run reads from outside: the environment variables, and at each
    node the endpoint's behaviour and the clock. *)
Record Environment : Type := mkEnvironment {
  agent_id_env : string -> string;
  alias_id_env : string -> string;
  guardrail_id_env : option string;
  guardrail_version_env : string;
  endpoint : string -> Remote;
  agent_clock : string -> Clock;
  consensus_clock : string * string * Z;
  cost_guardian_clock : string * string * Z
}.

Definition graph_agent_config (env : Environment) (a : string)
  : AgentConfig :=
  mkConfig a "1.0.0" (agent_id_env env a) (alias_id_env env a)
    MAX_RETRIES 30 (guardrail_id_env env) (guardrail_version_env env).

Definition graph_agent_node (env : Environment) (a : string)
    (state : GraphState) : node_result :=
  agent_node json_dumps json_dumps_sorted json_loads sha256_hexdigest py_str
    (graph_agent_config env a) (endpoint env a) (agent_clock env a) state.

(** The nodes run in the order of the edges, each on the state the one
    before returned; [None] when a node raises or leaves the typed
    model. *)
Fixpoint run_agents (env : Environment) (agents : list string)
    (state : GraphState) : option GraphState :=
  match agents with
  | [] => Some state
  | a :: rest =>
      match graph_agent_node env a state with
      | NodeReturns new_state => run_agents env rest new_state
      | _ => None
      end
  end.

Definition run_nodes (env : Environment) (state : GraphState)
  : option GraphState :=
  match run_agents env GRAPH_AGENTS state with
  | None => None
  | Some after_agents =>
      let '(c_result, c_trace, c_dur) := consensus_clock env in
      match ConsensusNode.consensus_node c_result c_trace c_dur after_agents
      with
      | None => None
      | Some after_consensus =>
          let '(g_result, g_trace, g_dur) := cost_guardian_clock env in
          CostGuardian.cost_guardian_node g_result g_trace g_dur
            after_consensus
      end
  end.

End Steps.

End Graph.

(* ################################################################# *)
(** * src/tracing/redaction.py: variables and trace data *)

Module Sanitizer.
Import State Redaction.
Local Open Scope string_scope.

Definition MAX_VAR_LENGTH : nat := 2048.
Definition TRUNCATED : string := "...[TRUNCATED]".

Section Sanitize.

(** [json.dumps(value, default=str)] ([None] when it raises TypeError or
    ValueError) and [str(value)]. *)
Variable json_dumps_default_str : JSONValue -> option string.
Variable py_str : JSONValue -> string.

(** Step 1: stringify. *)
Definition stringify (value : JSONValue) : string :=
  match value with
  | JStr s => s
  | other =>
      match json_dumps_default_str other with
      | Some s => s
      | None => py_str other
      end
  end.

(** Steps 2 and 3: redact, then truncate. *)
Definition sanitize_value (value : JSONValue) : string :=
  let redacted_value := fst (redact_pii (stringify value)) in
  if Nat.ltb MAX_VAR_LENGTH (String.length redacted_value) then
    Py.str_take MAX_VAR_LENGTH redacted_value ++ TRUNCATED
  else redacted_value.

Definition sanitize_variables (variables : JSONDict)
  : list (string * string) :=
  match variables with
  | [] => []
  | _ =>
      fold_left
        (fun sanitized (item : string * JSONValue) =>
           Py.dict_set (fst item) (sanitize_value (snd item)) sanitized)
        variables []
  end.

(** [original_vars[key] != sanitized_vars[key]]: a value that is not a
    string never equals a string. *)
Definition differs (original : JSONValue) (sanitized : string) : bool :=
  match original with
  | JStr s => negb (String.eqb s sanitized)
  | _ => true
  end.

(** The loop that looks for a changed variable. *)
Definition any_variable_changed
    (original_vars : JSONDict) (sanitized_vars : list (string * string))
  : bool :=
  existsb
    (fun key =>
       match Py.dict_get key sanitized_vars, Py.dict_get key original_vars with
       | Some sanitized, Some original => differs original sanitized
       | _, _ => false
       end)
    (Py.dict_keys original_vars).

End Sanitize.

(** ** [redact_trace_data]

    The function copies the event with [trace_data.copy()], which copies
    the entries of the event but not the dicts they refer to, and then
    assigns into the dicts under ["prompt"] and ["response"].  So these
    dicts are objects with an identity, kept in a heap; the event's
    entries refer to them.  Everything else the function only reads. *)

Definition Ref : Type := nat.

(** A value of the event: a dict is a reference into the heap. *)
Inductive TraceValue : Type :=
| TNull
| TBool (b : bool)
| TInt (z : Z)
| TFloat (f : float)
| TStr (s : string)
| TList (l : list JSONValue)
| TDict (r : Ref).

Definition Event : Type := list (string * TraceValue).
Definition Heap : Type := list (Ref * JSONDict).

Fixpoint heap_get (r : Ref) (h : Heap) : option JSONDict :=
  match h with
  | [] => None
  | (r', d) :: h' => if Nat.eqb r r' then Some d else heap_get r h'
  end.

Fixpoint heap_set (r : Ref) (d : JSONDict) (h : Heap) : Heap :=
  match h with
  | [] => [(r, d)]
  | (r', d') :: h' =>
      if Nat.eqb r r' then (r', d) :: h' else (r', d') :: heap_set r d h'
  end.

(** [redact_pii(text)] on whatever the event holds as text: a falsy value
    is returned as it is, a string is redacted; on any other value
    [re.search] raises TypeError ([None]). *)
Definition redact_text (text : JSONValue) : option (JSONValue * bool) :=
  match text with
  | JStr s => Some (JStr (fst (redact_pii s)), snd (redact_pii s))
  | other => if truthy other then None else Some (other, false)
  end.

(** The test [outer in event and key in event[outer]] followed by the
    subscription [event[outer][key]]: the dict object and its value under
    [key]; nothing to do; or an exception (a string that contains [key]
    and a list that has it as an element cannot be subscripted with it,
    and the other values do not support [in]). *)
Inductive lookup_result : Type :=
| Found (r : Ref) (d : JSONDict) (v : JSONValue)
| Skipped
| Raised.

Definition nested_lookup (outer key : string) (event : Event) (h : Heap)
  : lookup_result :=
  match Py.dict_get outer event with
  | None => Skipped
  | Some (TDict r) =>
      match heap_get r h with
      | Some d =>
          match Py.dict_get key d with
          | Some v => Found r d v
          | None => Skipped
          end
      | None => Raised
      end
  | Some (TStr s) => if Py.str_contains key s then Raised else Skipped
  | Some (TList l) =>
      if existsb (AgentNode.is_jstr key) l then Raised else Skipped
  | Some _ => Raised
  end.

(** The first two steps, for [outer] = ["prompt"] and ["response"]. *)
Definition redact_nested_text (outer : string) (event : Event)
    (acc : Heap * bool) : option (Heap * bool) :=
  match nested_lookup outer "text" event (fst acc) with
  | Skipped => Some acc
  | Raised => None
  | Found r d text =>
      match redact_text text with
      | None => None
      | Some (redacted, was_redacted) =>
          Some (heap_set r (Py.dict_set "text" redacted d) (fst acc),
                snd acc || was_redacted)
      end
  end.

Section TraceData.
Variable json_dumps_default_str : JSONValue -> option string.
Variable py_str : JSONValue -> string.

(** [sanitize_variables(original_vars)] on whatever the event holds as
    variables: a falsy value gives the empty dict, a dict is sanitized;
    any other value has no [items] ([None]). *)
Definition sanitize_any (original_vars : JSONValue)
  : option (list (string * string)) :=
  match original_vars with
  | JDict d => Some (sanitize_variables json_dumps_default_str py_str d)
  | other => if truthy other then None else Some []
  end.

(** The loop [for key in original_vars]: [None], a bool or a number cannot
    be iterated ([None]); an empty string or list has no keys. *)
Definition variables_changed
    (original_vars : JSONValue) (sanitized_vars : list (string * string))
  : option bool :=
  match original_vars with
  | JDict d => Some (any_variable_changed d sanitized_vars)
  | JStr _ | JList _ => Some false
  | _ => None
  end.

Definition as_json (sanitized_vars : list (string * string)) : JSONValue :=
  JDict (map (fun item => (fst item, JStr (snd item))) sanitized_vars).

(** The returned triple: the copy of the event, the heap after the
    assignments, and [any_redacted]. *)
Definition redact_trace_data (trace_data : Event) (h : Heap)
  : option (Event * Heap * bool) :=
  let redacted_trace := trace_data in
  match redact_nested_text "prompt" redacted_trace (h, false) with
  | None => None
  | Some after_prompt =>
      match redact_nested_text "response" redacted_trace after_prompt with
      | None => None
      | Some (h2, any_redacted) =>
          match nested_lookup "prompt" "variables" redacted_trace h2 with
          | Skipped => Some (redacted_trace, h2, any_redacted)
          | Raised => None
          | Found r d original_vars =>
              match sanitize_any original_vars with
              | None => None
              | Some sanitized_vars =>
                  let h3 :=
                    heap_set r
                      (Py.dict_set "variables" (as_json sanitized_vars) d)
                      h2 in
                  match variables_changed original_vars sanitized_vars with
                  | None => None
                  | Some changed =>
                      Some (redacted_trace, h3, any_redacted || changed)
                  end
              end
          end
      end
  end.

End TraceData.

End Sanitizer.

(* ################################################################# *)
(** * Vocabulary for the properties of the nodes *)

Module Vocabulary.
Import State AgentNode.
Local Open Scope string_scope.

(** The name [map_exception_to_error_code] looks up: the error code of a
    [ClientError] (["Exception"] when the response has none), the class
    name of any other exception. *)
Definition exception_name (e : PyException) : string :=
  match e with
  | ClientError code _ => or_default code "Exception"
  | OtherError name _ => name
  end.

(** The values of [ERROR_CODE_MAPPING] and its default. *)
Definition CANONICAL_CODES : list string :=
  [ "BEDROCK_THROTTLING"; "DATA_SOURCE_UNAVAILABLE"; "INVALID_INPUT";
    "INTERNAL_ERROR"; "RATE_LIMIT_EXCEEDED"; "TIMEOUT";
    "SCHEMA_VALIDATION_FAILED"; "OUTPUT_VALIDATION_FAILED";
    "UNKNOWN_ERROR" ].


(** What [validate_agent_output] demands of an answer, read on the
    envelope stored for it. *)
Definition envelope_ok (out : AgentOutput) : Prop :=
  PrimFloat.leb 0 (confidence out) = true
  /\ PrimFloat.leb (confidence out) 1 = true
  /\ In (status out) valid_statuses
  /\ Py.str_contains DISCLAIMER (disclaimer out) = true
  /\ findings out <> [].



(** Every output that is not a FAILURE reports the confidence [c]. *)
Definition same_confidence (c : float) (hyps : list (string * AgentOutput))
  : Prop :=
  forall h, In h hyps ->
            status (snd h) <> "FAILURE" -> confidence (snd h) = c.

(** Every group of proposals is non-empty and every proposal in it has
    confidence [c]. *)
Definition groups_at {P : Type} (c : float)
    (g : list (string * list (ConsensusNode.Proposal P))) : Prop :=
  Forall (fun grp =>
            snd grp <> []
            /\ Forall (fun p => ConsensusNode.prop_conf p = c) (snd grp)) g.

(** Every output reports a cost of exactly 0.0 (or none). *)
Definition costs_nothing (hyps : list (string * AgentOutput)) : Prop :=
  forall h, In h hyps ->
            or_default (estimatedCost (cost (snd h))) 0%float = 0%float.

(** The entry [aggregate_per_agent_costs] records for one output: the four
    cost fields, each with its default. *)
Definition agent_cost_of (output : AgentOutput) : AgentCost :=
  mkAgentCost
    (or_default (inputTokens (cost output)) 0%Z)
    (or_default (outputTokens (cost output)) 0%Z)
    (or_default (estimatedCost (cost output)) 0%float)
    (or_default (model (cost output)) "N/A").

(** After the nodes of the agents [done]: an agent of [done] has a
    hypothesis exactly when it has no retry counter, and no other agent
    has either. *)
Definition slots_or_retries (done : list string) (s : GraphState) : Prop :=
  (forall a, In a done ->
             (Py.dict_get a (hypotheses s) = None
              <-> Py.dict_get a (retry_count s) <> None))
  /\ (forall a, ~ In a done ->
                Py.dict_get a (hypotheses s) = None
                /\ Py.dict_get a (retry_count s) = None).

(** The agent ids of a map are pairwise distinct, as the keys of a dict
    are. *)
Definition distinct_keys {V : Type} (d : list (string * V)) : Prop :=
  NoDup (Py.dict_keys d).

End Vocabulary.

(* ################################################################# *)
(** * Sample inputs *)

Module Examples.
Import State AgentNode.
Local Open Scope string_scope.

(** A fixed instantiation of the library functions, used where a run has
    to be evaluated; none of the runs below reaches them with an argument
    that matters. *)
Definition dumps0 (v : JSONValue) : string := "{}".
Definition loads0 (s : string) : JSONValue + string := inr "Expecting value".
Definition sha0 (s : string) : string := s.
Definition str0 (v : JSONValue) : string := type_name v.

Definition cfg_signal : AgentConfig :=
  mkConfig "signal-intelligence" "1.0.0" "AGENT0001" "ALIAS0001"
    MAX_RETRIES 30 None "1".

Definition clock0 : Clock :=
  mkClock "2026-01-01T00:00:00" "2026-01-01T00:00:01" "2026-01-01T00:00:01"
    "2026-01-01T00:00:01" 1000.

Definition bundle0 : JSONDict :=
  [("signals", JList [JDict [("metric", JStr "CPU"); ("value", JFloat 95.5)]])].

(** A freshly created state: scenario S1 of the specification. *)
Definition state0 : GraphState :=
  create_initial_state "INC-T1" bundle0 5 "session-1" "exec-1"
    "2026-01-01T00:00:00" None None.

(** The same request with an empty incident identifier. *)
Definition state_no_incident : GraphState :=
  create_initial_state "" bundle0 5 "session-1" "exec-1"
    "2026-01-01T00:00:00" None None.

(** Endpoints that always fail. *)
Definition remote_denied : Remote :=
  fun _ => inl (ClientError (Some "AccessDeniedException") "access denied").

Definition remote_unavailable : Remote :=
  fun _ => inl (ClientError (Some "ServiceUnavailableException")
                  "service unavailable").

Definition remote_timeout : Remote :=
  fun _ => inl (OtherError "TimeoutError" "timed out").

Definition remote_throttled : Remote :=
  fun _ => inl (ClientError (Some "ThrottlingException") "slow down").

(** Scenario S1: all six agents succeed with confidence 0.8, the same
    recommendation and the same cost. *)
Definition recommendation (kind description : string) : JSONValue :=
  JDict [("type", JStr kind); ("description", JStr description)].

Definition success_output (agent : string) (conf : float)
    (recs : list JSONValue) (usd : float) : AgentOutput :=
  mkAgentOutput agent "1.0.0" "exec-1" "2026-01-01T00:00:01" 1000
    "SUCCESS" conf "" "HYPOTHESIS_ONLY_NOT_AUTHORITATIVE"
    [("recommendations", JList recs)] None
    (mkCost (Some 100%Z) (Some 50%Z) (Some usd) (Some "M")) None
    [("deterministicHash", JStr "0"); ("schemaVersion", JStr "1.0.0")].

Definition s1_output (agent : string) : string * AgentOutput :=
  (agent,
   success_output agent 0.8
     [recommendation "INVESTIGATION" "check connection pool"] 0.001125).

Definition s1_hypotheses : list (string * AgentOutput) :=
  map s1_output
    [ "signal-intelligence"; "historical-pattern"; "change-intelligence";
      "risk-blast-radius"; "knowledge-rag"; "response-strategy" ].

Definition state_s1 : GraphState := set_hypotheses s1_hypotheses state0.

(** Three agents that all report confidence 0.7. *)
Definition three_at_07 : list (string * AgentOutput) :=
  map (fun a => (a, success_output a 0.7 [] 0))
    [ "signal-intelligence"; "historical-pattern"; "change-intelligence" ].

(** One agent at confidence 0.0 and one at 1.0. *)
Definition extremes : list (string * AgentOutput) :=
  [ ("signal-intelligence", success_output "signal-intelligence" 0 [] 0);
    ("historical-pattern", success_output "historical-pattern" 1 [] 0) ].


(** Two answers of an agent that differ in everything but the findings and
    the confidence rounded to 4 decimals, and two input envelopes that
    differ in timestamp and session. *)
Definition raw_a : JSONDict :=
  [ ("status", JStr "SUCCESS"); ("confidence", JFloat 0.80001);
    ("disclaimer", JStr "HYPOTHESIS_ONLY_NOT_AUTHORITATIVE");
    ("findings", JDict [("cause", JStr "pool exhausted")]);
    ("reasoning", JStr "first wording") ].







(** Three agents: one proposes a rollback at 0.9, one an investigation
    at 0.5, one failed. *)
Definition failed_output (agent : string) : AgentOutput :=
  create_failure_hypothesis agent "1.0.0" "exec-1" "INTERNAL_ERROR"
    "access denied" false 0 (extract_cost_metadata None)
    "2026-01-01T00:00:01".

Definition mixed_hypotheses : list (string * AgentOutput) :=
  [ ("signal-intelligence",
     success_output "signal-intelligence" 0.5
       [recommendation "INVESTIGATION" "check connection pool"] 0.001125);
    ("change-intelligence",
     success_output "change-intelligence" 0.9
       [recommendation "ROLLBACK" "roll back deploy 42"] 0.001125);
    ("knowledge-rag", failed_output "knowledge-rag") ].


End Examples.


(** ** Further sample inputs *)

Module Scenarios.
Import State AgentNode Examples.
Local Open Scope string_scope.

(** An endpoint that streams one chunk, and a decoder that reads it as
    the answer [raw_a]. *)
Definition response_ok : BedrockResponse :=
  mkResponse None (Some [ChunkBytes "{...}"]) None (Some 100%Z) (Some 50%Z)
    (Some "anthropic.claude-3-5-sonnet-20241022-v2:0") "['completion']".

Definition remote_ok : Remote := fun _ => inr response_ok.

Definition loads_ok (s : string) : JSONValue + string := inl (JDict raw_a).

(** The state a node call returns, or the state it was given. *)
Definition returned (r : node_result) (fallback : GraphState) : GraphState :=
  match r with
  | NodeReturns s => s
  | _ => fallback
  end.

Definition or_state (r : option GraphState) (fallback : GraphState)
  : GraphState :=
  match r with
  | Some s => s
  | None => fallback
  end.

(** Scenario S1 after a throttled first agent, then after the consensus
    node and the cost guardian. *)
Definition state_throttled : GraphState :=
  returned
    (agent_node dumps0 dumps0 loads0 sha0 str0 cfg_signal remote_throttled
       clock0 state0)
    state0.

Definition state_throttled_consensus : GraphState :=
  or_state (ConsensusNode.consensus_node "t1" "t2" 3 state_throttled)
    state_throttled.

Definition state_throttled_final : GraphState :=
  or_state
    (CostGuardian.cost_guardian_node "t3" "t4" 2 state_throttled_consensus)
    state_throttled_consensus.

(** Three agents that failed before their invocation. *)
Definition three_failed : list (string * AgentOutput) :=
  map (fun a => (a, failed_output a))
    [ "signal-intelligence"; "historical-pattern"; "change-intelligence" ].

Definition state_three_failed : GraphState :=
  set_hypotheses three_failed state0.

(** Three agents, three recommendation types: the least confident one is
    left out of the unified recommendation. *)
Definition three_types : list (string * AgentOutput) :=
  [ ("signal-intelligence",
     success_output "signal-intelligence" 0.8
       [recommendation "INVESTIGATION" "check connection pool"] 0.001125);
    ("change-intelligence",
     success_output "change-intelligence" 0.9
       [recommendation "ROLLBACK" "roll back deploy 42"] 0.001125);
    ("knowledge-rag",
     success_output "knowledge-rag" 0.7
       [recommendation "SCALE" "add capacity"] 0.001125) ].

(** The docstring's variables, with [json.dumps] on the integers. *)
Definition dumps_default0 (v : JSONValue) : option string :=
  match v with
  | JInt z => Some (Py.str_of_Z z)
  | _ => None
  end.

Definition variables0 : JSONDict :=
  [("email", JStr "user@example.com"); ("count", JInt 42)].

(** An event as EventBridge delivers it. *)
Definition event0 : JSONDict :=
  [ ("incident_id", JStr "INC-T1"); ("evidence_bundle", JDict bundle0);
    ("budget_remaining", JFloat 5); ("session_id", JStr "session-1") ].

(** Two environments: every endpoint denies access; the same, but the
    first agent is throttled. *)
Definition env_denied : Graph.Environment :=
  Graph.mkEnvironment (fun a => "AGENT-" ++ a) (fun a => "ALIAS-" ++ a)
    None "1" (fun _ => remote_denied) (fun _ => clock0)
    ("t1", "t2", 3%Z) ("t3", "t4", 2%Z).

Definition env_throttled : Graph.Environment :=
  Graph.mkEnvironment (fun a => "AGENT-" ++ a) (fun a => "ALIAS-" ++ a)
    None "1"
    (fun a => if String.eqb a "signal-intelligence" then remote_throttled
              else remote_denied)
    (fun _ => clock0)
    ("t1", "t2", 3%Z) ("t3", "t4", 2%Z).

(** A trace event whose prompt carries an address and a numeric
    variable; [0] and [1] are the dicts under ["prompt"] and
    ["response"]. *)
Definition event1 : Sanitizer.Event :=
  [ ("traceId", Sanitizer.TStr "trace-1");
    ("prompt", Sanitizer.TDict 0); ("response", Sanitizer.TDict 1) ].

Definition prompt1 : JSONDict :=
  [ ("text", JStr "Email me at user@example.com");
    ("variables", JDict [("count", JInt 42)]) ].

Definition prompt_clean : JSONDict :=
  [ ("text", JStr "restart the pool");
    ("variables", JDict [("count", JInt 42)]) ].

Definition response1 : JSONDict := [("text", JStr "ok")].

Definition heap1 : Sanitizer.Heap := [(0%nat, prompt1); (1%nat, response1)].

Definition heap_clean : Sanitizer.Heap :=
  [(0%nat, prompt_clean); (1%nat, response1)].

End Scenarios.

(* ################################################################# *)
(** * Properties *)

(** ** Dictionaries *)

Lemma dict_get_set_same {V : Type} (k : string) (v : V) (d : list (string * V)) :
  Py.dict_get k (Py.dict_set k v d) = Some v.
Proof.
  induction d as [|[k' v'] d IH]; simpl.
  - now rewrite String.eqb_refl.
  - destruct (String.eqb k k') eqn:E; simpl; rewrite E; auto.
Qed.

Lemma dict_get_set_other {V : Type} (k k' : string) (v : V)
    (d : list (string * V)) :
  k' <> k -> Py.dict_get k' (Py.dict_set k v d) = Py.dict_get k' d.
Proof.
  intros Hne. induction d as [|[k0 v0] d IH]; simpl.
  - destruct (String.eqb k' k) eqn:E; auto.
    apply String.eqb_eq in E. contradiction.
  - destruct (String.eqb k k0) eqn:E; simpl.
    + apply String.eqb_eq in E. subst k0.
      destruct (String.eqb k' k) eqn:E'; auto.
      apply String.eqb_eq in E'. contradiction.
    + now rewrite IH.
Qed.

Lemma dict_set_fresh {V : Type} (k : string) (v : V) (d : list (string * V)) :
  Py.dict_get k d = None -> Py.dict_set k v d = d ++ [(k, v)].
Proof.
  induction d as [|[k' v'] d IH]; simpl; auto.
  destruct (String.eqb k k'); [discriminate|].
  intros H. now rewrite IH.
Qed.

(** ** The agent node *)

Section AgentNodeFacts.
Import State AgentNode.
Local Open Scope string_scope.

Variable json_dumps : JSONValue -> string.
Variable json_dumps_sorted : JSONValue -> string.
Variable json_loads : string -> JSONValue + string.
Variable sha256_hexdigest : string -> string.
Variable py_str : JSONValue -> string.

Local Abbreviation try_block' :=
  (try_block json_dumps json_dumps_sorted json_loads sha256_hexdigest py_str).
Local Abbreviation agent_node' :=
  (agent_node json_dumps json_dumps_sorted json_loads sha256_hexdigest py_str).

(** The [try] block reads the input envelope and the budget only, so the
    STARTED entry appended before it does not change its outcome. *)
Lemma try_block_ignores_trace cfg remote clock state node dur st meta now :
  try_block' cfg remote clock
    (add_execution_trace state node dur st meta now)
  = try_block' cfg remote clock state.
Proof. reflexivity. Qed.

Lemma configured_passes cfg :
  configured cfg ->
  (String.eqb (bedrock_agent_id cfg) "" ||
   String.eqb (bedrock_agent_alias_id cfg) "")%bool = false.
Proof.
  intros [H1 H2].
  apply Bool.orb_false_iff; split; apply String.eqb_neq; assumption.
Qed.

(** What the node returns when the [try] block raised [e]. *)
Lemma agent_node_on_raise cfg remote clock state e resp :
  configured cfg ->
  try_block' cfg remote clock state = TryRaised e resp ->
  agent_node' cfg remote clock state
  = NodeReturns
      (on_exception cfg clock
         (add_execution_trace state (cfg_agent_id cfg) 0 "STARTED"
            (Some [("retry_attempt", JInt (attempt_of cfg state))])
            (now_started clock))
         (attempt_of cfg state) e resp).
Proof.
  intros Hc Ht. unfold agent_node.
  rewrite (configured_passes cfg Hc).
  rewrite try_block_ignores_trace, Ht. reflexivity.
Qed.


(** Input validation raises [ValueError], a name [ERROR_CODE_MAPPING] does
    not list. *)
Lemma validate_agent_input_error ai e :
  validate_agent_input ai = Some e ->
  map_exception_to_error_code e = "UNKNOWN_ERROR"
  /\ is_retryable_error (map_exception_to_error_code e) = false.
Proof.
  unfold validate_agent_input. intros H.
  repeat match type of H with
         | (if ?c then _ else _) = _ => destruct c
         | match ?l with [] => _ | _ :: _ => _ end = _ => destruct l
         end;
    inversion H; subst; split; reflexivity.
Qed.

(** An input with one of the five required fields empty. *)
Lemma validate_agent_input_rejects ai :
  incident_id ai = "" \/ evidence_bundle ai = [] \/ ai_timestamp ai = ""
  \/ ai_execution_id ai = "" \/ ai_session_id ai = "" ->
  exists e, validate_agent_input ai = Some e.
Proof.
  unfold validate_agent_input. intros H.
  destruct (String.eqb (incident_id ai) "") eqn:E1; [eauto|].
  destruct (evidence_bundle ai) eqn:E2; [eauto|].
  destruct (String.eqb (ai_timestamp ai) "") eqn:E3; [eauto|].
  destruct (String.eqb (ai_execution_id ai) "") eqn:E4; [eauto|].
  destruct (String.eqb (ai_session_id ai) "") eqn:E5; [eauto|].
  exfalso.
  destruct H as [H|[H|[H|[H|H]]]];
    try discriminate; rewrite H in *; discriminate.
Qed.

(** On an invalid input every configured node records UNKNOWN_ERROR. *)
Lemma invalid_input_recorded_as_unknown cfg remote clock state :
  configured cfg ->
  incident_id (agent_input state) = ""
  \/ evidence_bundle (agent_input state) = []
  \/ ai_timestamp (agent_input state) = ""
  \/ ai_execution_id (agent_input state) = ""
  \/ ai_session_id (agent_input state) = "" ->
  exists new_state out err,
    agent_node' cfg remote clock state = NodeReturns new_state
    /\ Py.dict_get (cfg_agent_id cfg) (hypotheses new_state) = Some out
    /\ findings out = [("error", JStr "UNKNOWN_ERROR")]
    /\ errors new_state = (errors state ++ [err])%list
    /\ error_code err = "UNKNOWN_ERROR"
    /\ retryable err = false.
Proof.
  intros Hc Hbad.
  destruct (validate_agent_input_rejects _ Hbad) as [e He].
  destruct (validate_agent_input_error _ _ He) as [Hcode Hretry].
  assert (Ht : try_block' cfg remote clock state = TryRaised e None).
  { unfold try_block. now rewrite He. }
  rewrite (agent_node_on_raise cfg remote clock state e None Hc Ht).
  unfold on_exception. rewrite Hretry, Hcode. cbn [andb].
  eexists _, _, _. split; [reflexivity|].
  cbn [hypotheses set_hypotheses set_errors add_execution_trace
       set_execution_trace errors execution_trace].
  split; [apply dict_get_set_same|].
  repeat split.
Qed.

End AgentNodeFacts.

Section AgentNodeRuns.
Import State AgentNode Examples.
Local Open Scope string_scope.


(** C5.  The canonical codes TIMEOUT and DATA_SOURCE_UNAVAILABLE are not
    members of [RETRYABLE_ERROR_CODES] (the set lists the provider's raw
    names [TimeoutException] and [ServiceUnavailableException], while the
    node tests the code after mapping).  On a first attempt, with
    [max_retries] = 2, a node whose endpoint reports
    [ServiceUnavailableException], or times out, does not retry: it leaves
    [retry_count] untouched, appends a FAILED entry and records a
    non-retryable structured error. *)
Theorem transient_codes_are_not_retried
    (json_dumps json_dumps_sorted : JSONValue -> string)
    (json_loads : string -> JSONValue + string)
    (sha256_hexdigest : string -> string) (py_str : JSONValue -> string) :
  is_retryable_error "DATA_SOURCE_UNAVAILABLE" = false
  /\ is_retryable_error "TIMEOUT" = false
  /\ (exists s,
        agent_node json_dumps json_dumps_sorted json_loads sha256_hexdigest
          py_str cfg_signal remote_unavailable clock0 state0 = NodeReturns s
        /\ retry_count s = retry_count state0
        /\ map te_status (execution_trace s) = ["STARTED"; "FAILED"]
        /\ map error_code (errors s) = ["DATA_SOURCE_UNAVAILABLE"]
        /\ map retryable (errors s) = [false]
        /\ map (fun h => status (snd h)) (hypotheses s) = ["FAILURE"])
  /\ (exists s,
        agent_node json_dumps json_dumps_sorted json_loads sha256_hexdigest
          py_str cfg_signal remote_timeout clock0 state0 = NodeReturns s
        /\ retry_count s = retry_count state0
        /\ map te_status (execution_trace s) = ["STARTED"; "FAILED"]
        /\ map error_code (errors s) = ["TIMEOUT"]
        /\ map retryable (errors s) = [false]
        /\ map (fun h => status (snd h)) (hypotheses s) = ["FAILURE"]).
Proof.
  split; [reflexivity|]. split; [reflexivity|].
  split; eexists; (split; [reflexivity|]); repeat split.
Qed.

(** The retry path itself works: a throttled endpoint (BEDROCK_THROTTLING)
    is retried on the first attempt. *)
Lemma throttling_is_retried
    (json_dumps json_dumps_sorted : JSONValue -> string)
    (json_loads : string -> JSONValue + string)
    (sha256_hexdigest : string -> string) (py_str : JSONValue -> string) :
  exists s,
    agent_node json_dumps json_dumps_sorted json_loads sha256_hexdigest
      py_str cfg_signal remote_throttled clock0 state0 = NodeReturns s
    /\ retry_count s = [("signal-intelligence", 1%Z)]
    /\ map te_status (execution_trace s) = ["STARTED"; "RETRYING"]
    /\ hypotheses s = [] /\ errors s = [].
Proof. eexists. split; [reflexivity|]. repeat split. Qed.

(** C6.  An input whose [incident_id] is empty fails validation with a
    [ValueError]; the node records it under the code UNKNOWN_ERROR (not
    INVALID_INPUT), not retryable, whatever the endpoint would answer. *)
Theorem empty_incident_id_is_unknown_error
    (json_dumps json_dumps_sorted : JSONValue -> string)
    (json_loads : string -> JSONValue + string)
    (sha256_hexdigest : string -> string) (py_str : JSONValue -> string)
    (remote : Remote) :
  exists s out err,
    agent_node json_dumps json_dumps_sorted json_loads sha256_hexdigest
      py_str cfg_signal remote clock0 state_no_incident = NodeReturns s
    /\ hypotheses s = [("signal-intelligence", out)]
    /\ findings out = [("error", JStr "UNKNOWN_ERROR")]
    /\ errors s = [err]
    /\ error_code err = "UNKNOWN_ERROR"
    /\ message err = "incident_id is required"
    /\ retryable err = false.
Proof. eexists _, _, _. split; [reflexivity|]. repeat split. Qed.

End AgentNodeRuns.

(** ** Floating-point comparisons *)


Lemma ltb_irrefl (x : float) : PrimFloat.ltb x x = false.
Proof.
  rewrite ltb_spec. unfold SFltb, SFcompare.
  destruct (Prim2SF x) as [s|s| |s m e]; try reflexivity.
  - destruct s; reflexivity.
  - destruct s; rewrite Z.compare_refl, Pos.compare_cont_refl; reflexivity.
Qed.

(** ** The cost guardian *)

Section CostGuardianFacts.
Import State CostGuardian.
Local Open Scope string_scope.

(** What the node computes, when the projection does not fail. *)
Lemma cost_guardian_node_result now_result now_trace dur state incidents :
  let total := calculate_total_cost
                 (aggregate_per_agent_costs (hypotheses state)) in
  let before := budget_remaining state in
  estimate_incidents_remaining (before - total)%float total = Some incidents ->
  cost_guardian_node now_result now_trace dur state
  = Some (add_execution_trace
            (set_budget_remaining (before - total)%float
               (set_cost_guardian
                  (mkCostGuardianResult total (before - total)%float
                     (check_budget_exceeded total before)
                     (aggregate_per_agent_costs (hypotheses state))
                     (project_monthly_burn total INCIDENTS_PER_DAY)
                     incidents now_result)
                  state))
            "cost-guardian" dur "COMPLETED"
            [ ("total_cost", JFloat total);
              ("budget_remaining", JFloat (before - total)%float);
              ("budget_exceeded",
               JBool (check_budget_exceeded total before)) ]
            now_trace).
Proof.
  intros total before H. unfold cost_guardian_node, calculate_budget_remaining.
  fold total before. rewrite H. reflexivity.
Qed.


(** The node returns unless the incidents-remaining quotient is not a
    finite number. *)
Lemma cost_guardian_node_returns now_result now_trace dur state :
  let total := calculate_total_cost
                 (aggregate_per_agent_costs (hypotheses state)) in
  let before := budget_remaining state in
  int_of_float ((before - total) / total)%float <> None ->
  exists new_state,
    cost_guardian_node now_result now_trace dur state = Some new_state.
Proof.
  intros total before H.
  destruct (estimate_incidents_remaining (before - total)%float total)
    as [n|] eqn:E.
  - rewrite (cost_guardian_node_result _ _ _ _ _ E). eauto.
  - exfalso. unfold estimate_incidents_remaining in E.
    destruct (PrimFloat.leb total 0); [discriminate|].
    destruct (PrimFloat.leb (before - total) 0); [discriminate|].
    contradiction.
Qed.


End CostGuardianFacts.

Section CostGuardianRuns.
Import State CostGuardian Examples.
Local Open Scope string_scope.

(** Scenario S1 of the specification: a total of 0.00675 USD out of 5. *)
Example cost_guardian_s1 :
  option_map (fun s => (budget_remaining s,
                        option_map total_cost (cost_guardian s),
                        option_map budget_exceeded (cost_guardian s)))
    (cost_guardian_node "t1" "t2" 3 state_s1)
  = Some (4.99325%float, Some 0.00675%float, Some false).
Proof. vm_compute. reflexivity. Qed.

(** Scenario S5: the same run on a budget of 0.001 USD exceeds it, the
    budget goes negative and no further incident fits. *)
Example cost_guardian_s5 :
  option_map (fun s => (PrimFloat.eqb (budget_remaining s)
                          (0.001 - 0.00675)%float,
                        option_map budget_exceeded (cost_guardian s),
                        option_map incidentsRemaining (cost_guardian s)))
    (cost_guardian_node "t1" "t2" 3 (set_budget_remaining 0.001 state_s1))
  = Some (true, Some true, Some 0%Z).
Proof. vm_compute. reflexivity. Qed.



End CostGuardianRuns.

(** ** The consensus node *)

Section ConsensusFacts.
Import State ConsensusNode.
Local Open Scope string_scope.

(** The state the node returns, when it returns. *)
Lemma consensus_node_result now_result now_trace dur state new_state :
  consensus_node now_result now_trace dur state = Some new_state ->
  exists conflicts unified minority,
    synthesize_unified_recommendation (hypotheses state) conflicts
    = Some unified
    /\ new_state
       = add_execution_trace
           (set_consensus
              (mkConsensusResult
                 (aggregate_confidence (hypotheses state) AGENT_WEIGHTS)
                 (compute_agreement_level (hypotheses state))
                 conflicts unified minority
                 (compute_quality_metrics (hypotheses state)) now_result)
              state)
           "consensus" dur "COMPLETED"
           [ ("aggregated_confidence",
              JFloat (aggregate_confidence (hypotheses state) AGENT_WEIGHTS));
             ("agreement_level",
              JFloat (compute_agreement_level (hypotheses state)));
             ("conflicts_count", JInt (Z.of_nat (List.length conflicts))) ]
           now_trace.
Proof.
  unfold consensus_node. intros H.
  destruct (detect_conflicts _ _) as [conflicts|]; [|discriminate].
  destruct (synthesize_unified_recommendation _ _) as [unified|] eqn:Eu;
    [|discriminate].
  destruct (extract_minority_opinions _ _) as [minority|]; [|discriminate].
  inversion H. exists conflicts, unified, minority. split; [exact Eu|reflexivity].
Qed.

(** The two accumulators of the loop are the two sums of the formula. *)
Lemma weighted_totals_sums hyps agent_weights :
  weighted_totals hyps agent_weights
  = (Py.fsum (map (fun h => (confidence (snd h)
                             * weight_of agent_weights (fst h))%float) hyps),
     Py.fsum (map (fun h => weight_of agent_weights (fst h)) hyps)).
Proof.
  unfold weighted_totals, Py.fsum.
  generalize 0%float at 1 3 as a. generalize 0%float as b.
  induction hyps as [|h hyps IH]; intros b a; simpl; [reflexivity|].
  rewrite IH. reflexivity.
Qed.

(** [aggregate_confidence] refines the formula of the specification. *)
Lemma aggregate_confidence_spec hyps agent_weights :
  aggregate_confidence hyps agent_weights
  = weighted_average_spec hyps agent_weights.
Proof.
  unfold aggregate_confidence, weighted_average_spec.
  destruct hyps as [|h hyps]; [reflexivity|].
  rewrite weighted_totals_sums. reflexivity.
Qed.

(** C9 (amended).  For every state from which the consensus node returns,
    the [aggregated_confidence] it stores is the weighted average
    [sum of c(a) * w(a) / sum of w(a)] itself (0.0 for a zero denominator), as
    binary64 arithmetic yields it: the node applies no rounding to it. *)
Theorem aggregated_confidence_is_unrounded_average
    now_result now_trace dur state new_state :
  consensus_node now_result now_trace dur state = Some new_state ->
  exists cr,
    consensus new_state = Some cr
    /\ aggregated_confidence cr
       = weighted_average_spec (hypotheses state) AGENT_WEIGHTS.
Proof.
  intros H.
  destruct (consensus_node_result _ _ _ _ _ H)
    as (conflicts & unified & minority & _ & ->).
  eexists. split; [reflexivity|].
  cbn [aggregated_confidence]. apply aggregate_confidence_spec.
Qed.

End ConsensusFacts.

Section ConsensusRuns.
Import State ConsensusNode Examples.
Local Open Scope string_scope.

(** Scenario S1 of the specification, evaluated: the unified
    recommendation is the expected one, while the two numbers carry the
    rounding error of binary64 sums. *)
Example consensus_s1 :
  option_map
    (fun s => option_map
                (fun cr => (aggregated_confidence cr, agreement_level cr,
                            conflicts_detected cr,
                            unified_recommendation cr))
                (consensus s))
    (consensus_node "t1" "t2" 3 state_s1)
  = Some (Some (0x1.999999999999bp-1%float, 0x1.ffffffffffffep-1%float, [],
                "PRIMARY: check connection pool (confidence: 0.80, agents: 6/6 agree). CONFLICTS: None detected")).
Proof. vm_compute. reflexivity. Qed.

(** An instance of C9 on scenario S1. *)
Lemma aggregated_confidence_is_unrounded_average_witness :
  exists new_state cr,
    consensus_node "t1" "t2" 3 state_s1 = Some new_state
    /\ consensus new_state = Some cr
    /\ aggregated_confidence cr
       = weighted_average_spec (hypotheses state_s1) AGENT_WEIGHTS.
Proof.
  destruct (consensus_node "t1" "t2" 3 state_s1) as [new_state|] eqn:E;
    [|vm_compute in E; discriminate].
  destruct (aggregated_confidence_is_unrounded_average
              "t1" "t2" 3 state_s1 new_state E) as (cr & Hcr & Hagg).
  exists new_state, cr. auto.
Defined.

(** C9 as stated fails on scenario S1: the stored aggregated confidence is
    0.8000000000000002, which rounding to 4 decimals changes to 0.8. *)
Lemma aggregated_confidence_rounded_counterexample :
  ~ (forall now_result now_trace dur state new_state cr,
       hypotheses state <> [] ->
       consensus_node now_result now_trace dur state = Some new_state ->
       consensus new_state = Some cr ->
       Py.round (aggregated_confidence cr) 4 = aggregated_confidence cr).
Proof.
  intros H.
  destruct (consensus_node "t1" "t2" 3 state_s1) as [new_state|] eqn:E;
    [|vm_compute in E; discriminate].
  destruct (consensus new_state) as [cr|] eqn:Ecr;
    [|vm_compute in E; inversion E; subst; discriminate].
  assert (Hne : hypotheses state_s1 <> []) by discriminate.
  specialize (H "t1" "t2" 3%Z state_s1 new_state cr Hne E Ecr).
  assert (Hagg : aggregated_confidence cr = 0x1.999999999999bp-1%float).
  { vm_compute in E. inversion E; subst. inversion Ecr; subst. reflexivity. }
  rewrite Hagg in H.
  apply (f_equal (fun x => PrimFloat.eqb x 0x1.999999999999bp-1%float)) in H.
  vm_compute in H. discriminate.
Qed.

End ConsensusRuns.

(** ** What the nodes leave alone, and the deterministic hash *)

Section Frames.
Import State AgentNode.
Local Open Scope string_scope.

Variable json_dumps : JSONValue -> string.
Variable json_dumps_sorted : JSONValue -> string.
Variable json_loads : string -> JSONValue + string.
Variable sha256_hexdigest : string -> string.
Variable py_str : JSONValue -> string.

Local Abbreviation agent_node' :=
  (agent_node json_dumps json_dumps_sorted json_loads sha256_hexdigest py_str).
Local Abbreviation build_output' :=
  (build_output json_dumps_sorted sha256_hexdigest).
Local Abbreviation hash' :=
  (compute_deterministic_hash json_dumps_sorted sha256_hexdigest).

Lemma on_success_frame cfg clock state out :
  let new_state := on_success cfg clock state out in
  budget_remaining new_state = budget_remaining state
  /\ agent_input new_state = agent_input state
  /\ hypotheses new_state
     = Py.dict_set (cfg_agent_id cfg) out (hypotheses state).
Proof. repeat split. Qed.

Lemma on_exception_frame cfg clock state attempt e resp :
  let new_state := on_exception cfg clock state attempt e resp in
  budget_remaining new_state = budget_remaining state
  /\ agent_input new_state = agent_input state
  /\ (hypotheses new_state = hypotheses state
      \/ exists out,
          hypotheses new_state
          = Py.dict_set (cfg_agent_id cfg) out (hypotheses state)).
Proof.
  unfold on_exception.
  destruct (is_retryable_error (map_exception_to_error_code e)
            && (attempt <? max_retries cfg)%Z)%bool.
  - repeat split. left. reflexivity.
  - repeat split. right. eexists. reflexivity.
Qed.

(** Every returning path of an agent node leaves the budget and the input
    envelope alone, and either leaves [hypotheses] alone or sets the slot
    of its own agent. *)
Lemma agent_node_frame cfg remote clock state new_state :
  agent_node' cfg remote clock state = NodeReturns new_state ->
  budget_remaining new_state = budget_remaining state
  /\ agent_input new_state = agent_input state
  /\ (hypotheses new_state = hypotheses state
      \/ exists out,
          hypotheses new_state
          = Py.dict_set (cfg_agent_id cfg) out (hypotheses state)).
Proof.
  unfold agent_node.
  destruct (String.eqb (bedrock_agent_id cfg) ""
            || String.eqb (bedrock_agent_alias_id cfg) "")%bool;
    [discriminate|].
  destruct (try_block _ _ _ _ _ cfg remote clock _) as [out r|e r|];
    intros H; inversion H; subst; clear H.
  - repeat split. right. eexists. reflexivity.
  - exact (on_exception_frame cfg clock
             (add_execution_trace state (cfg_agent_id cfg) 0 "STARTED"
                (Some [("retry_attempt", JInt (attempt_of cfg state))])
                (now_started clock))
             (attempt_of cfg state) e r).
Qed.



(** The success path stores an output built by step 6 from a validated
    answer. *)
Lemma try_block_output cfg remote clock state out resp :
  try_block json_dumps json_dumps_sorted json_loads sha256_hexdigest py_str
    cfg remote clock state = TryOutput out resp ->
  exists raw_output,
    parse_response json_loads cfg resp = inl (JDict raw_output)
    /\ validate_agent_output py_str raw_output = None
    /\ build_output' cfg clock (agent_input state) raw_output
         (extract_cost_metadata (Some resp)) = Some out.
Proof.
  unfold try_block. intros H.
  destruct (validate_agent_input _); [discriminate|].
  destruct (remote _) as [e|r]; [discriminate|].
  destruct (match guardrailAction r with
            | Some a => String.eqb a "BLOCKED" | None => false end);
    [discriminate|].
  destruct (parse_response _ _ _) as [[| | | | | |raw]|e] eqn:Ep;
    try discriminate.
  destruct (validate_agent_output _ _) eqn:Ev; [discriminate|].
  destruct (build_output _ _ _ _ _ _ _) eqn:Eb; [|discriminate].
  inversion H; subst. exists raw. auto.
Qed.

End Frames.

Section FrameRuns.
Import State AgentNode Examples.
Local Open Scope string_scope.



End FrameRuns.

(** ** Agreement level *)

Section AgreementFacts.
Import State ConsensusNode Examples.

(** A float that compares equal to zero is one of the two zeros. *)
Lemma eqb_zero (x : float) :
  PrimFloat.eqb x 0 = true -> x = 0%float \/ x = (-0)%float.
Proof.
  rewrite FloatAxioms.eqb_spec. unfold SFeqb.
  change (Prim2SF 0) with (S754_zero false). intros H.
  rewrite <- (SF2Prim_Prim2SF x).
  destruct (Prim2SF x) as [s|s| |s m e]; simpl in H.
  - destruct s; [right|left]; reflexivity.
  - destruct s; discriminate.
  - discriminate.
  - destruct s; discriminate.
Qed.

(** Fewer than two outputs: perfect agreement. *)
Lemma agreement_level_single hyps :
  (List.length hyps < 2)%nat -> compute_agreement_level hyps = 1%float.
Proof.
  intros H. unfold compute_agreement_level, confidences_of, Py.dict_values.
  rewrite !length_map.
  destruct (Nat.ltb_spec (List.length hyps) 2); [reflexivity|lia].
Qed.

(** Two outputs or more: the clamped formula, whatever the deviation. *)
Lemma agreement_level_formula hyps :
  (2 <= List.length hyps)%nat ->
  compute_agreement_level hyps
  = Py.max2 0 (Py.min2 1 (1 - std_dev_of (confidences_of hyps) / 0.5)%float).
Proof.
  intros H. unfold compute_agreement_level, compute_max_possible_std_dev.
  assert (L : List.length (confidences_of hyps) = List.length hyps)
    by (unfold confidences_of, Py.dict_values; now rewrite !length_map).
  rewrite L.
  destruct (Nat.ltb_spec (List.length hyps) 2); [lia|].
  destruct (PrimFloat.eqb (std_dev_of (confidences_of hyps)) 0) eqn:E;
    [|reflexivity].
  destruct (eqb_zero _ E) as [-> | ->]; reflexivity.
Qed.


(** One output at 0.0 and one at 1.0: no agreement. *)
Lemma agreement_level_extremes :
  compute_agreement_level extremes = 0%float.
Proof. vm_compute. reflexivity. Qed.

(** C4.  With all confidences equal the agreement level is not always 1.0:
    the mean of equal binary64 values need not be that value, so the
    deviation is not exactly zero.  For the six agents of scenario S1, all
    at confidence 0.8, and for three agents all at 0.7, the function
    returns 0.9999999999999998, which is below 1.0. *)
Theorem equal_confidences_agreement_below_one :
  confidences_of s1_hypotheses = repeat 0.8%float 6
  /\ compute_agreement_level s1_hypotheses = 0x1.ffffffffffffep-1%float
  /\ confidences_of three_at_07 = repeat 0.7%float 3
  /\ compute_agreement_level three_at_07 = 0x1.ffffffffffffep-1%float
  /\ PrimFloat.ltb 0x1.ffffffffffffep-1 1 = true.
Proof. repeat split; vm_compute; reflexivity. Qed.

End AgreementFacts.

(** ** PII redaction *)

Section RedactionFacts.
Import Redaction.
Local Open Scope char_scope.














End RedactionFacts.

Section RedactionRuns.
Import Redaction.
Local Open Scope string_scope.

(** The docstring's example. *)
Example redact_pii_email :
  redact_pii "Email me at user@example.com"
  = ("Email me at [EMAIL_REDACTED]", true).
Proof. vm_compute. reflexivity. Qed.



End RedactionRuns.

(** ** The unified recommendation *)

Section Strings.
Local Open Scope string_scope.

Lemma length_append (a b : string) :
  String.length (a ++ b) = (String.length a + String.length b)%nat.
Proof. induction a as [|c a IH]; simpl; [reflexivity|now rewrite IH]. Qed.

Lemma length_str_take (n : nat) (s : string) :
  (String.length (Py.str_take n s) <= n)%nat.
Proof.
  revert s. induction n as [|n IH]; intros s; [simpl; lia|].
  destruct s as [|c s]; simpl; [lia|]. specialize (IH s). lia.
Qed.


End Strings.

Section Sorting.
Import ConsensusNode.
Context {A : Type} (key : A -> float).







End Sorting.

Section Collecting.
Import State ConsensusNode.
Local Open Scope string_scope.











End Collecting.

Section RecommendationRuns.
Import State ConsensusNode Examples.
Local Open Scope string_scope.

(** Two recommendation types and a failed agent: the type with the higher
    maximum confidence comes first, agreement is counted over the two
    agents that did not fail, and the divergence of 0.4 is a conflict. *)
Example unified_recommendation_mixed :
  option_map (fun conflicts =>
                (List.length conflicts,
                 synthesize_unified_recommendation mixed_hypotheses conflicts))
    (detect_conflicts mixed_hypotheses CONFIDENCE_DIVERGENCE_THRESHOLD)
  = Some (1%nat,
          Some "PRIMARY: roll back deploy 42 (confidence: 0.90, agents: 1/2 agree). ALTERNATIVE: check connection pool (confidence: 0.50, agents: 1/2 agree). CONFLICTS: 1 detected").
Proof. vm_compute. reflexivity. Qed.


End RecommendationRuns.

(* ################################################################# *)
(** * Further properties of the agent node *)

Section ErrorCodes.
Import State AgentNode Vocabulary.
Local Open Scope string_scope.

Ltac by_name name :=
  unfold mapping_get, ERROR_CODE_MAPPING; cbn [Py.dict_get];
  repeat match goal with
         | |- context [String.eqb name ?k] =>
             destruct (String.eqb_spec name k) as [->|]
         end.

Lemma map_exception_by_name e :
  map_exception_to_error_code e = mapping_get (exception_name e).
Proof. destruct e as [[c|] msg|name msg]; reflexivity. Qed.

(** The error code recorded for an exception is always one of the nine
    canonical codes, never a provider's raw error name. *)
Lemma error_code_is_canonical e :
  In (map_exception_to_error_code e) CANONICAL_CODES.
Proof.
  rewrite map_exception_by_name. generalize (exception_name e) as name.
  intros name. by_name name; cbn; tauto.
Qed.

(** X1.  The code recorded for an exception is one of the nine canonical
    codes, and the exception is classified retryable exactly when it is
    named [ThrottlingException] or [TooManyRequestsException]: of the
    seven entries of [RETRYABLE_ERROR_CODES] only the two canonical codes
    BEDROCK_THROTTLING and RATE_LIMIT_EXCEEDED can ever be met. *)
Theorem retryable_exactly_when_throttled e :
  In (map_exception_to_error_code e) CANONICAL_CODES
  /\ (is_retryable_error (map_exception_to_error_code e) = true
      <-> exception_name e = "ThrottlingException"
          \/ exception_name e = "TooManyRequestsException").
Proof.
  split; [apply error_code_is_canonical|].
  rewrite map_exception_by_name. generalize (exception_name e) as name.
  intros name. split.
  - by_name name; cbn; intros H; try discriminate; auto.
  - intros [-> | ->]; reflexivity.
Qed.

End ErrorCodes.

Section AgentNodeOutcomes.
Import State AgentNode Vocabulary.
Local Open Scope string_scope.

Variable json_dumps : JSONValue -> string.
Variable json_dumps_sorted : JSONValue -> string.
Variable json_loads : string -> JSONValue + string.
Variable sha256_hexdigest : string -> string.
Variable py_str : JSONValue -> string.

Local Abbreviation try_block' :=
  (try_block json_dumps json_dumps_sorted json_loads sha256_hexdigest py_str).
Local Abbreviation agent_node' :=
  (agent_node json_dumps json_dumps_sorted json_loads sha256_hexdigest py_str).

(** The state the [try] block and the handlers start from. *)
Local Abbreviation started cfg clock state :=
  (add_execution_trace state (cfg_agent_id cfg) 0 "STARTED"
     (Some [("retry_attempt", JInt (attempt_of cfg state))])
     (now_started clock)).

(** A returning call took the success path or the handler. *)
Lemma agent_node_returns_cases cfg remote clock state new_state :
  agent_node' cfg remote clock state = NodeReturns new_state ->
  configured cfg
  /\ ((exists out resp,
          try_block' cfg remote clock state = TryOutput out resp
          /\ new_state = on_success cfg clock (started cfg clock state) out)
      \/ (exists e resp,
             try_block' cfg remote clock state = TryRaised e resp
             /\ new_state
                = on_exception cfg clock (started cfg clock state)
                    (attempt_of cfg state) e resp)).
Proof.
  unfold agent_node.
  destruct (String.eqb (bedrock_agent_id cfg) "") eqn:E1;
    [discriminate|].
  destruct (String.eqb (bedrock_agent_alias_id cfg) "") eqn:E2;
    [discriminate|].
  cbn [orb]. rewrite try_block_ignores_trace.
  apply String.eqb_neq in E1. apply String.eqb_neq in E2.
  destruct (try_block _ _ _ _ _ cfg remote clock state) as [out r|e r|] eqn:Et;
    intros H; inversion H; subst; clear H; (split; [split; assumption|]).
  - left. eauto.
  - right. eauto.
Qed.


(** X3.  Every returning call appends exactly two trace entries, STARTED
    and one closing entry of its own node, and takes one of three shapes.
    COMPLETED: the agent's slot is set, errors and retry counters are
    unchanged.  RETRYING (only below [max_retries]): the agent's counter
    becomes the attempt plus one, hypotheses and errors are unchanged.
    FAILED: the slot holds a FAILURE output of confidence 0.0, one error
    of this agent is appended, the retry counters are unchanged. *)
Theorem agent_node_three_outcomes cfg remote clock state new_state :
  agent_node' cfg remote clock state = NodeReturns new_state ->
  exists final,
    execution_trace new_state
    = (execution_trace state ++ [started_entry cfg clock state; final])%list
    /\ node_id final = cfg_agent_id cfg
    /\ ((te_status final = "COMPLETED"
         /\ (exists out,
                hypotheses new_state
                = Py.dict_set (cfg_agent_id cfg) out (hypotheses state))
         /\ errors new_state = errors state
         /\ retry_count new_state = retry_count state)
        \/ (te_status final = "RETRYING"
            /\ (attempt_of cfg state < max_retries cfg)%Z
            /\ retry_count new_state
               = Py.dict_set (cfg_agent_id cfg) (attempt_of cfg state + 1)%Z
                   (retry_count state)
            /\ hypotheses new_state = hypotheses state
            /\ errors new_state = errors state)
        \/ (te_status final = "FAILED"
            /\ (exists out,
                   hypotheses new_state
                   = Py.dict_set (cfg_agent_id cfg) out (hypotheses state)
                   /\ status out = "FAILURE"
                   /\ confidence out = 0%float)
            /\ (exists err,
                   errors new_state = (errors state ++ [err])%list
                   /\ se_agent_id err = cfg_agent_id cfg
                   /\ retry_attempt err = attempt_of cfg state)
            /\ retry_count new_state = retry_count state)).
Proof.
  intros H.
  destruct (agent_node_returns_cases _ _ _ _ _ H)
    as (_ & [(out & r & _ & ->)|(e & r & _ & ->)]).
  - eexists. split; [|split; [|left]].
    + cbn. rewrite <- app_assoc. reflexivity.
    + reflexivity.
    + split; [reflexivity|]. split; [eexists; reflexivity|].
      split; reflexivity.
  - unfold on_exception.
    destruct (is_retryable_error (map_exception_to_error_code e)) eqn:Er;
      cbn [andb].
    + destruct (attempt_of cfg state <? max_retries cfg)%Z eqn:Ea.
      * eexists. split; [|split; [|right; left]].
        -- cbn. rewrite <- app_assoc. reflexivity.
        -- reflexivity.
        -- split; [reflexivity|]. split; [now apply Z.ltb_lt|].
           repeat split.
      * eexists. split; [|split; [|right; right]].
        -- cbn. rewrite <- app_assoc. reflexivity.
        -- reflexivity.
        -- split; [reflexivity|].
           split; [eexists; repeat split|].
           split; [eexists; repeat split|reflexivity].
    + eexists. split; [|split; [|right; right]].
      * cbn. rewrite <- app_assoc. reflexivity.
      * reflexivity.
      * split; [reflexivity|].
        split; [eexists; repeat split|].
        split; [eexists; repeat split|reflexivity].
Qed.

(** X4.  The retry counter of an agent never passes [max_retries]: when
    it is within the bound before a call it is within the bound after,
    it never decreases, and the counters of the other agents are left
    alone. *)
Theorem retry_count_stays_bounded cfg remote clock state new_state :
  (attempt_of cfg state <= max_retries cfg)%Z ->
  agent_node' cfg remote clock state = NodeReturns new_state ->
  (attempt_of cfg state <= attempt_of cfg new_state)%Z
  /\ (attempt_of cfg new_state <= max_retries cfg)%Z
  /\ forall k, k <> cfg_agent_id cfg ->
               Py.dict_get k (retry_count new_state)
               = Py.dict_get k (retry_count state).
Proof.
  intros Hb H.
  destruct (agent_node_returns_cases _ _ _ _ _ H)
    as (_ & [(out & r & _ & ->)|(e & r & _ & ->)]).
  - split; [apply Z.le_refl|]. split; [exact Hb|]. reflexivity.
  - unfold on_exception.
    destruct (is_retryable_error (map_exception_to_error_code e)
              && (attempt_of cfg state <? max_retries cfg)%Z)%bool eqn:E.
    + apply Bool.andb_true_iff in E. destruct E as [_ E].
      apply Z.ltb_lt in E.
      assert (Hn : attempt_of cfg
                     (increment_retry_count
                        (add_execution_trace (started cfg clock state)
                           (cfg_agent_id cfg) (elapsed_ms clock) "RETRYING"
                           (Some [ ("error_code",
                                    JStr (map_exception_to_error_code e));
                                   ("retry_attempt",
                                    JInt (attempt_of cfg state)) ])
                           (now_final clock))
                        (cfg_agent_id cfg))
                   = (attempt_of cfg state + 1)%Z).
      { unfold attempt_of at 1.
        cbn [increment_retry_count retry_count set_retry_count
             add_execution_trace set_execution_trace].
        rewrite dict_get_set_same. reflexivity. }
      rewrite Hn.
      split; [lia|]. split; [lia|].
      intros k Hk.
      cbn [increment_retry_count retry_count set_retry_count
           add_execution_trace set_execution_trace].
      now apply dict_get_set_other.
    + split; [apply Z.le_refl|]. split; [exact Hb|]. reflexivity.
Qed.

End AgentNodeOutcomes.

Section Envelopes.
Import State AgentNode Vocabulary.
Local Open Scope string_scope.

Variable json_dumps : JSONValue -> string.
Variable json_dumps_sorted : JSONValue -> string.
Variable json_loads : string -> JSONValue + string.
Variable sha256_hexdigest : string -> string.
Variable py_str : JSONValue -> string.

Local Abbreviation agent_node' :=
  (agent_node json_dumps json_dumps_sorted json_loads sha256_hexdigest py_str).
Local Abbreviation build_output' :=
  (build_output json_dumps_sorted sha256_hexdigest).

(** A confidence that passed the range check is stored as a float of
    [0.0, 1.0]: an int in range is 0 or 1. *)
Lemma confidence_float_in_range conf :
  confidence_in_range conf = true ->
  PrimFloat.leb 0 (confidence_float conf) = true
  /\ PrimFloat.leb (confidence_float conf) 1 = true.
Proof.
  destruct conf as [|b|z|f|s|l|d]; cbn [confidence_in_range confidence_float];
    try discriminate.
  - intros _. destruct b; split; reflexivity.
  - intros H. apply Bool.andb_true_iff in H. destruct H as [H0 H1].
    apply Z.leb_le in H0. apply Z.leb_le in H1.
    assert (Hz : z = 0%Z \/ z = 1%Z) by lia.
    destruct Hz as [-> | ->]; split; reflexivity.
  - intros H. apply Bool.andb_true_iff in H. exact H.
Qed.

Lemma valid_status_member st :
  existsb (fun s => is_jstr s (JStr st)) valid_statuses = true ->
  In st valid_statuses.
Proof.
  intros H. apply existsb_exists in H. destruct H as (s & Hin & Heq).
  cbn [is_jstr] in Heq. apply String.eqb_eq in Heq. now subst.
Qed.

(** The output step 6 builds from an answer that passed validation. *)
Lemma validated_output_envelope cfg clock ai raw_output c out :
  validate_agent_output py_str raw_output = None ->
  build_output' cfg clock ai raw_output c = Some out ->
  envelope_ok out
  /\ agent_id out = cfg_agent_id cfg
  /\ execution_id out = ai_execution_id ai
  /\ cost out = c.
Proof.
  unfold validate_agent_output, build_output. intros Hv Hb.
  destruct (first_missing _ raw_output); [discriminate|].
  destruct (Py.dict_get "status" raw_output) as [[| | | |st| |]|];
    try discriminate.
  destruct (Py.dict_get "confidence" raw_output) as [conf|]; try discriminate.
  destruct (Py.dict_get "disclaimer" raw_output) as [[| | | |disc| |]|];
    try discriminate.
  destruct (Py.dict_get "findings" raw_output) as [[| | | | | |fnd]|];
    try discriminate.
  cbn [or_default] in Hv.
  destruct (confidence_in_range conf) eqn:Ec; [|discriminate].
  destruct (existsb (fun s => is_jstr s (JStr st)) valid_statuses) eqn:Es;
    [|discriminate].
  cbn [negb] in Hv.
  destruct (Py.str_contains DISCLAIMER disc) eqn:Ed; [|discriminate].
  destruct (truthy (JDict fnd)) eqn:Ef; [|discriminate].
  repeat match type of Hb with
         | match ?x with _ => _ end = _ => destruct x; try discriminate
         end;
    inversion Hb; subst; clear Hb;
    (split; [|repeat split]);
    (destruct (confidence_float_in_range conf Ec) as [H0 H1];
     split; [exact H0|]; split; [exact H1|];
     split; [exact (valid_status_member st Es)|];
     split; [exact Ed|];
     cbn [findings]; intros ->; discriminate).
Qed.

(** X5.  Whatever an agent node writes into its hypothesis slot, on the
    success path or on the failure path, keeps the envelope that output
    validation demands: a confidence within [0.0, 1.0], one of the four
    statuses, a disclaimer containing HYPOTHESIS_ONLY_NOT_AUTHORITATIVE and
    non-empty findings; it carries the node's agent id and the execution
    id of the input. *)
Theorem written_hypothesis_keeps_envelope cfg remote clock state new_state :
  agent_node' cfg remote clock state = NodeReturns new_state ->
  hypotheses new_state = hypotheses state
  \/ exists out,
      hypotheses new_state
      = Py.dict_set (cfg_agent_id cfg) out (hypotheses state)
      /\ envelope_ok out
      /\ agent_id out = cfg_agent_id cfg
      /\ execution_id out = ai_execution_id (agent_input state).
Proof.
  intros H.
  destruct (agent_node_returns_cases _ _ _ _ _ _ _ _ _ _ H)
    as (_ & [(out & r & Ht & ->)|(e & r & _ & ->)]).
  - right. exists out. split; [reflexivity|].
    destruct (try_block_output _ _ _ _ _ _ _ _ _ _ _ Ht)
      as (raw & _ & Hv & Hb).
    destruct (validated_output_envelope _ _ _ _ _ _ Hv Hb)
      as (He & Ha & Hx & _).
    auto.
  - unfold on_exception.
    destruct (is_retryable_error (map_exception_to_error_code e)
              && (attempt_of cfg state <? max_retries cfg)%Z)%bool.
    + left. reflexivity.
    + right. eexists. split; [reflexivity|].
      split; [|split; reflexivity].
      unfold envelope_ok, create_failure_hypothesis.
      cbn [confidence status disclaimer findings].
      split; [reflexivity|]. split; [reflexivity|].
      split; [cbn; tauto|]. split; [reflexivity|discriminate].
Qed.


End Envelopes.

(* ################################################################# *)
(** * Further properties of the cost guardian *)

Section FloatFacts.

Lemma Prim2SF_zero : Prim2SF 0 = S754_zero false.
Proof. reflexivity. Qed.

Lemma Prim2SF_inj (x y : float) : Prim2SF x = Prim2SF y -> x = y.
Proof.
  intros H. rewrite <- (SF2Prim_Prim2SF x), <- (SF2Prim_Prim2SF y).
  now rewrite H.
Qed.

(** [x - 0.0] is [x], for every float, signed zeros and NaN included. *)
Lemma sub_zero_r (x : float) : (x - 0)%float = x.
Proof.
  apply Prim2SF_inj. rewrite sub_spec, Prim2SF_zero.
  unfold SF64sub, SFsub.
  destruct (Prim2SF x) as [[]|[]| |s m e]; reflexivity.
Qed.

(** A float that is not [<= 0.0] is a positive number, plus infinity or
    a NaN. *)
Lemma not_leb_zero (x : float) :
  PrimFloat.leb x 0 = false ->
  match Prim2SF x with
  | S754_finite s _ _ => s = false
  | S754_infinity s => s = false
  | S754_nan => True
  | S754_zero _ => False
  end.
Proof.
  rewrite leb_spec, Prim2SF_zero. unfold SFleb, SFcompare.
  destruct (Prim2SF x) as [s|[]| |[] m e]; try discriminate; auto.
Qed.

(** Rounding keeps the sign it is given. *)
Lemma binary_round_aux_sign sx mx ex lx :
  match binary_round_aux prec emax sx mx ex lx with
  | S754_zero s | S754_infinity s | S754_finite s _ _ => s = sx
  | S754_nan => True
  end.
Proof.
  unfold binary_round_aux.
  destruct (shr_fexp prec emax mx ex lx) as [mrs' e'].
  destruct (shr_fexp prec emax _ e' loc_Exact) as [mrs'' e''].
  destruct (shr_m mrs''); [reflexivity| |exact I].
  destruct (e'' <=? emax - prec)%Z; reflexivity.
Qed.

(** The quotient of two floats that are not [<= 0.0] is not negative. *)
Lemma div_of_positives (x y : float) :
  PrimFloat.leb x 0 = false -> PrimFloat.leb y 0 = false ->
  match Prim2SF (x / y) with
  | S754_zero s | S754_infinity s | S754_finite s _ _ => s = false
  | S754_nan => True
  end.
Proof.
  intros Hx Hy. apply not_leb_zero in Hx. apply not_leb_zero in Hy.
  rewrite div_spec. unfold SF64div, SFdiv.
  destruct (Prim2SF x) as [sx|sx| |sx mx ex]; try contradiction; try exact I;
    destruct (Prim2SF y) as [sy|sy| |sy my ey];
    try contradiction; try exact I; subst; try reflexivity.
  destruct (SFdiv_core_binary prec emax (Z.pos mx) ex (Z.pos my) ey)
    as [[mz ez] lz].
  apply binary_round_aux_sign.
Qed.

(** Summing zeros gives zero. *)
Lemma fsum_zeros (xs : list float) :
  Forall (fun x => x = 0%float) xs -> Py.fsum xs = 0%float.
Proof.
  unfold Py.fsum. induction 1 as [|x xs Hx _ IH]; [reflexivity|].
  subst x. exact IH.
Qed.

End FloatFacts.

Section CostGuardianMore.
Import State AgentNode CostGuardian Vocabulary.
Local Open Scope string_scope.

(** [int] of a float that is not negative is not negative. *)
Lemma int_of_float_nonneg x n :
  match Prim2SF x with
  | S754_zero s | S754_infinity s | S754_finite s _ _ => s = false
  | S754_nan => True
  end ->
  int_of_float x = Some n -> (0 <= n)%Z.
Proof.
  unfold int_of_float.
  destruct (Prim2SF x) as [s|s| |s m e]; try discriminate.
  - intros _ [= <-]. lia.
  - intros -> H.
    assert (Hq : (0 <= (if (0 <=? e)%Z then Z.pos m * 2 ^ e
                        else Z.pos m / 2 ^ (- e)))%Z).
    { destruct (0 <=? e)%Z eqn:E.
      - apply Z.leb_le in E. apply Z.mul_nonneg_nonneg; [lia|].
        apply Z.pow_nonneg. lia.
      - apply Z.div_pos; [lia|]. apply Z.pow_pos_nonneg; [lia|].
        apply Z.leb_gt in E. lia. }
    injection H as <-. exact Hq.
Qed.

Lemma estimate_incidents_remaining_nonneg budget total n :
  estimate_incidents_remaining budget total = Some n -> (0 <= n)%Z.
Proof.
  unfold estimate_incidents_remaining.
  destruct (PrimFloat.leb total 0) eqn:Et; [intros [= <-]; lia|].
  destruct (PrimFloat.leb budget 0) eqn:Eb; [intros [= <-]; lia|].
  apply int_of_float_nonneg. now apply div_of_positives.
Qed.

(** X7.  The number of incidents the cost guardian reports as still
    affordable is never negative: it is the quotient of two positive
    amounts truncated, or 0 when the incident cost or the budget left is
    not positive. *)
Theorem incidents_remaining_never_negative
    now_result now_trace dur state new_state cg :
  cost_guardian_node now_result now_trace dur state = Some new_state ->
  cost_guardian new_state = Some cg ->
  (0 <= incidentsRemaining cg)%Z
  /\ (PrimFloat.leb (total_cost cg) 0 = true
      \/ PrimFloat.leb (cg_budget_remaining cg) 0 = true ->
      incidentsRemaining cg = 0%Z).
Proof.
  unfold cost_guardian_node. intros H Hcg.
  destruct (estimate_incidents_remaining _ _) as [n|] eqn:E; [|discriminate].
  inversion H; subst; clear H. cbn in Hcg. inversion Hcg; subst; clear Hcg.
  cbn [incidentsRemaining total_cost cg_budget_remaining].
  split; [exact (estimate_incidents_remaining_nonneg _ _ _ E)|].
  unfold estimate_incidents_remaining, calculate_budget_remaining in E.
  intros [Hz|Hz].
  - rewrite Hz in E. now inversion E.
  - destruct (PrimFloat.leb (calculate_total_cost _) 0) in E;
      [now inversion E|].
    rewrite Hz in E. now inversion E.
Qed.

(** Keys set one after the other into a map that has none of them are
    appended in order. *)
Lemma fold_dict_set_fresh {A V : Type} (key : A -> string) (f : A -> V)
    (l : list A) (acc : list (string * V)) :
  NoDup (Py.dict_keys acc ++ map key l) ->
  fold_left (fun d x => Py.dict_set (key x) (f x) d) l acc
  = (acc ++ map (fun x => (key x, f x)) l)%list.
Proof.
  revert acc. induction l as [|x l IH]; intros acc Hnd; cbn [fold_left map].
  - now rewrite app_nil_r.
  - assert (Hfresh : Py.dict_get (key x) acc = None).
    { apply NoDup_remove_2 in Hnd.
      assert (Hnin : ~ In (key x) (Py.dict_keys acc)).
      { intros Hin. apply Hnd. apply in_or_app. now left. }
      clear -Hnin. induction acc as [|[k v] acc IHa]; [reflexivity|].
      cbn [Py.dict_get]. destruct (String.eqb_spec (key x) k) as [E|_].
      - exfalso. apply Hnin. left. now rewrite E.
      - apply IHa. intros Hin. apply Hnin. now right. }
    rewrite (dict_set_fresh _ _ _ Hfresh). rewrite IH.
    + rewrite <- app_assoc. reflexivity.
    + unfold Py.dict_keys in *. rewrite map_app, <- app_assoc. exact Hnd.
Qed.

(** X8.  The per-agent cost breakdown lists the agents of the hypotheses
    in their order, each with the four cost fields of its output (0 tokens,
    0.0 USD and model N/A where a field is missing); so an agent has an
    entry exactly when it has a hypothesis. *)
Theorem per_agent_costs_follow_hypotheses hyps :
  distinct_keys hyps ->
  aggregate_per_agent_costs hyps
  = map (fun h => (fst h, agent_cost_of (snd h))) hyps
  /\ forall a,
      Py.dict_get a (aggregate_per_agent_costs hyps)
      = option_map agent_cost_of (Py.dict_get a hyps).
Proof.
  intros Hnd.
  assert (Heq : aggregate_per_agent_costs hyps
                = map (fun h => (fst h, agent_cost_of (snd h))) hyps).
  { unfold aggregate_per_agent_costs.
    exact (fold_dict_set_fresh fst (fun h => agent_cost_of (snd h)) hyps []
             Hnd). }
  split; [exact Heq|].
  intros a. rewrite Heq. clear.
  induction hyps as [|[k o] hyps IH]; [reflexivity|].
  cbn [map Py.dict_get fst snd]. destruct (String.eqb a k); [reflexivity|].
  exact IH.
Qed.

(** Outputs that cost nothing give cost entries of 0.0. *)
Lemma zero_costs_aggregate hyps acc :
  costs_nothing hyps ->
  Forall (fun c => ac_cost (snd c) = 0%float) acc ->
  Forall (fun c => ac_cost (snd c) = 0%float)
    (fold_left
       (fun per_agent_costs (item : string * AgentOutput) =>
          Py.dict_set (fst item) (agent_cost_of (snd item)) per_agent_costs)
       hyps acc).
Proof.
  revert acc. induction hyps as [|h hyps IH]; intros acc Hz Hacc; [exact Hacc|].
  cbn [fold_left]. apply IH.
  - intros h' Hin. apply Hz. now right.
  - assert (Hh : ac_cost (agent_cost_of (snd h)) = 0%float)
      by (apply Hz; now left).
    clear -Hacc Hh. induction Hacc as [|[k c] acc Hc Hrest IHa].
    + constructor; [exact Hh|constructor].
    + cbn [Py.dict_set]. destruct (String.eqb (fst h) k).
      * constructor; [exact Hh|assumption].
      * constructor; [exact Hc|exact IHa].
Qed.

Lemma zero_costs_total hyps :
  costs_nothing hyps ->
  calculate_total_cost (aggregate_per_agent_costs hyps) = 0%float.
Proof.
  intros Hz. unfold calculate_total_cost.
  rewrite fsum_zeros; [reflexivity|].
  pose proof (zero_costs_aggregate hyps [] Hz (Forall_nil _)) as H.
  unfold Py.dict_values. apply Forall_forall. intros c Hin.
  apply in_map_iff in Hin. destruct Hin as (a & <- & Ha).
  apply in_map_iff in Ha. destruct Ha as (p & <- & Hp).
  exact (proj1 (Forall_forall _ _) H p Hp).
Qed.

(** X9.  When no output carries a cost (every estimated cost is 0.0 or
    missing, as for agents that failed before their invocation) the cost
    guardian always returns: the total is 0.0, the budget is left exactly
    as it was, the projected monthly burn is 0.0, no further incidents are
    estimated, and the budget counts as exceeded only if it was already
    negative. *)
Theorem zero_cost_run_leaves_budget now_result now_trace dur state :
  costs_nothing (hypotheses state) ->
  exists new_state cg,
    cost_guardian_node now_result now_trace dur state = Some new_state
    /\ cost_guardian new_state = Some cg
    /\ total_cost cg = 0%float
    /\ budget_remaining new_state = budget_remaining state
    /\ monthlyBurn cg = 0%float
    /\ incidentsRemaining cg = 0%Z
    /\ budget_exceeded cg = PrimFloat.ltb (budget_remaining state) 0.
Proof.
  intros Hz. unfold cost_guardian_node.
  rewrite (zero_costs_total _ Hz).
  unfold calculate_budget_remaining. rewrite sub_zero_r.
  unfold estimate_incidents_remaining.
  change (PrimFloat.leb 0 0) with true. cbn iota.
  eexists _, _. split; [reflexivity|]. split; [reflexivity|].
  cbn [total_cost budget_remaining monthlyBurn incidentsRemaining
       budget_exceeded add_execution_trace set_execution_trace
       set_budget_remaining set_cost_guardian].
  split; [reflexivity|]. split; [reflexivity|].
  split; [reflexivity|]. split; [reflexivity|].
  unfold check_budget_exceeded, Py.gtb.
  destruct (PrimFloat.ltb (budget_remaining state) 0); reflexivity.
Qed.

End CostGuardianMore.

(* ################################################################# *)
(** * Further properties of the consensus node *)

Section ConsensusEdgeCases.
Import State AgentNode ConsensusNode Vocabulary.
Local Open Scope string_scope.




End ConsensusEdgeCases.

Section Conflicts.
Import State AgentNode ConsensusNode Vocabulary.
Local Open Scope string_scope.

Context {P : Type}.
Variable view : JSONValue -> option (option (string * P)).

Lemma group_append_at c k agent (x : P)
    (g : list (string * list (Proposal P))) :
  groups_at c g -> groups_at c (group_append k (agent, c, x) g).
Proof.
  induction 1 as [|[k' xs] g [Hne Hxs] Hg IH]; cbn [group_append].
  - constructor; [|constructor]. cbn [snd].
    split; [discriminate|]. constructor; [reflexivity|constructor].
  - destruct (String.eqb k k').
    + constructor; [|exact Hg]. cbn [snd] in *. split.
      * destruct xs; discriminate.
      * apply Forall_app. split; [exact Hxs|].
        constructor; [reflexivity|constructor].
    + constructor; [split; assumption|exact IH].
Qed.

Lemma collect_items_at c agent items g g' :
  groups_at c g ->
  collect_items view agent c items g = Some g' -> groups_at c g'.
Proof.
  revert g. induction items as [|item items IH]; intros g Hg;
    cbn [collect_items].
  - now intros [= <-].
  - destruct (view item) as [[[t x]|]|]; [| |discriminate].
    + apply IH. now apply group_append_at.
    + now apply IH.
Qed.

Lemma collect_at c hyps g g' :
  same_confidence c hyps -> groups_at c g ->
  collect view hyps g = Some g' -> groups_at c g'.
Proof.
  revert g. induction hyps as [|[agent o] hyps IH]; intros g Hc Hg;
    cbn [collect].
  - now intros [= <-].
  - assert (Hrest : same_confidence c hyps).
    { intros h Hin. apply Hc. now right. }
    destruct (String.eqb_spec (status o) "FAILURE") as [_|Hs].
    + now apply IH.
    + pose proof (Hc (agent, o) (or_introl eq_refl) Hs) as Hco.
      cbn [snd] in Hco. rewrite Hco.
      destruct (collect_items _ _ _ _ _) as [g1|] eqn:E; [|discriminate].
      apply IH; [exact Hrest|]. exact (collect_items_at _ _ _ _ _ Hg E).
Qed.

End Conflicts.

Section NoConflicts.
Import State AgentNode ConsensusNode Vocabulary.
Local Open Scope string_scope.

(** [c - c] is 0.0, or NaN when [c] is not a number. *)
Lemma sub_diag (c : float) :
  Prim2SF (c - c) = S754_zero false \/ Prim2SF (c - c) = S754_nan.
Proof.
  rewrite sub_spec. unfold SF64sub, SFsub.
  destruct (Prim2SF c) as [[]|[]| |s m e]; auto.
  left. rewrite Z.sub_diag. reflexivity.
Qed.

(** Neither exceeds the divergence threshold. *)
Lemma sub_diag_below_threshold (c : float) :
  Py.gtb (c - c) CONFIDENCE_DIVERGENCE_THRESHOLD = false
  /\ Py.gtb (PrimFloat.abs (c - c)) CONFIDENCE_DIVERGENCE_THRESHOLD = false.
Proof.
  unfold Py.gtb. rewrite !ltb_spec, abs_spec.
  destruct (sub_diag c) as [-> | ->]; split; reflexivity.
Qed.

Lemma max2_same (c : float) : Py.max2 c c = c.
Proof. unfold Py.max2, Py.gtb. now rewrite ltb_irrefl. Qed.

Lemma min2_same (c : float) : Py.min2 c c = c.
Proof. unfold Py.min2. now rewrite ltb_irrefl. Qed.

Lemma extrema_at {P : Type} c (ps : list (Proposal P)) :
  ps <> [] -> Forall (fun p => prop_conf p = c) ps ->
  Py.max_list 0 (confs ps) = c /\ Py.min_list 0 (confs ps) = c.
Proof.
  intros Hne Hall. destruct ps as [|p ps]; [contradiction|].
  apply Forall_cons_iff in Hall. destruct Hall as [Hp Hps]. unfold confs.
  cbn [map Py.max_list Py.min_list]. rewrite Hp. clear Hp Hne.
  induction Hps as [|q ps Hq _ IH]; [split; reflexivity|].
  cbn [map fold_left]. rewrite Hq, max2_same, min2_same. exact IH.
Qed.

Lemma within_conflict_at {P : Type} c (g : string * list (Proposal P)) :
  snd g <> [] /\ Forall (fun p => prop_conf p = c) (snd g) ->
  within_conflict CONFIDENCE_DIVERGENCE_THRESHOLD g = [].
Proof.
  intros [Hne Hall]. unfold within_conflict.
  destruct (Nat.ltb _ 2); [reflexivity|].
  destruct (extrema_at c (snd g) Hne Hall) as [-> ->].
  now rewrite (proj1 (sub_diag_below_threshold c)).
Qed.

Lemma cross_conflict_at {P : Type} c (g1 g2 : string * list (Proposal P)) :
  snd g1 <> [] /\ Forall (fun p => prop_conf p = c) (snd g1) ->
  snd g2 <> [] /\ Forall (fun p => prop_conf p = c) (snd g2) ->
  cross_conflict CONFIDENCE_DIVERGENCE_THRESHOLD g1 g2 = [].
Proof.
  intros [Hne1 Hall1] [Hne2 Hall2]. unfold cross_conflict.
  destruct (extrema_at c (snd g1) Hne1 Hall1) as [-> _].
  destruct (extrema_at c (snd g2) Hne2 Hall2) as [-> _].
  now rewrite (proj2 (sub_diag_below_threshold c)).
Qed.

Lemma no_conflicts_at {P : Type} c (groups : list (string * list (Proposal P))) :
  groups_at c groups ->
  cross_conflicts CONFIDENCE_DIVERGENCE_THRESHOLD groups = []
  /\ flat_map (within_conflict CONFIDENCE_DIVERGENCE_THRESHOLD) groups = [].
Proof.
  induction 1 as [|g groups Hg Hgs [IHc IHw]]; [split; reflexivity|].
  cbn [cross_conflicts flat_map]. rewrite IHc, IHw.
  rewrite (within_conflict_at c g Hg). split; [|reflexivity].
  rewrite app_nil_r. clear IHc IHw.
  induction Hgs as [|g2 groups Hg2 _ IH]; [reflexivity|].
  cbn [flat_map]. rewrite (cross_conflict_at c g g2 Hg Hg2). exact IH.
Qed.

(** X11.  Agents that all report the same confidence never conflict,
    whatever they recommend: with one confidence shared by every output
    that is not a FAILURE (a single agent in particular), the list of
    conflicts is empty. *)
Theorem equal_confidences_never_conflict c hyps conflicts :
  same_confidence c hyps ->
  detect_conflicts hyps CONFIDENCE_DIVERGENCE_THRESHOLD = Some conflicts ->
  conflicts = [].
Proof.
  intros Hc. unfold detect_conflicts.
  destruct (collect conflict_view hyps []) as [groups|] eqn:E; [|discriminate].
  intros [= <-].
  pose proof (collect_at conflict_view c hyps [] groups Hc (Forall_nil _) E)
    as Hg.
  destruct (no_conflicts_at c groups Hg) as [-> ->]. reflexivity.
Qed.

End NoConflicts.

Section Minority.
Import State AgentNode ConsensusNode Vocabulary.
Local Open Scope string_scope.

Lemma minority_items_origin agent conf unified items opinions op :
  minority_items agent conf unified items = Some opinions ->
  In op opinions ->
  exists d description,
    In (JDict d) items
    /\ Py.dict_get "description" d = Some (JStr description)
    /\ Py.str_contains (Py.str_take 50 description) unified = false
    /\ op = agent ++ " suggests " ++ Py.str_take 100 description
              ++ " (confidence: " ++ Py.format_2f conf ++ ")".
Proof.
  revert opinions. induction items as [|item items IH]; intros opinions;
    cbn [minority_items].
  - intros [= <-] [].
  - destruct (minority_view item) as [[description|]|] eqn:Ev;
      [| |discriminate];
      (destruct (minority_items agent conf unified items) as [tl|];
       [|discriminate]).
    + assert (Hitem : exists d, item = JDict d
                /\ Py.dict_get "description" d = Some (JStr description)).
      { unfold minority_view in Ev.
        destruct item as [| | | | | |d]; try discriminate.
        destruct (Py.dict_get "description" d) as [[| | | |s| |]|] eqn:Ed;
          try discriminate.
        inversion Ev; subst. eauto. }
      destruct Hitem as (d & -> & Hd).
      destruct (Py.str_contains (Py.str_take 50 description) unified) eqn:Ec;
        cbn [negb]; intros [= <-] Hin.
      * destruct (IH tl eq_refl Hin) as (d' & desc' & Hin' & H').
        exists d', desc'. split; [now right|exact H'].
      * destruct Hin as [<- | Hin].
        -- exists d, description. split; [now left|]. auto.
        -- destruct (IH tl eq_refl Hin) as (d' & desc' & Hin' & H').
           exists d', desc'. split; [now right|exact H'].
    + intros [= <-] Hin.
      destruct (IH tl eq_refl Hin) as (d' & desc' & Hin' & H').
      exists d', desc'. split; [now right|exact H'].
Qed.

(** X12.  Every minority opinion comes from an output that is not a
    FAILURE and whose confidence is above 0.5: it quotes (cut to 100
    characters) the description of one of that agent's recommendations,
    one whose first 50 characters do not occur in the unified
    recommendation, with the agent's id and its confidence to two
    decimals. *)
Theorem minority_opinions_origin hyps unified minority op :
  extract_minority_opinions hyps unified = Some minority ->
  In op minority ->
  exists agent output d description,
    In (agent, output) hyps
    /\ status output <> "FAILURE"
    /\ PrimFloat.leb (confidence output) 0.5 = false
    /\ In (JDict d) (recommendation_items (findings output))
    /\ Py.dict_get "description" d = Some (JStr description)
    /\ Py.str_contains (Py.str_take 50 description) unified = false
    /\ op = agent ++ " suggests " ++ Py.str_take 100 description
              ++ " (confidence: " ++ Py.format_2f (confidence output) ++ ")".
Proof.
  revert minority. induction hyps as [|[agent o] hyps IH]; intros minority;
    cbn [extract_minority_opinions].
  - intros [= <-] [].
  - destruct (extract_minority_opinions hyps unified) as [tl|];
      [|discriminate].
    assert (Htl : In op tl ->
              exists agent' output d description,
                In (agent', output) ((agent, o) :: hyps)
                /\ status output <> "FAILURE"
                /\ PrimFloat.leb (confidence output) 0.5 = false
                /\ In (JDict d) (recommendation_items (findings output))
                /\ Py.dict_get "description" d = Some (JStr description)
                /\ Py.str_contains (Py.str_take 50 description) unified
                   = false
                /\ op = agent' ++ " suggests " ++ Py.str_take 100 description
                          ++ " (confidence: "
                          ++ Py.format_2f (confidence output) ++ ")").
    { intros Hin.
      destruct (IH tl eq_refl Hin) as (a & out & d & desc & Hh & H').
      exists a, out, d, desc. split; [now right|exact H']. }
    destruct (String.eqb_spec (status o) "FAILURE") as [_|Hs]; cbn [orb].
    + intros [= <-]. exact Htl.
    + destruct (PrimFloat.leb (confidence o) 0.5) eqn:El.
      * intros [= <-]. exact Htl.
      * destruct (minority_items agent (confidence o) unified
                    (recommendation_items (findings o))) as [hd|] eqn:Em;
          [|discriminate].
        intros [= <-] Hin. apply in_app_or in Hin.
        destruct Hin as [Hin|Hin]; [|exact (Htl Hin)].
        destruct (minority_items_origin _ _ _ _ _ _ Em Hin)
          as (d & desc & Hd & H').
        exists agent, o, d, desc. split; [now left|]. auto.
Qed.

End Minority.

Section ConsensusReturns.
Import State AgentNode ConsensusNode Vocabulary.
Local Open Scope string_scope.








End ConsensusReturns.

Section AgreementOnFailure.
Import State AgentNode ConsensusNode Vocabulary.

Lemma Prim2SF_nan (x : float) : Prim2SF x = S754_nan -> x = nan.
Proof. intros H. apply Prim2SF_inj. rewrite H. reflexivity. Qed.

(** [0.0 / y] is a zero or, when [y] is a zero or not a number, NaN. *)
Lemma zero_div (y : float) :
  (0 / y = 0 \/ 0 / y = -0 \/ 0 / y = nan)%float.
Proof.
  assert (H : match Prim2SF (0 / y) with
              | S754_zero _ | S754_nan => True
              | _ => False
              end).
  { rewrite div_spec, Prim2SF_zero. unfold SF64div, SFdiv.
    destruct (Prim2SF y); exact I. }
  destruct (Prim2SF (0 / y)) as [[]| | |] eqn:E; try contradiction.
  - right. left. apply Prim2SF_inj. rewrite E. reflexivity.
  - left. apply Prim2SF_inj. rewrite E. reflexivity.
  - right. right. now apply Prim2SF_nan.
Qed.

Lemma nan_div (y : float) : (nan / y)%float = nan.
Proof. apply Prim2SF_nan. rewrite div_spec. reflexivity. Qed.

Lemma fsum_nans_from (xs : list float) (acc : float) :
  Forall (fun x => x = nan) xs -> acc = nan -> fold_left PrimFloat.add xs acc = nan.
Proof.
  intros H. revert acc. induction H as [|x xs Hx _ IH]; intros acc Ha;
    [exact Ha|].
  cbn [fold_left]. apply IH. subst. reflexivity.
Qed.

Lemma fsum_nans (xs : list float) :
  xs <> [] -> Forall (fun x => x = nan) xs -> Py.fsum xs = nan.
Proof.
  intros Hne H. destruct xs as [|x xs]; [contradiction|].
  apply Forall_cons_iff in H. destruct H as [Hx Hxs].
  unfold Py.fsum. cbn [fold_left]. apply fsum_nans_from; [exact Hxs|].
  subst. reflexivity.
Qed.

Lemma Forall_map_const {A B : Type} (f : A -> B) (a : A) (b : B)
    (xs : list A) :
  f a = b -> Forall (fun x => x = a) xs -> Forall (fun y => y = b) (map f xs).
Proof.
  intros Hf. induction 1 as [|x xs Hx _ IH]; [constructor|].
  cbn [map]. constructor; [now subst|exact IH].
Qed.

(** The deviation of confidences that are all 0.0 is a zero or NaN,
    whatever float their number converts to. *)
Lemma std_dev_of_zeros (cs : list float) :
  cs <> [] -> Forall (fun c => c = 0%float) cs ->
  (std_dev_of cs = 0 \/ std_dev_of cs = -0 \/ std_dev_of cs = nan)%float.
Proof.
  intros Hne Hz. unfold std_dev_of.
  generalize (Py.nat2float (List.length cs)) as y. intros y.
  rewrite (fsum_zeros cs Hz).
  destruct (zero_div y) as [E|[E|E]].
  - rewrite E.
    rewrite (fsum_zeros (map (fun c => ((c - 0) * (c - 0))%float) cs)).
    + rewrite E. left. reflexivity.
    + now apply (Forall_map_const _ 0%float).
  - rewrite E.
    rewrite (fsum_zeros (map (fun c => ((c - -0) * (c - -0))%float) cs)).
    + rewrite E. right. left. reflexivity.
    + now apply (Forall_map_const _ 0%float).
  - rewrite E.
    rewrite (fsum_nans (map (fun c => ((c - nan) * (c - nan))%float) cs)).
    + rewrite nan_div. right. right. reflexivity.
    + destruct cs; [contradiction|discriminate].
    + now apply (Forall_map_const _ 0%float).
Qed.

(** X14.  Agreement on failure: when every output has confidence 0.0, as
    the failure hypotheses of the agent nodes have, the agreement level is
    exactly 1.0, for any number of agents. *)
Theorem zero_confidences_agree hyps :
  (forall h, In h hyps -> confidence (snd h) = 0%float) ->
  compute_agreement_level hyps = 1%float.
Proof.
  intros Hz. unfold compute_agreement_level.
  assert (Hcs : Forall (fun c => c = 0%float) (confidences_of hyps)).
  { unfold confidences_of, Py.dict_values. apply Forall_forall.
    intros c Hin. apply in_map_iff in Hin. destruct Hin as (o & <- & Ho).
    apply in_map_iff in Ho. destruct Ho as (h & <- & Hh). now apply Hz. }
  destruct (Nat.ltb_spec (List.length (confidences_of hyps)) 2) as [|Hlen];
    [reflexivity|].
  assert (Hne : confidences_of hyps <> []).
  { destruct (confidences_of hyps); [cbn in Hlen; lia|discriminate]. }
  unfold compute_max_possible_std_dev.
  destruct (Nat.ltb_spec (List.length (confidences_of hyps)) 2); [lia|].
  destruct (std_dev_of_zeros _ Hne Hcs) as [E|[E|E]]; rewrite E;
    reflexivity.
Qed.

End AgreementOnFailure.

(* ################################################################# *)
(** * Properties of the variable sanitizer *)

Section SanitizerFacts.
Import State Redaction Sanitizer Vocabulary.
Local Open Scope string_scope.

Variable json_dumps_default_str : JSONValue -> option string.
Variable py_str : JSONValue -> string.

Local Abbreviation sanitize_value' :=
  (sanitize_value json_dumps_default_str py_str).
Local Abbreviation sanitize_variables' :=
  (sanitize_variables json_dumps_default_str py_str).

(** A sanitized value has at most 2048 characters, plus the 14 of the
    marker when it was cut. *)
Lemma sanitize_value_length value :
  (String.length (sanitize_value' value) <= 2062)%nat.
Proof.
  unfold sanitize_value.
  generalize (fst (redact_pii (stringify json_dumps_default_str py_str value))).
  intros r. unfold MAX_VAR_LENGTH.
  destruct (Nat.ltb_spec 2048 (String.length r)) as [_|Hle].
  - rewrite length_append. pose proof (length_str_take 2048 r) as Ht.
    change (String.length TRUNCATED) with 14%nat. lia.
  - lia.
Qed.

(** X15.  [sanitize_variables] keeps the keys of the variables, in their
    order, and maps each value to its sanitized text (stringified,
    redacted, cut after 2048 characters); no sanitized value is longer
    than 2062 characters, the 2048 kept plus the 14 of the marker
    "...[TRUNCATED]". *)
Theorem sanitize_variables_keeps_keys_and_bounds variables :
  distinct_keys variables ->
  sanitize_variables' variables
  = map (fun item => (fst item, sanitize_value' (snd item))) variables
  /\ Py.dict_keys (sanitize_variables' variables) = Py.dict_keys variables
  /\ forall key value,
      Py.dict_get key (sanitize_variables' variables) = Some value ->
      (String.length value <= 2062)%nat.
Proof.
  intros Hnd.
  assert (Heq : sanitize_variables' variables
                = map (fun item => (fst item, sanitize_value' (snd item)))
                    variables).
  { unfold sanitize_variables. destruct variables as [|item rest] eqn:E;
      [reflexivity|]. rewrite <- E in *.
    exact (fold_dict_set_fresh fst (fun item => sanitize_value' (snd item))
             variables [] Hnd). }
  split; [exact Heq|]. rewrite Heq. split.
  - unfold Py.dict_keys. rewrite map_map. reflexivity.
  - clear. induction variables as [|[k v] variables IH]; intros key value;
      cbn [map Py.dict_get fst snd]; [discriminate|].
    destruct (String.eqb key k).
    + intros [= <-]. apply sanitize_value_length.
    + apply IH.
Qed.

End SanitizerFacts.

(* ################################################################# *)
(** * Properties of the graph's entry and terminal validation *)

Section EntryFacts.
Import State AgentNode Graph Vocabulary.
Local Open Scope string_scope.

Lemma missing_or_falsy_str key d s :
  missing_or_falsy key d = false -> Py.dict_get key d = Some (JStr s) ->
  s <> "".
Proof.
  unfold missing_or_falsy. intros H E. rewrite E in H. cbn [truthy] in H.
  intros ->. discriminate.
Qed.

Lemma missing_or_falsy_dict key d b :
  missing_or_falsy key d = false -> Py.dict_get key d = Some (JDict b) ->
  b <> [].
Proof.
  unfold missing_or_falsy. intros H E. rewrite E in H. cbn [truthy] in H.
  intros ->. discriminate.
Qed.

Lemma str_or_generated_nonempty v generated s :
  generated <> "" -> str_or_generated v generated = Some s -> s <> "".
Proof.
  intros Hg. unfold str_or_generated.
  destruct v as [[| | | |t| |]|];
    try (destruct (truthy _); [discriminate|]);
    intros [= <-]; try exact Hg.
  destruct (String.eqb_spec t ""); assumption.
Qed.

(** X16.  The state [entry_node] creates from an accepted event passes
    the input validation of every agent node (provided the clock's
    ISO timestamp is not empty): incident id, evidence bundle, timestamp,
    execution id and session id are all non-empty.  It starts with no
    hypotheses, no consensus or cost result, no retries and no errors, a
    single ENTRY trace entry, and a budget given as a float is stored as
    it is and is not negative. *)
Theorem entry_node_state_passes_agent_validation
    now_epoch now_iso now_trace external_input state :
  now_iso <> "" ->
  entry_node now_epoch now_iso now_trace external_input = NodeReturns state ->
  validate_agent_input (agent_input state) = None
  /\ Py.dict_get "incident_id" external_input
     = Some (JStr (incident_id (agent_input state)))
  /\ hypotheses state = []
  /\ consensus state = None
  /\ cost_guardian state = None
  /\ retry_count state = []
  /\ errors state = []
  /\ map node_id (execution_trace state) = ["ENTRY"]
  /\ (forall f,
         Py.dict_get "budget_remaining" external_input = Some (JFloat f) ->
         budget_remaining state = f /\ PrimFloat.ltb f 0 = false)
  /\ (Py.dict_get "budget_remaining" external_input = None ->
      budget_remaining state = 0%float).
Proof.
  intros Hiso. unfold entry_node, validate_entry_input.
  destruct (missing_or_falsy "incident_id" external_input) eqn:Ei;
    [discriminate|].
  destruct (is_str (Py.dict_get "incident_id" external_input));
    [|discriminate].
  destruct (missing_or_falsy "evidence_bundle" external_input) eqn:Eb;
    [discriminate|].
  destruct (is_dict (Py.dict_get "evidence_bundle" external_input));
    [|discriminate].
  destruct (budget_ok external_input) eqn:Ebud; [|discriminate].
  destruct (missing_or_falsy "session_id" external_input) eqn:Es;
    [discriminate|].
  destruct (is_str (Py.dict_get "session_id" external_input));
    [|discriminate].
  cbn [negb].
  destruct (Py.dict_get "incident_id" external_input)
    as [[| | | |incident| |]|] eqn:Gi; try discriminate.
  destruct (Py.dict_get "evidence_bundle" external_input)
    as [[| | | | | |bundle]|] eqn:Gb; try discriminate.
  destruct (Py.dict_get "session_id" external_input)
    as [[| | | |session| |]|] eqn:Gs; try discriminate.
  destruct (str_or_generated (Py.dict_get "execution_id" external_input) _)
    as [execution|] eqn:Ge; [|discriminate].
  destruct (str_or_generated (Py.dict_get "timestamp" external_input) _)
    as [ts|] eqn:Gt; [|discriminate].
  destruct (optional_dict (Py.dict_get "context" external_input))
    as [ctx|]; [|discriminate].
  destruct (optional_dict (Py.dict_get "replay_metadata" external_input))
    as [replay|]; [|discriminate].
  intros [= <-].
  pose proof (missing_or_falsy_str _ _ _ Ei Gi) as Hi.
  pose proof (missing_or_falsy_dict _ _ _ Eb Gb) as Hb.
  pose proof (missing_or_falsy_str _ _ _ Es Gs) as Hs.
  assert (He : execution <> "").
  { apply (str_or_generated_nonempty _ _ _) in Ge; [exact Ge|].
    discriminate. }
  pose proof (str_or_generated_nonempty _ _ _ Hiso Gt) as Ht.
  split.
  { unfold validate_agent_input, create_initial_state.
    cbn [agent_input set_execution_trace incident_id evidence_bundle
         ai_timestamp ai_execution_id ai_session_id].
    apply String.eqb_neq in Hi, He, Hs, Ht. rewrite Hi, He, Hs, Ht.
    destruct bundle; [contradiction|reflexivity]. }
  split; [reflexivity|].
  do 6 (split; [reflexivity|]).
  split.
  - intros f Hf. unfold budget_ok in Ebud. rewrite Hf in Ebud |- *.
    cbn. split; [reflexivity|].
    destruct (PrimFloat.ltb f 0); [discriminate|reflexivity].
  - intros Hn. rewrite Hn. reflexivity.
Qed.

End EntryFacts.

Section TerminalFacts.
Import State AgentNode Graph Vocabulary.
Local Open Scope string_scope.

Variable json_dumps : JSONValue -> string.
Variable json_dumps_sorted : JSONValue -> string.
Variable json_loads : string -> JSONValue + string.
Variable sha256_hexdigest : string -> string.
Variable py_str : JSONValue -> string.

Local Abbreviation later_step' :=
  (later_step json_dumps json_dumps_sorted json_loads sha256_hexdigest py_str).
Local Abbreviation later_steps' :=
  (later_steps json_dumps json_dumps_sorted json_loads sha256_hexdigest
     py_str).

(** No node but the agent's own writes the agent's slot. *)
Lemma later_step_keeps_slot a s s' :
  later_step' a s s' ->
  Py.dict_get a (hypotheses s') = Py.dict_get a (hypotheses s).
Proof.
  intros [cfg remote clock s0 s1 Hne Hrun
         |now_result now_trace dur s0 s1 Hrun
         |now_result now_trace dur s0 s1 Hrun].
  - destruct (agent_node_frame _ _ _ _ _ _ _ _ _ _ Hrun)
      as (_ & _ & [-> | [out ->]]); [reflexivity|].
    apply dict_get_set_other. congruence.
  - destruct (consensus_node_result _ _ _ _ _ Hrun)
      as (conflicts & unified & minority & _ & ->). reflexivity.
  - unfold CostGuardian.cost_guardian_node in Hrun.
    destruct (CostGuardian.estimate_incidents_remaining _ _);
      [|discriminate].
    inversion Hrun. reflexivity.
Qed.

Lemma later_steps_keep_slot a s s' :
  later_steps' a s s' ->
  Py.dict_get a (hypotheses s') = Py.dict_get a (hypotheses s).
Proof.
  induction 1 as [s|s s1 s2 Hstep _ IH]; [reflexivity|].
  rewrite IH. now apply later_step_keeps_slot.
Qed.

Lemma first_missing_agent_found (agents : list string)
    (hyps : list (string * AgentOutput)) a :
  In a agents -> Py.dict_get a hyps = None ->
  exists b, In b agents /\ first_missing_agent agents hyps = Some b.
Proof.
  induction agents as [|x agents IH]; intros Hin Hnone; [contradiction|].
  cbn [first_missing_agent]. unfold Py.dict_mem.
  destruct (Py.dict_get x hyps) eqn:Ex.
  - destruct Hin as [-> | Hin]; [congruence|].
    destruct (IH Hin Hnone) as (b & Hb & ->). exists b. split; [now right|].
    reflexivity.
  - exists x. split; [now left|reflexivity].
Qed.

(** X17.  A slot that an agent node leaves empty, as the retry path does,
    stays empty: no node of another agent, nor the consensus node, nor the
    cost guardian fills it.  So when one of the six required agents has no
    hypothesis after its node, terminal validation raises "Missing output
    for agent: ..." however the rest of the run goes. *)
Theorem empty_slot_fails_terminal_validation a s s' :
  In a REQUIRED_AGENTS ->
  Py.dict_get a (hypotheses s) = None ->
  later_steps' a s s' ->
  Py.dict_get a (hypotheses s') = None
  /\ exists b,
      In b REQUIRED_AGENTS
      /\ validate_terminal_state s'
         = Some (ValueError ("Missing output for agent: " ++ b)).
Proof.
  intros Hin Hnone Hsteps.
  assert (Hnone' : Py.dict_get a (hypotheses s') = None).
  { rewrite (later_steps_keep_slot _ _ _ Hsteps). exact Hnone. }
  split; [exact Hnone'|].
  destruct (first_missing_agent_found REQUIRED_AGENTS (hypotheses s') a
              Hin Hnone') as (b & Hb & Hf).
  exists b. split; [exact Hb|].
  unfold validate_terminal_state. rewrite Hf. reflexivity.
Qed.

End TerminalFacts.

Section WholeRun.
Import State AgentNode Graph Vocabulary.
Local Open Scope string_scope.

Variable json_dumps : JSONValue -> string.
Variable json_dumps_sorted : JSONValue -> string.
Variable json_loads : string -> JSONValue + string.
Variable sha256_hexdigest : string -> string.
Variable py_str : JSONValue -> string.

Local Abbreviation graph_agent_node' :=
  (graph_agent_node json_dumps json_dumps_sorted json_loads sha256_hexdigest
     py_str).
Local Abbreviation run_agents' :=
  (run_agents json_dumps json_dumps_sorted json_loads sha256_hexdigest
     py_str).
Local Abbreviation run_nodes' :=
  (run_nodes json_dumps json_dumps_sorted json_loads sha256_hexdigest py_str).

(** One agent node either fills its slot or counts a retry, never both,
    and touches no other agent's slot or counter. *)
Lemma graph_agent_node_effect env a s s' :
  graph_agent_node' env a s = NodeReturns s' ->
  (forall k, k <> a ->
             Py.dict_get k (hypotheses s') = Py.dict_get k (hypotheses s)
             /\ Py.dict_get k (retry_count s') = Py.dict_get k (retry_count s))
  /\ ((Py.dict_get a (hypotheses s') <> None
       /\ retry_count s' = retry_count s)
      \/ (hypotheses s' = hypotheses s
          /\ Py.dict_get a (retry_count s') <> None)).
Proof.
  unfold graph_agent_node. intros H.
  destruct (agent_node_returns_cases _ _ _ _ _ _ _ _ _ _ H)
    as (_ & [(out & r & _ & ->)|(e & r & _ & ->)]).
  - cbn [on_success hypotheses retry_count add_execution_trace
         set_execution_trace set_hypotheses graph_agent_config cfg_agent_id].
    split.
    + intros k Hk. split; [now apply dict_get_set_other|reflexivity].
    + left. split; [|reflexivity]. now rewrite dict_get_set_same.
  - unfold on_exception.
    destruct (is_retryable_error (map_exception_to_error_code e) && _)%bool;
      cbn [hypotheses retry_count add_execution_trace set_execution_trace
           set_hypotheses set_errors increment_retry_count set_retry_count
           graph_agent_config cfg_agent_id].
    + split.
      * intros k Hk. split; [reflexivity|now apply dict_get_set_other].
      * right. split; [reflexivity|]. now rewrite dict_get_set_same.
    + split.
      * intros k Hk. split; [now apply dict_get_set_other|reflexivity].
      * left. split; [|reflexivity]. now rewrite dict_get_set_same.
Qed.

Lemma run_agents_invariant env agents done s s' :
  NoDup agents -> (forall a, In a agents -> ~ In a done) ->
  slots_or_retries done s ->
  run_agents' env agents s = Some s' ->
  slots_or_retries (done ++ agents) s'.
Proof.
  revert done s. induction agents as [|a agents IH]; intros done s Hnd Hnew Hinv;
    cbn [run_agents].
  - intros [= <-]. now rewrite app_nil_r.
  - destruct (graph_agent_node' env a s) as [s1| |] eqn:E; try discriminate.
    intros Hrun.
    replace (done ++ a :: agents)%list with ((done ++ [a]) ++ agents)%list
      by (rewrite <- app_assoc; reflexivity).
    apply NoDup_cons_iff in Hnd. destruct Hnd as [Hna Hnd].
    apply (IH (done ++ [a])%list s1 Hnd); [| |exact Hrun].
    + intros b Hb Hin. apply in_app_or in Hin. destruct Hin as [Hin|[<-|[]]].
      * exact (Hnew b (or_intror Hb) Hin).
      * contradiction.
    + destruct (graph_agent_node_effect env a s s1 E) as [Hother Hself].
      destruct Hinv as [Hdone Hrest].
      destruct (Hrest a (Hnew a (or_introl eq_refl))) as [Hh Hr].
      split.
      * intros b Hb. apply in_app_or in Hb. destruct Hb as [Hb|[<-|[]]].
        -- assert (Hne : b <> a).
           { intros ->. exact (Hnew a (or_introl eq_refl) Hb). }
           destruct (Hother b Hne) as [-> ->]. now apply Hdone.
        -- destruct Hself as [[Hs Hrc]|[Hs Hrc]].
           ++ rewrite Hrc, Hr. split; [contradiction|congruence].
           ++ rewrite Hs. split; [intros _; exact Hrc|intros _; exact Hh].
      * intros b Hb.
        assert (Hne : b <> a).
        { intros ->. apply Hb. apply in_or_app. right. now left. }
        destruct (Hother b Hne) as [-> ->]. apply Hrest.
        intros Hin. apply Hb. apply in_or_app. now left.
Qed.

Lemma first_missing_agent_none agents (hyps : list (string * AgentOutput)) :
  first_missing_agent agents hyps = None
  <-> forall a, In a agents -> Py.dict_get a hyps <> None.
Proof.
  induction agents as [|x agents IH]; cbn [first_missing_agent].
  - split; [intros _ a []|reflexivity].
  - unfold Py.dict_mem. destruct (Py.dict_get x hyps) as [o|] eqn:Ex.
    + rewrite IH. split.
      * intros H a [<-|Ha]; [congruence|now apply H].
      * intros H a Ha. apply H. now right.
    + split; [discriminate|]. intros H. exfalso.
      exact (H x (or_introl eq_refl) Ex).
Qed.

Lemma dict_empty_iff {V : Type} (d : list (string * V)) :
  d = [] <-> forall k, Py.dict_get k d = None.
Proof.
  split; [intros -> k; reflexivity|].
  destruct d as [|[k v] d]; [reflexivity|]. intros H. specialize (H k).
  cbn [Py.dict_get] in H. rewrite String.eqb_refl in H. discriminate.
Qed.

(** X18.  A run of the graph from a state without hypotheses or retry
    counters, in which all eight nodes return, ends with the consensus and
    the cost-guardian results set; and terminal validation accepts the
    final state exactly when no agent took the retry path (the retry
    counters are still empty).  The edges are linear, so an agent whose
    node returned RETRYING is not run again and its slot stays empty. *)
Theorem terminal_validation_passes_iff_no_retry env s0 final :
  hypotheses s0 = [] -> retry_count s0 = [] ->
  run_nodes' env s0 = Some final ->
  consensus final <> None
  /\ cost_guardian final <> None
  /\ (validate_terminal_state final = None <-> retry_count final = []).
Proof.
  intros Hh Hr. unfold run_nodes.
  destruct (run_agents' env GRAPH_AGENTS s0) as [s1|] eqn:E1; [|discriminate].
  destruct (consensus_clock env) as [[c1 c2] c3].
  destruct (ConsensusNode.consensus_node c1 c2 c3 s1) as [s2|] eqn:E2;
    [|discriminate].
  destruct (cost_guardian_clock env) as [[g1 g2] g3].
  intros E3.
  assert (Hinv : slots_or_retries GRAPH_AGENTS s1).
  { apply (run_agents_invariant env GRAPH_AGENTS [] s0 s1); auto.
    - unfold GRAPH_AGENTS.
      repeat (constructor; [cbn; intuition discriminate|]). constructor.
    - split; [intros a []|]. intros a _. rewrite Hh, Hr. split; reflexivity. }
  destruct (consensus_node_result _ _ _ _ _ E2)
    as (conflicts & unified & minority & _ & ->).
  unfold CostGuardian.cost_guardian_node in E3.
  destruct (CostGuardian.estimate_incidents_remaining _ _); [|discriminate].
  inversion E3; subst final; clear E3.
  cbn [consensus cost_guardian hypotheses retry_count
       CostGuardian.add_execution_trace ConsensusNode.add_execution_trace
       set_execution_trace set_budget_remaining set_cost_guardian
       set_consensus].
  split; [discriminate|]. split; [discriminate|].
  unfold validate_terminal_state.
  cbn [consensus cost_guardian hypotheses retry_count
       CostGuardian.add_execution_trace ConsensusNode.add_execution_trace
       set_execution_trace set_budget_remaining set_cost_guardian
       set_consensus].
  destruct Hinv as [Hdone Hrest].
  change REQUIRED_AGENTS with GRAPH_AGENTS.
  rewrite dict_empty_iff.
  destruct (first_missing_agent GRAPH_AGENTS (hypotheses s1)) as [b|] eqn:Ef.
  - split; [discriminate|]. intros Hempty. exfalso.
    assert (Hall : forall a, In a GRAPH_AGENTS ->
                             Py.dict_get a (hypotheses s1) <> None).
    { intros a Ha Hnone. apply (proj1 (Hdone a Ha)) in Hnone.
      apply Hnone. apply Hempty. }
    apply first_missing_agent_none in Hall. congruence.
  - split; [|reflexivity]. intros _ k.
    destruct (in_dec string_dec k GRAPH_AGENTS) as [Hk|Hk].
    + destruct (Py.dict_get k (retry_count s1)) eqn:Er; [|reflexivity].
      exfalso.
      assert (Hnone : Py.dict_get k (hypotheses s1) = None)
        by (apply (Hdone k Hk); congruence).
      exact (proj1 (first_missing_agent_none _ _) Ef k Hk Hnone).
    + exact (proj2 (Hrest k Hk)).
Qed.

End WholeRun.

(* ################################################################# *)
(** * Runs of the further properties *)

Section AgentNodeMoreRuns.
Import State AgentNode Vocabulary Examples Scenarios.
Local Open Scope string_scope.

(** An instance of X3: a throttled first attempt takes the RETRYING
    shape. *)
Lemma agent_node_three_outcomes_witness :
  exists s final,
    agent_node dumps0 dumps0 loads0 sha0 str0 cfg_signal remote_throttled
      clock0 state0 = NodeReturns s
    /\ execution_trace s = [started_entry cfg_signal clock0 state0; final]
    /\ node_id final = "signal-intelligence"
    /\ te_status final = "RETRYING"
    /\ retry_count s = [("signal-intelligence", 1%Z)]
    /\ hypotheses s = [].
Proof.
  destruct (agent_node dumps0 dumps0 loads0 sha0 str0 cfg_signal
              remote_throttled clock0 state0) as [s| |] eqn:E;
    [|vm_compute in E; discriminate|vm_compute in E; discriminate].
  destruct (agent_node_three_outcomes dumps0 dumps0 loads0 sha0 str0
              cfg_signal remote_throttled clock0 state0 s E)
    as (final & Htrace & Hnode & Hshape).
  exists s, final. split; [reflexivity|].
  split; [exact Htrace|]. split; [exact Hnode|].
  assert (Hs : te_status final = "RETRYING").
  { vm_compute in E. inversion E; subst s. cbn in Htrace.
    inversion Htrace; subst final. reflexivity. }
  split; [exact Hs|].
  destruct Hshape as [(Hc & _)|[(_ & _ & Hr & Hh & _)|(Hf & _)]].
  - rewrite Hs in Hc. discriminate.
  - split; [exact Hr|exact Hh].
  - rewrite Hs in Hf. discriminate.
Defined.

(** An instance of X4: the first retry brings the counter from 0 to 1,
    within the limit of 2. *)
Lemma retry_count_stays_bounded_witness :
  (attempt_of cfg_signal state0 <= max_retries cfg_signal)%Z
  /\ exists s,
      agent_node dumps0 dumps0 loads0 sha0 str0 cfg_signal remote_throttled
        clock0 state0 = NodeReturns s
      /\ (attempt_of cfg_signal state0 <= attempt_of cfg_signal s)%Z
      /\ (attempt_of cfg_signal s <= 2)%Z.
Proof.
  assert (Hb : (attempt_of cfg_signal state0 <= max_retries cfg_signal)%Z)
    by (vm_compute; discriminate).
  split; [exact Hb|].
  destruct (agent_node dumps0 dumps0 loads0 sha0 str0 cfg_signal
              remote_throttled clock0 state0) as [s| |] eqn:E;
    [|vm_compute in E; discriminate|vm_compute in E; discriminate].
  destruct (retry_count_stays_bounded dumps0 dumps0 loads0 sha0 str0
              cfg_signal remote_throttled clock0 state0 s Hb E)
    as (Hmono & Hmax & _).
  exists s. split; [reflexivity|]. split; [exact Hmono|exact Hmax].
Defined.

(** An instance of X5 on the success path: the endpoint answers and the
    answer passes validation. *)
Lemma written_hypothesis_keeps_envelope_witness :
  exists s out,
    agent_node dumps0 dumps0 loads_ok sha0 str0 cfg_signal remote_ok clock0
      state0 = NodeReturns s
    /\ hypotheses s = [("signal-intelligence", out)]
    /\ envelope_ok out
    /\ agent_id out = "signal-intelligence"
    /\ execution_id out = "exec-1".
Proof.
  destruct (agent_node dumps0 dumps0 loads_ok sha0 str0 cfg_signal remote_ok
              clock0 state0) as [s| |] eqn:E;
    [|vm_compute in E; discriminate|vm_compute in E; discriminate].
  destruct (written_hypothesis_keeps_envelope dumps0 dumps0 loads_ok sha0
              str0 cfg_signal remote_ok clock0 state0 s E)
    as [Hsame|(out & Hh & Henv & Hid & Hex)].
  - exfalso. vm_compute in E. inversion E; subst s. discriminate Hsame.
  - exists s, out. split; [reflexivity|]. split; [exact Hh|].
    split; [exact Henv|]. split; [exact Hid|exact Hex].
Defined.

End AgentNodeMoreRuns.

Section CostGuardianMoreRuns.
Import State AgentNode CostGuardian Vocabulary Examples Scenarios.
Local Open Scope string_scope.

(** An instance of X7 on scenario S1: 4.99325 USD left at 0.00675 USD per
    incident. *)
Lemma incidents_remaining_never_negative_witness :
  exists s cg,
    cost_guardian_node "t1" "t2" 3 state_s1 = Some s
    /\ cost_guardian s = Some cg
    /\ incidentsRemaining cg = 739%Z
    /\ (0 <= incidentsRemaining cg)%Z.
Proof.
  destruct (cost_guardian_node "t1" "t2" 3 state_s1) as [s|] eqn:E;
    [|vm_compute in E; discriminate].
  destruct (cost_guardian s) as [cg|] eqn:Ecg;
    [|vm_compute in E; inversion E; subst; discriminate].
  destruct (incidents_remaining_never_negative "t1" "t2" 3 state_s1 s cg
              E Ecg) as [Hpos _].
  exists s, cg. split; [reflexivity|]. split; [exact Ecg|].
  split; [|exact Hpos].
  vm_compute in E. inversion E; subst s. inversion Ecg; subst cg.
  reflexivity.
Defined.

Lemma s1_keys_distinct : distinct_keys s1_hypotheses.
Proof.
  unfold distinct_keys, s1_hypotheses. cbn.
  repeat (constructor; [cbn; intuition discriminate|]). constructor.
Defined.

(** An instance of X8 on scenario S1. *)
Lemma per_agent_costs_follow_hypotheses_witness :
  distinct_keys s1_hypotheses
  /\ Py.dict_keys (aggregate_per_agent_costs s1_hypotheses)
     = Py.dict_keys s1_hypotheses
  /\ Py.dict_get "knowledge-rag" (aggregate_per_agent_costs s1_hypotheses)
     = Some (mkAgentCost 100 50 0.001125 "M")
  /\ Py.dict_get "unknown-agent" (aggregate_per_agent_costs s1_hypotheses)
     = None.
Proof.
  split; [exact s1_keys_distinct|].
  destruct (per_agent_costs_follow_hypotheses s1_hypotheses s1_keys_distinct)
    as [Heq Hget].
  split; [rewrite Heq; reflexivity|].
  split; rewrite Hget; reflexivity.
Defined.

Lemma three_failed_cost_nothing : costs_nothing three_failed.
Proof.
  intros h [<-|[<-|[<-|[]]]]; reflexivity.
Defined.

(** An instance of X9: three agents failed before their invocation. *)
Lemma zero_cost_run_leaves_budget_witness :
  costs_nothing (hypotheses state_three_failed)
  /\ exists new_state cg,
      cost_guardian_node "t1" "t2" 3 state_three_failed = Some new_state
      /\ cost_guardian new_state = Some cg
      /\ total_cost cg = 0%float
      /\ budget_remaining new_state = 5%float
      /\ incidentsRemaining cg = 0%Z
      /\ budget_exceeded cg = false.
Proof.
  split; [exact three_failed_cost_nothing|].
  destruct (zero_cost_run_leaves_budget "t1" "t2" 3 state_three_failed
              three_failed_cost_nothing)
    as (s & cg & Hrun & Hcg & Ht & Hb & _ & Hi & He).
  exists s, cg. split; [exact Hrun|]. split; [exact Hcg|].
  split; [exact Ht|]. split; [exact Hb|]. split; [exact Hi|].
  rewrite He. reflexivity.
Defined.

End CostGuardianMoreRuns.

Section ConsensusMoreRuns.
Import State AgentNode ConsensusNode Vocabulary Examples Scenarios.
Local Open Scope string_scope.


Lemma s1_same_confidence : same_confidence 0.8 s1_hypotheses.
Proof.
  intros h [<-|[<-|[<-|[<-|[<-|[<-|[]]]]]]] _; reflexivity.
Defined.

(** An instance of X11 on scenario S1: six agents at 0.8. *)
Lemma equal_confidences_never_conflict_witness :
  same_confidence 0.8 s1_hypotheses
  /\ exists conflicts,
      detect_conflicts s1_hypotheses CONFIDENCE_DIVERGENCE_THRESHOLD
      = Some conflicts
      /\ conflicts = [].
Proof.
  split; [exact s1_same_confidence|].
  destruct (detect_conflicts s1_hypotheses CONFIDENCE_DIVERGENCE_THRESHOLD)
    as [conflicts|] eqn:E; [|vm_compute in E; discriminate].
  exists conflicts. split; [reflexivity|].
  exact (equal_confidences_never_conflict 0.8 s1_hypotheses conflicts
           s1_same_confidence E).
Defined.

(** An instance of X12: of three recommendation types the unified text
    keeps two, and the third comes back as a minority opinion. *)
Lemma minority_opinions_origin_witness :
  exists unified minority,
    synthesize_unified_recommendation three_types [] = Some unified
    /\ extract_minority_opinions three_types unified = Some minority
    /\ minority = ["knowledge-rag suggests add capacity (confidence: 0.70)"]
    /\ exists agent output d description,
        In (agent, output) three_types
        /\ status output <> "FAILURE"
        /\ PrimFloat.leb (confidence output) 0.5 = false
        /\ In (JDict d) (recommendation_items (findings output))
        /\ Py.dict_get "description" d = Some (JStr description)
        /\ Py.str_contains (Py.str_take 50 description) unified = false
        /\ "knowledge-rag suggests add capacity (confidence: 0.70)"
           = agent ++ " suggests " ++ Py.str_take 100 description
               ++ " (confidence: " ++ Py.format_2f (confidence output) ++ ")".
Proof.
  destruct (synthesize_unified_recommendation three_types []) as [unified|]
    eqn:Eu; [|vm_compute in Eu; discriminate].
  destruct (extract_minority_opinions three_types unified) as [minority|]
    eqn:Em;
    [|vm_compute in Eu; inversion Eu; subst unified; vm_compute in Em;
      discriminate].
  assert (Hm : minority
               = ["knowledge-rag suggests add capacity (confidence: 0.70)"]).
  { vm_compute in Eu. inversion Eu; subst unified. vm_compute in Em.
    inversion Em. reflexivity. }
  exists unified, minority. split; [reflexivity|]. split; [exact Em|].
  split; [exact Hm|].
  apply (minority_opinions_origin three_types unified minority _ Em).
  rewrite Hm. now left.
Defined.


Lemma three_failed_confidences :
  forall h, In h three_failed -> confidence (snd h) = 0%float.
Proof.
  intros h [<-|[<-|[<-|[]]]]; reflexivity.
Defined.

(** An instance of X14: three failure hypotheses. *)
Lemma zero_confidences_agree_witness :
  (forall h, In h three_failed -> confidence (snd h) = 0%float)
  /\ compute_agreement_level three_failed = 1%float.
Proof.
  split; [exact three_failed_confidences|].
  exact (zero_confidences_agree three_failed three_failed_confidences).
Defined.

End ConsensusMoreRuns.

Section SanitizerRuns.
Import State Redaction Sanitizer Vocabulary Examples Scenarios.
Local Open Scope string_scope.

Lemma variables0_keys_distinct : distinct_keys variables0.
Proof.
  unfold distinct_keys, variables0. cbn.
  repeat (constructor; [cbn; intuition discriminate|]). constructor.
Defined.

(** An instance of X15: the docstring's example. *)
Lemma sanitize_variables_keeps_keys_and_bounds_witness :
  distinct_keys variables0
  /\ sanitize_variables dumps_default0 str0 variables0
     = [("email", "[EMAIL_REDACTED]"); ("count", "42")]
  /\ Py.dict_keys (sanitize_variables dumps_default0 str0 variables0)
     = ["email"; "count"].
Proof.
  split; [exact variables0_keys_distinct|].
  destruct (sanitize_variables_keeps_keys_and_bounds dumps_default0 str0
              variables0 variables0_keys_distinct) as (Heq & Hkeys & _).
  split; [rewrite Heq; vm_compute; reflexivity|].
  rewrite Hkeys. reflexivity.
Defined.

End SanitizerRuns.

Section GraphRuns.
Import State AgentNode Graph Vocabulary Examples Scenarios.
Local Open Scope string_scope.

(** An instance of X16: an event with the four required fields. *)
Lemma entry_node_state_passes_agent_validation_witness :
  exists state,
    entry_node "1767225600.0" "2026-01-01T00:00:00" "2026-01-01T00:00:00"
      event0 = NodeReturns state
    /\ validate_agent_input (agent_input state) = None
    /\ ai_execution_id (agent_input state) = "exec-INC-T1-1767225600.0"
    /\ hypotheses state = []
    /\ retry_count state = []
    /\ map node_id (execution_trace state) = ["ENTRY"]
    /\ budget_remaining state = 5%float.
Proof.
  destruct (entry_node "1767225600.0" "2026-01-01T00:00:00"
              "2026-01-01T00:00:00" event0) as [state| |] eqn:E;
    [|vm_compute in E; discriminate|vm_compute in E; discriminate].
  assert (Hiso : "2026-01-01T00:00:00" <> "") by discriminate.
  destruct (entry_node_state_passes_agent_validation _ _ _ _ _ Hiso E)
    as (Hv & _ & Hh & _ & _ & Hr & _ & Ht & Hb & _).
  exists state. split; [reflexivity|]. split; [exact Hv|].
  split; [vm_compute in E; inversion E; reflexivity|].
  split; [exact Hh|]. split; [exact Hr|]. split; [exact Ht|].
  exact (proj1 (Hb 5%float eq_refl)).
Defined.

Lemma state_throttled_run :
  agent_node dumps0 dumps0 loads0 sha0 str0 cfg_signal remote_throttled
    clock0 state0 = NodeReturns state_throttled.
Proof. reflexivity. Defined.

Lemma state_throttled_later :
  later_steps dumps0 dumps0 loads0 sha0 str0 "signal-intelligence"
    state_throttled state_throttled_final.
Proof.
  apply (steps_more _ _ _ _ _ _ _ state_throttled_consensus).
  - apply (step_consensus _ _ _ _ _ _ "t1" "t2" 3%Z).
    vm_compute. reflexivity.
  - apply (steps_more _ _ _ _ _ _ _ state_throttled_final).
    + apply (step_cost_guardian _ _ _ _ _ _ "t3" "t4" 2%Z).
      vm_compute. reflexivity.
    + apply steps_done.
Defined.

(** An instance of X17: the first agent is throttled on its first
    attempt; after the consensus node and the cost guardian its slot is
    still empty and terminal validation raises. *)
Lemma empty_slot_fails_terminal_validation_witness :
  In "signal-intelligence" REQUIRED_AGENTS
  /\ agent_node dumps0 dumps0 loads0 sha0 str0 cfg_signal remote_throttled
       clock0 state0 = NodeReturns state_throttled
  /\ Py.dict_get "signal-intelligence" (hypotheses state_throttled) = None
  /\ Py.dict_get "signal-intelligence" (hypotheses state_throttled_final)
     = None
  /\ exists b,
      In b REQUIRED_AGENTS
      /\ validate_terminal_state state_throttled_final
         = Some (ValueError ("Missing output for agent: " ++ b)).
Proof.
  assert (Hin : In "signal-intelligence" REQUIRED_AGENTS) by (now left).
  split; [exact Hin|]. split; [exact state_throttled_run|].
  split; [reflexivity|].
  exact (empty_slot_fails_terminal_validation dumps0 dumps0 loads0 sha0 str0
           "signal-intelligence" state_throttled state_throttled_final
           Hin eq_refl state_throttled_later).
Defined.

(** An instance of X18: with every endpoint denying access all six agents
    fail without a retry and terminal validation passes; with the first
    agent throttled it does not. *)
Lemma terminal_validation_passes_iff_no_retry_witness :
  (exists final,
      run_nodes dumps0 dumps0 loads0 sha0 str0 env_denied state0 = Some final
      /\ retry_count final = []
      /\ validate_terminal_state final = None)
  /\ (exists final,
         run_nodes dumps0 dumps0 loads0 sha0 str0 env_throttled state0
         = Some final
         /\ retry_count final = [("signal-intelligence", 1%Z)]
         /\ validate_terminal_state final <> None).
Proof.
  split.
  - destruct (run_nodes dumps0 dumps0 loads0 sha0 str0 env_denied state0)
      as [final|] eqn:E; [|vm_compute in E; discriminate].
    destruct (terminal_validation_passes_iff_no_retry dumps0 dumps0 loads0
                sha0 str0 env_denied state0 final eq_refl eq_refl E)
      as (_ & _ & Hiff).
    assert (Hr : retry_count final = []).
    { vm_compute in E. inversion E. reflexivity. }
    exists final. split; [reflexivity|]. split; [exact Hr|].
    apply Hiff. exact Hr.
  - destruct (run_nodes dumps0 dumps0 loads0 sha0 str0 env_throttled state0)
      as [final|] eqn:E; [|vm_compute in E; discriminate].
    destruct (terminal_validation_passes_iff_no_retry dumps0 dumps0 loads0
                sha0 str0 env_throttled state0 final eq_refl eq_refl E)
      as (_ & _ & Hiff).
    assert (Hr : retry_count final = [("signal-intelligence", 1%Z)]).
    { vm_compute in E. inversion E. reflexivity. }
    exists final. split; [reflexivity|]. split; [exact Hr|].
    intros Hv. apply Hiff in Hv. rewrite Hr in Hv. discriminate.
Defined.

End GraphRuns.

(* ################################################################# *)
(** * Failures after the endpoint answered *)

Section AfterTheAnswer.
Import State AgentNode Vocabulary.
Local Open Scope string_scope.

Variable json_dumps : JSONValue -> string.
Variable json_dumps_sorted : JSONValue -> string.
Variable json_loads : string -> JSONValue + string.
Variable sha256_hexdigest : string -> string.
Variable py_str : JSONValue -> string.

Local Abbreviation try_block' :=
  (try_block json_dumps json_dumps_sorted json_loads sha256_hexdigest py_str).
Local Abbreviation agent_node' :=
  (agent_node json_dumps json_dumps_sorted json_loads sha256_hexdigest py_str).





End AfterTheAnswer.

Section AfterTheAnswerRuns.
Import State AgentNode Vocabulary Examples Scenarios.
Local Open Scope string_scope.


End AfterTheAnswerRuns.

(* ################################################################# *)
(** * What a whole run adds to the state *)

Section Additive.
Import State AgentNode Graph Vocabulary.
Local Open Scope string_scope.

Variable json_dumps : JSONValue -> string.
Variable json_dumps_sorted : JSONValue -> string.
Variable json_loads : string -> JSONValue + string.
Variable sha256_hexdigest : string -> string.
Variable py_str : JSONValue -> string.

Local Abbreviation graph_agent_node' :=
  (graph_agent_node json_dumps json_dumps_sorted json_loads sha256_hexdigest
     py_str).
Local Abbreviation run_agents' :=
  (run_agents json_dumps json_dumps_sorted json_loads sha256_hexdigest
     py_str).
Local Abbreviation run_nodes' :=
  (run_nodes json_dumps json_dumps_sorted json_loads sha256_hexdigest py_str).

Lemma dict_set_keeps {V : Type} k (v : V) k' d :
  Py.dict_get k' d <> None -> Py.dict_get k' (Py.dict_set k v d) <> None.
Proof.
  intros H. destruct (String.eqb_spec k' k) as [->|Hne].
  - rewrite dict_get_set_same. discriminate.
  - now rewrite dict_get_set_other.
Qed.

(** One agent node: two trace entries of its own, at most one error of
    its own, nothing removed. *)
Lemma graph_agent_node_adds env a s s' :
  graph_agent_node' env a s = NodeReturns s' ->
  agent_input s' = agent_input s
  /\ session_id s' = session_id s
  /\ start_timestamp s' = start_timestamp s
  /\ (exists added,
         execution_trace s' = (execution_trace s ++ added)%list
         /\ map node_id added = [a; a])
  /\ (exists new_errors,
         errors s' = (errors s ++ new_errors)%list
         /\ (List.length new_errors <= 1)%nat
         /\ Forall (fun e => se_agent_id e = a) new_errors)
  /\ (forall k, Py.dict_get k (hypotheses s) <> None ->
                Py.dict_get k (hypotheses s') <> None).
Proof.
  unfold graph_agent_node. intros H.
  destruct (agent_node_returns_cases _ _ _ _ _ _ _ _ _ _ H)
    as (_ & [(out & r & _ & ->)|(e & r & _ & ->)]).
  - do 3 (split; [reflexivity|]). split; [|split].
    + eexists. cbn. rewrite <- app_assoc. split; reflexivity.
    + exists []. cbn. rewrite app_nil_r. split; [reflexivity|].
      split; [lia|constructor].
    + intros k Hk. cbn. now apply dict_set_keeps.
  - unfold on_exception.
    destruct (is_retryable_error (map_exception_to_error_code e) && _)%bool.
    + do 3 (split; [reflexivity|]). split; [|split].
      * eexists. cbn. rewrite <- app_assoc. split; reflexivity.
      * exists []. cbn. rewrite app_nil_r. split; [reflexivity|].
        split; [lia|constructor].
      * intros k Hk. exact Hk.
    + do 3 (split; [reflexivity|]). split; [|split].
      * eexists. cbn. rewrite <- app_assoc. split; reflexivity.
      * eexists [_]. cbn. split; [reflexivity|].
        split; [lia|]. constructor; [reflexivity|constructor].
      * intros k Hk. cbn. now apply dict_set_keeps.
Qed.

Lemma run_agents_adds env agents s s' :
  run_agents' env agents s = Some s' ->
  agent_input s' = agent_input s
  /\ session_id s' = session_id s
  /\ start_timestamp s' = start_timestamp s
  /\ (exists added,
         execution_trace s' = (execution_trace s ++ added)%list
         /\ map node_id added = flat_map (fun a => [a; a]) agents)
  /\ (exists new_errors,
         errors s' = (errors s ++ new_errors)%list
         /\ (List.length new_errors <= List.length agents)%nat
         /\ Forall (fun e => In (se_agent_id e) agents) new_errors)
  /\ (forall k, Py.dict_get k (hypotheses s) <> None ->
                Py.dict_get k (hypotheses s') <> None).
Proof.
  revert s. induction agents as [|a agents IH]; intros s; cbn [run_agents].
  - intros [= <-]. do 3 (split; [reflexivity|]). split; [|split].
    + exists []. now rewrite app_nil_r.
    + exists []. rewrite app_nil_r. split; [reflexivity|].
      split; [cbn; lia|constructor].
    + auto.
  - destruct (graph_agent_node' env a s) as [s1| |] eqn:E; try discriminate.
    intros Hrun.
    destruct (graph_agent_node_adds env a s s1 E)
      as (Hi & Hs & Ht & (t1 & Htr & Hn1) & (e1 & Her & Hl1 & Hf1) & Hk1).
    destruct (IH s1 Hrun)
      as (Hi' & Hs' & Ht' & (t2 & Htr' & Hn2) & (e2 & Her' & Hl2 & Hf2)
          & Hk2).
    split; [congruence|]. split; [congruence|]. split; [congruence|].
    split; [|split].
    + exists (t1 ++ t2)%list. rewrite Htr', Htr, <- app_assoc.
      split; [reflexivity|]. rewrite map_app, Hn1, Hn2. reflexivity.
    + exists (e1 ++ e2)%list. rewrite Her', Her, <- app_assoc.
      split; [reflexivity|]. split.
      * rewrite length_app. cbn [List.length]. lia.
      * apply Forall_app. split.
        -- eapply Forall_impl; [|exact Hf1]. intros x ->. now left.
        -- eapply Forall_impl; [|exact Hf2]. intros x Hx. now right.
    + auto.
Qed.

(** X20.  A whole run is additive.  When all eight nodes return, the
    final state has the input envelope, session id and start timestamp it
    began with; its trace is the initial trace followed by exactly 14
    entries - two for each of the six agents in graph order, then one of
    the consensus node and one of the cost guardian; its errors are the
    initial errors followed by at most one error per agent; and every
    agent that had a hypothesis still has one. *)
Theorem whole_run_is_additive env s0 final :
  run_nodes' env s0 = Some final ->
  agent_input final = agent_input s0
  /\ session_id final = session_id s0
  /\ start_timestamp final = start_timestamp s0
  /\ (exists added,
         execution_trace final = (execution_trace s0 ++ added)%list
         /\ map node_id added
            = (flat_map (fun a => [a; a]) GRAPH_AGENTS
               ++ ["consensus"; "cost-guardian"])%list
         /\ List.length added = 14%nat)
  /\ (exists new_errors,
         errors final = (errors s0 ++ new_errors)%list
         /\ (List.length new_errors <= 6)%nat
         /\ Forall (fun e => In (se_agent_id e) GRAPH_AGENTS) new_errors)
  /\ (forall k, Py.dict_get k (hypotheses s0) <> None ->
                Py.dict_get k (hypotheses final) <> None).
Proof.
  unfold run_nodes.
  destruct (run_agents' env GRAPH_AGENTS s0) as [s1|] eqn:E1; [|discriminate].
  destruct (consensus_clock env) as [[c1 c2] c3].
  destruct (ConsensusNode.consensus_node c1 c2 c3 s1) as [s2|] eqn:E2;
    [|discriminate].
  destruct (cost_guardian_clock env) as [[g1 g2] g3].
  intros E3.
  destruct (run_agents_adds env GRAPH_AGENTS s0 s1 E1)
    as (Hi & Hs & Ht & (t1 & Htr & Hn1) & (e1 & Her & Hl1 & Hf1) & Hk1).
  destruct (consensus_node_result _ _ _ _ _ E2)
    as (conflicts & unified & minority & _ & ->).
  unfold CostGuardian.cost_guardian_node in E3.
  destruct (CostGuardian.estimate_incidents_remaining _ _); [|discriminate].
  inversion E3; subst final; clear E3.
  cbn [agent_input session_id start_timestamp execution_trace errors
       hypotheses CostGuardian.add_execution_trace
       ConsensusNode.add_execution_trace set_execution_trace
       set_budget_remaining set_cost_guardian set_consensus].
  do 3 (split; [assumption|]). split; [|split].
  - eexists (t1 ++ [_; _])%list. rewrite Htr, <- !app_assoc.
    split; [reflexivity|].
    split.
    + rewrite map_app, Hn1. reflexivity.
    + rewrite length_app, <- (length_map node_id t1), Hn1. reflexivity.
  - exists e1. split; [exact Her|]. split; [exact Hl1|exact Hf1].
  - exact Hk1.
Qed.

End Additive.

Section AdditiveRuns.
Import State AgentNode Graph Vocabulary Examples Scenarios.
Local Open Scope string_scope.

(** An instance of X20: every endpoint denies access, so each of the six
    agents adds one error. *)
Lemma whole_run_is_additive_witness :
  exists final added new_errors,
    run_nodes dumps0 dumps0 loads0 sha0 str0 env_denied state0 = Some final
    /\ agent_input final = agent_input state0
    /\ execution_trace final = added
    /\ List.length added = 14%nat
    /\ errors final = new_errors
    /\ List.length new_errors = 6%nat
    /\ Forall (fun e => In (se_agent_id e) GRAPH_AGENTS) new_errors.
Proof.
  destruct (run_nodes dumps0 dumps0 loads0 sha0 str0 env_denied state0)
    as [final|] eqn:E; [|vm_compute in E; discriminate].
  destruct (whole_run_is_additive dumps0 dumps0 loads0 sha0 str0 env_denied
              state0 final E)
    as (Hi & _ & _ & (added & Ht & _ & Hl) & (new_errors & He & _ & Hf) & _).
  exists final, added, new_errors. split; [reflexivity|].
  split; [exact Hi|]. split; [exact Ht|]. split; [exact Hl|].
  split; [exact He|]. split; [|exact Hf].
  change (List.length new_errors) with (List.length ([] ++ new_errors)%list).
  change [] with (errors state0) at 1. rewrite <- He.
  vm_compute in E. inversion E. reflexivity.
Defined.

End AdditiveRuns.

(* ################################################################# *)
(** * Properties of [redact_trace_data] *)

Section TraceDataFacts.
Import State Redaction Sanitizer Vocabulary.
Local Open Scope string_scope.

Variable json_dumps_default_str : JSONValue -> option string.
Variable py_str : JSONValue -> string.

Local Abbreviation redact_trace_data' :=
  (redact_trace_data json_dumps_default_str py_str).
Local Abbreviation sanitize_variables' :=
  (sanitize_variables json_dumps_default_str py_str).

Lemma heap_get_set_same r d h : heap_get r (heap_set r d h) = Some d.
Proof.
  induction h as [|[r' d'] h IH]; cbn [heap_set heap_get].
  - now rewrite Nat.eqb_refl.
  - destruct (Nat.eqb r r') eqn:E; cbn [heap_get]; rewrite E; auto.
Qed.

Lemma heap_get_set_other r r' d h :
  r' <> r -> heap_get r' (heap_set r d h) = heap_get r' h.
Proof.
  intros Hne. induction h as [|[r0 d0] h IH]; cbn [heap_set heap_get].
  - destruct (Nat.eqb_spec r' r); [contradiction|reflexivity].
  - destruct (Nat.eqb_spec r r0) as [->|Hr]; cbn [heap_get].
    + destruct (Nat.eqb_spec r' r0); [contradiction|reflexivity].
    + now rewrite IH.
Qed.

Lemma nested_lookup_found outer key event h r d v :
  nested_lookup outer key event h = Found r d v ->
  Py.dict_get outer event = Some (TDict r)
  /\ heap_get r h = Some d /\ Py.dict_get key d = Some v.
Proof.
  unfold nested_lookup.
  destruct (Py.dict_get outer event) as [[| | | |s|l|r0]|]; try discriminate.
  - destruct (Py.str_contains key s); discriminate.
  - destruct (existsb _ l); discriminate.
  - destruct (heap_get r0 h) as [d0|] eqn:Eh; [|discriminate].
    destruct (Py.dict_get key d0) as [v0|] eqn:Ev; [|discriminate].
    intros [= <- <- <-]. auto.
Qed.

(** A text step assigns the ["text"] key of one dict and nothing else. *)
Lemma redact_nested_text_keeps outer event h f h' f' r d :
  redact_nested_text outer event (h, f) = Some (h', f') ->
  heap_get r h = Some d ->
  exists d',
    heap_get r h' = Some d'
    /\ forall key, key <> "text" -> Py.dict_get key d' = Py.dict_get key d.
Proof.
  unfold redact_nested_text. cbn [fst snd].
  destruct (nested_lookup outer "text" event h) as [r0 d0 text| |] eqn:El;
    [|intros [= <- <-]; eauto|discriminate].
  destruct (redact_text text) as [[redacted w]|]; [|discriminate].
  intros [= <- <-] Hr.
  destruct (nested_lookup_found _ _ _ _ _ _ _ El) as (_ & Hd0 & _).
  destruct (Nat.eq_dec r r0) as [->|Hne].
  - rewrite heap_get_set_same. eexists. split; [reflexivity|].
    intros key Hk. rewrite Hr in Hd0. inversion Hd0; subst.
    now apply dict_get_set_other.
  - rewrite (heap_get_set_other _ _ _ _ Hne). eauto.
Qed.

(** X21.  [redact_trace_data] redacts the caller's event in place.  The
    copy it returns has the entries of the event it was given, so both
    share the dicts under ["prompt"] and ["response"]; after the call the
    prompt dict of the input itself holds the redacted text (when the
    response is another dict), and the flag is set when that text
    changed. *)
Theorem redact_trace_data_in_place event h event' h' flag r d t :
  redact_trace_data' event h = Some (event', h', flag) ->
  Py.dict_get "prompt" event = Some (TDict r) ->
  Py.dict_get "response" event <> Some (TDict r) ->
  heap_get r h = Some d ->
  Py.dict_get "text" d = Some (JStr t) ->
  event' = event
  /\ exists d',
      heap_get r h' = Some d'
      /\ Py.dict_get "text" d' = Some (JStr (fst (redact_pii t)))
      /\ (snd (redact_pii t) = true -> flag = true).
Proof.
  intros Hrun Hp Hresp Hd Ht. unfold redact_trace_data in Hrun.
  assert (H1 : redact_nested_text "prompt" event (h, false)
               = Some (heap_set r
                         (Py.dict_set "text" (JStr (fst (redact_pii t))) d) h,
                       snd (redact_pii t))).
  { unfold redact_nested_text, nested_lookup. cbn [fst snd].
    rewrite Hp, Hd, Ht. reflexivity. }
  rewrite H1 in Hrun. clear H1.
  set (d1 := Py.dict_set "text" (JStr (fst (redact_pii t))) d) in *.
  set (h1 := heap_set r d1 h) in *.
  assert (Hd1 : heap_get r h1 = Some d1) by apply heap_get_set_same.
  assert (Ht1 : Py.dict_get "text" d1 = Some (JStr (fst (redact_pii t))))
    by apply dict_get_set_same.
  destruct (redact_nested_text "response" event (h1, snd (redact_pii t)))
    as [[h2 f2]|] eqn:E2; [|discriminate].
  assert (Hh2 : heap_get r h2 = Some d1 /\ (snd (redact_pii t) = true -> f2 = true)).
  { unfold redact_nested_text in E2. cbn [fst snd] in E2.
    destruct (nested_lookup "response" "text" event h1)
      as [r2 d2 text2| |] eqn:El; [| |discriminate].
    - destruct (redact_text text2) as [[redacted w]|]; [|discriminate].
      inversion E2; subst h2 f2; clear E2.
      destruct (nested_lookup_found _ _ _ _ _ _ _ El) as (Hr2 & _ & _).
      split.
      + rewrite heap_get_set_other; [exact Hd1|].
        intros ->. apply Hresp. exact Hr2.
      + intros ->. reflexivity.
    - inversion E2; subst. auto. }
  destruct Hh2 as [Hd2 Hf2].
  unfold nested_lookup in Hrun. rewrite Hp, Hd2 in Hrun.
  destruct (Py.dict_get "variables" d1) as [original_vars|].
  - destruct (sanitize_any _ _ original_vars) as [sanitized|];
      [|discriminate].
    destruct (variables_changed original_vars sanitized) as [changed|];
      [|discriminate].
    inversion Hrun; subst; clear Hrun. split; [reflexivity|].
    eexists. split; [apply heap_get_set_same|]. split.
    + rewrite dict_get_set_other; [exact Ht1|discriminate].
    + intros Hs. rewrite (Hf2 Hs). reflexivity.
  - inversion Hrun; subst; clear Hrun. split; [reflexivity|].
    exists d1. auto.
Qed.

(** Sanitizing keeps every key. *)
Lemma sanitize_fold_keeps_key k (variables : JSONDict)
    (acc : list (string * string)) :
  Py.dict_get k acc <> None \/ Py.dict_get k variables <> None ->
  Py.dict_get k
    (fold_left
       (fun sanitized (item : string * JSONValue) =>
          Py.dict_set (fst item)
            (sanitize_value json_dumps_default_str py_str (snd item))
            sanitized)
       variables acc) <> None.
Proof.
  revert acc. induction variables as [|[k0 v0] variables IH]; intros acc H;
    cbn [fold_left].
  - destruct H as [H|H]; [exact H|contradiction].
  - apply IH. cbn [fst snd]. cbn [Py.dict_get] in H.
    destruct (String.eqb_spec k k0) as [->|Hne].
    + left. rewrite dict_get_set_same. discriminate.
    + destruct H as [H|H]; [left|right; exact H].
      now rewrite dict_get_set_other.
Qed.

Lemma sanitize_variables_keeps_key k variables :
  Py.dict_get k variables <> None ->
  Py.dict_get k (sanitize_variables' variables) <> None.
Proof.
  intros H. unfold sanitize_variables.
  destruct variables as [|item rest] eqn:E; [contradiction|].
  rewrite <- E in *. apply sanitize_fold_keeps_key. now right.
Qed.

Lemma dict_get_in_keys {V : Type} k (v : V) d :
  Py.dict_get k d = Some v -> In k (Py.dict_keys d).
Proof.
  induction d as [|[k0 v0] d IH]; cbn [Py.dict_get]; [discriminate|].
  destruct (String.eqb_spec k k0) as [->|_]; [now left|].
  intros H. right. now apply IH.
Qed.

(** X22.  The flag of [redact_trace_data] is also set when nothing was
    redacted: whenever one of the prompt variables is not a string (a
    number, a list, ...), its stringified value differs from it and the
    function reports a redaction. *)
Theorem non_string_variable_sets_flag
    event h event' h' flag r d variables k v :
  redact_trace_data' event h = Some (event', h', flag) ->
  Py.dict_get "prompt" event = Some (TDict r) ->
  heap_get r h = Some d ->
  Py.dict_get "variables" d = Some (JDict variables) ->
  Py.dict_get k variables = Some v ->
  (forall s, v <> JStr s) ->
  flag = true.
Proof.
  intros Hrun Hp Hd Hvars Hk Hv. unfold redact_trace_data in Hrun.
  destruct (redact_nested_text "prompt" event (h, false))
    as [[h1 f1]|] eqn:E1; [|discriminate].
  destruct (redact_nested_text "response" event (h1, f1))
    as [[h2 f2]|] eqn:E2; [|discriminate].
  destruct (redact_nested_text_keeps _ _ _ _ _ _ r d E1 Hd)
    as (d1 & Hd1 & Hsame1).
  destruct (redact_nested_text_keeps _ _ _ _ _ _ r d1 E2 Hd1)
    as (d2 & Hd2 & Hsame2).
  assert (Hv2 : Py.dict_get "variables" d2 = Some (JDict variables)).
  { rewrite Hsame2, Hsame1; [exact Hvars|discriminate|discriminate]. }
  unfold nested_lookup in Hrun. rewrite Hp, Hd2, Hv2 in Hrun.
  cbn [sanitize_any variables_changed] in Hrun.
  inversion Hrun; subst; clear Hrun.
  assert (Hc : any_variable_changed variables (sanitize_variables' variables)
               = true).
  { unfold any_variable_changed. apply existsb_exists. exists k.
    split; [exact (dict_get_in_keys _ _ _ Hk)|].
    destruct (Py.dict_get k (sanitize_variables' variables)) as [sv|] eqn:Es.
    - rewrite Hk. destruct v; try reflexivity. exfalso. exact (Hv s eq_refl).
    - exfalso. apply (sanitize_variables_keeps_key k variables); [|exact Es].
      rewrite Hk. discriminate. }
  rewrite Hc. apply Bool.orb_true_r.
Qed.

End TraceDataFacts.

Section TraceDataRuns.
Import State Redaction Sanitizer Vocabulary Examples Scenarios.
Local Open Scope string_scope.

(** An instance of X21: the prompt dict of the input ends up redacted. *)
Lemma redact_trace_data_in_place_witness :
  exists event' h' flag d',
    redact_trace_data dumps_default0 str0 event1 heap1
    = Some (event', h', flag)
    /\ event' = event1
    /\ heap_get 0 heap1 = Some prompt1
    /\ heap_get 0 h' = Some d'
    /\ Py.dict_get "text" d' = Some (JStr "Email me at [EMAIL_REDACTED]")
    /\ flag = true.
Proof.
  destruct (redact_trace_data dumps_default0 str0 event1 heap1)
    as [[[event' h'] flag]|] eqn:E; [|vm_compute in E; discriminate].
  assert (Hresp : Py.dict_get "response" event1 <> Some (TDict 0))
    by discriminate.
  destruct (redact_trace_data_in_place dumps_default0 str0 event1 heap1
              event' h' flag 0%nat prompt1 "Email me at user@example.com"
              E eq_refl Hresp eq_refl eq_refl)
    as (He & d' & Hd' & Ht & Hf).
  exists event', h', flag, d'. split; [reflexivity|]. split; [exact He|].
  split; [reflexivity|]. split; [exact Hd'|]. split; [exact Ht|].
  apply Hf. vm_compute. reflexivity.
Defined.

(** An instance of X22: no text of the event holds PII, yet the numeric
    variable sets the flag. *)
Lemma non_string_variable_sets_flag_witness :
  redact_pii "restart the pool" = ("restart the pool", false)
  /\ redact_pii "ok" = ("ok", false)
  /\ exists event' h' flag,
      redact_trace_data dumps_default0 str0 event1 heap_clean
      = Some (event', h', flag)
      /\ flag = true.
Proof.
  split; [vm_compute; reflexivity|]. split; [vm_compute; reflexivity|].
  destruct (redact_trace_data dumps_default0 str0 event1 heap_clean)
    as [[[event' h'] flag]|] eqn:E; [|vm_compute in E; discriminate].
  exists event', h', flag. split; [reflexivity|].
  assert (Hv : forall s, JInt 42 <> JStr s) by discriminate.
  exact (non_string_variable_sets_flag dumps_default0 str0 event1 heap_clean
           event' h' flag 0%nat prompt_clean [("count", JInt 42)] "count"
           (JInt 42) E eq_refl eq_refl eq_refl eq_refl Hv).
Defined.

End TraceDataRuns.

(* ################################################################# *)
(** * What an agent sees of a run *)

Section Independence.
Import State AgentNode Graph Vocabulary.
Local Open Scope string_scope.

Variable json_dumps : JSONValue -> string.
Variable json_dumps_sorted : JSONValue -> string.
Variable json_loads : string -> JSONValue + string.
Variable sha256_hexdigest : string -> string.
Variable py_str : JSONValue -> string.

Local Abbreviation try_block' :=
  (try_block json_dumps json_dumps_sorted json_loads sha256_hexdigest py_str).
Local Abbreviation run_agents' :=
  (run_agents json_dumps json_dumps_sorted json_loads sha256_hexdigest
     py_str).
Local Abbreviation run_nodes' :=
  (run_nodes json_dumps json_dumps_sorted json_loads sha256_hexdigest py_str).

(** The [try] block reads the input envelope and the budget, nothing else
    of the state. *)
Lemma try_block_reads cfg remote clock s s' :
  agent_input s' = agent_input s ->
  budget_remaining s' = budget_remaining s ->
  try_block' cfg remote clock s' = try_block' cfg remote clock s.
Proof.
  intros Hi Hb. unfold try_block, build_request. rewrite Hi, Hb. reflexivity.
Qed.

Lemma run_agents_frame env agents s s' :
  run_agents' env agents s = Some s' ->
  agent_input s' = agent_input s /\ budget_remaining s' = budget_remaining s.
Proof.
  revert s. induction agents as [|a agents IH]; intros s; cbn [run_agents].
  - intros [= <-]. split; reflexivity.
  - unfold graph_agent_node.
    destruct (agent_node _ _ _ _ _ _ _ _ s) as [s1| |] eqn:E;
      try discriminate.
    intros Hrun. destruct (IH s1 Hrun) as [Hi Hb].
    destruct (agent_node_frame _ _ _ _ _ _ _ _ _ _ E) as (Hb1 & Hi1 & _).
    split; congruence.
Qed.

(** X23.  The agents of a run do not see each other.  Whatever agents
    ran before, with whatever outcome, the [try] block of an agent - the
    request it sends (budget included), the answer it gets, the output or
    the exception that results - is the one it would have on the state
    the run started from. *)
Theorem agents_do_not_see_each_other env before a s0 s1 :
  run_agents' env before s0 = Some s1 ->
  build_request json_dumps (graph_agent_config env a) s1
  = build_request json_dumps (graph_agent_config env a) s0
  /\ try_block' (graph_agent_config env a) (endpoint env a)
       (agent_clock env a) s1
     = try_block' (graph_agent_config env a) (endpoint env a)
         (agent_clock env a) s0.
Proof.
  intros Hrun. destruct (run_agents_frame env before s0 s1 Hrun) as [Hi Hb].
  split; [|now apply try_block_reads].
  unfold build_request. now rewrite Hi, Hb.
Qed.

(** X24.  The budget of a run is charged once, at its end.  When all
    eight nodes return, the consensus and the cost of the final state are
    computed from the final hypotheses, and the final budget is the budget
    the run started with minus the total cost: no agent node changes the
    budget, so every agent is sent the initial budget. *)
Theorem whole_run_charges_budget_once env s0 final :
  run_nodes' env s0 = Some final ->
  exists cr cg,
    consensus final = Some cr
    /\ cost_guardian final = Some cg
    /\ aggregated_confidence cr
       = ConsensusNode.aggregate_confidence (hypotheses final)
           ConsensusNode.AGENT_WEIGHTS
    /\ per_agent_cost cg
       = CostGuardian.aggregate_per_agent_costs (hypotheses final)
    /\ total_cost cg
       = CostGuardian.calculate_total_cost (per_agent_cost cg)
    /\ budget_remaining final
       = (budget_remaining s0 - total_cost cg)%float
    /\ cg_budget_remaining cg = budget_remaining final.
Proof.
  unfold run_nodes.
  destruct (run_agents' env GRAPH_AGENTS s0) as [s1|] eqn:E1; [|discriminate].
  destruct (consensus_clock env) as [[c1 c2] c3].
  destruct (ConsensusNode.consensus_node c1 c2 c3 s1) as [s2|] eqn:E2;
    [|discriminate].
  destruct (cost_guardian_clock env) as [[g1 g2] g3].
  intros E3.
  destruct (run_agents_frame env GRAPH_AGENTS s0 s1 E1) as [_ Hb].
  destruct (consensus_node_result _ _ _ _ _ E2)
    as (conflicts & unified & minority & _ & ->).
  unfold CostGuardian.cost_guardian_node in E3.
  destruct (CostGuardian.estimate_incidents_remaining _ _); [|discriminate].
  inversion E3; subst final; clear E3.
  eexists _, _. split; [reflexivity|]. split; [reflexivity|].
  cbn [aggregated_confidence per_agent_cost total_cost cg_budget_remaining
       budget_remaining hypotheses CostGuardian.add_execution_trace
       ConsensusNode.add_execution_trace set_execution_trace
       set_budget_remaining set_cost_guardian set_consensus].
  split; [reflexivity|]. split; [reflexivity|]. split; [reflexivity|].
  unfold CostGuardian.calculate_budget_remaining. rewrite Hb.
  split; reflexivity.
Qed.

End Independence.

Section IndependenceRuns.
Import State AgentNode Graph Vocabulary Examples Scenarios.
Local Open Scope string_scope.

(** An instance of X23: the last agent after the five before it. *)
Lemma agents_do_not_see_each_other_witness :
  exists s1,
    run_agents dumps0 dumps0 loads0 sha0 str0 env_throttled
      (firstn 5 GRAPH_AGENTS) state0 = Some s1
    /\ List.length (hypotheses s1) = 4%nat
    /\ try_block dumps0 dumps0 loads0 sha0 str0
         (graph_agent_config env_throttled "response-strategy")
         (endpoint env_throttled "response-strategy")
         (agent_clock env_throttled "response-strategy") s1
       = try_block dumps0 dumps0 loads0 sha0 str0
           (graph_agent_config env_throttled "response-strategy")
           (endpoint env_throttled "response-strategy")
           (agent_clock env_throttled "response-strategy") state0.
Proof.
  destruct (run_agents dumps0 dumps0 loads0 sha0 str0 env_throttled
              (firstn 5 GRAPH_AGENTS) state0) as [s1|] eqn:E;
    [|vm_compute in E; discriminate].
  exists s1. split; [reflexivity|].
  split; [vm_compute in E; inversion E; reflexivity|].
  exact (proj2 (agents_do_not_see_each_other dumps0 dumps0 loads0 sha0 str0
                  env_throttled (firstn 5 GRAPH_AGENTS) "response-strategy"
                  state0 s1 E)).
Defined.

(** An instance of X24: six denied agents cost nothing, the budget of 5
    USD is left as it was. *)
Lemma whole_run_charges_budget_once_witness :
  exists final cg,
    run_nodes dumps0 dumps0 loads0 sha0 str0 env_denied state0 = Some final
    /\ cost_guardian final = Some cg
    /\ budget_remaining final = (budget_remaining state0 - total_cost cg)%float
    /\ budget_remaining final = 5%float.
Proof.
  destruct (run_nodes dumps0 dumps0 loads0 sha0 str0 env_denied state0)
    as [final|] eqn:E; [|vm_compute in E; discriminate].
  destruct (whole_run_charges_budget_once dumps0 dumps0 loads0 sha0 str0
              env_denied state0 final E)
    as (cr & cg & _ & Hcg & _ & _ & _ & Hb & _).
  exists final, cg. split; [reflexivity|]. split; [exact Hcg|].
  split; [exact Hb|].
  vm_compute in E. inversion E. reflexivity.
Defined.

End IndependenceRuns.
